(** * StructLayout: the clang layout parser (Parsers/ClangLayout/src/Parser.cpp)

    A shallow embedding of the declaration locator
    ([FindStructAtLocationVisitor]) and of the layout-tree builder
    ([Helpers::ComputeStruct]) together with the file table and the
    location resolver they use, followed by the properties stated about
    them.

    The clang front end is an external collaborator.  Its objects are
    modelled by what [Parser.cpp] reads from them: a record declaration
    carries its bases, fields, virtual bases and the [ASTRecordLayout]
    that [ASTContext::getASTRecordLayout] returns for it. *)

From stdpp Require Import base option list strings gmap sorting.
From Stdlib Require Import ZArith Lia.

#[local] Set Warnings "-clear-no-such-hyp".

Local Open Scope Z_scope.

(** ** Machine integers *)

(** [static_cast<int>] of a [size_t]: reduction modulo 2^32 read as a
    two's complement 32-bit value. *)
Definition static_cast_int (n : nat) : Z :=
  (Z.of_nat n + 2 ^ 31) mod 2 ^ 32 - 2 ^ 31.

(** Conversion of an integer to [uint64_t] / [int64_t]. *)
Definition to_uint64 (z : Z) : Z := z mod 2 ^ 64.
Definition to_int64 (z : Z) : Z := (z + 2 ^ 63) mod 2 ^ 64 - 2 ^ 63.

(** ** LayoutDefinitions.h *)

Module Layout.

(** Modelled from the spec: [Layout::Category] is declared in
    LayoutDefinitions.h, which is not among the sources at hand.  The
    spec lists eleven categories; they are named here as [Parser.cpp]
    names them ([ComplexField] is the spec's [RootOrComplexField]). *)
Inductive Category : Set :=
| ComplexField | SimpleField | Bitfield
| NVPrimaryBase | NVBase | VPrimaryBase | VBase
| VTablePtr | VFTablePtr | VBTablePtr | VtorDisp.

#[global] Instance Category_eq_dec : EqDecision Category.
Proof. solve_decision. Defined.

(** Modelled from the spec: [Layout::Location], with the members
    [RetrieveLocation] assigns; [fileIndex] is an [int], [line] and
    [column] are [unsigned int]. *)
Record Location : Set := mkLocation {
  fileIndex : Z;
  line : N;
  column : N
}.

#[global] Instance Location_eq_dec : EqDecision Location.
Proof. solve_decision. Defined.

(** Modelled from the spec: [Layout::Node], with the members
    [ComputeStruct] assigns.  [children] is a [std::vector<Node*>] owned
    by the node; offsets and sizes are signed byte counts. *)
#[warnings="-register-all"]
Inductive Node : Type := mkNode {
  name : string;
  type : string;
  typeLocation : Location;
  fieldLocation : Location;
  offset : Z;
  size : Z;
  align : Z;
  nature : Category;
  children : list Node
}.

(** Modelled from the spec: [Layout::Result], the root node (null when
    absent) and the file table. *)
Record Result : Type := mkResult {
  node : option Node;
  files : list string
}.

(** The constructors of [Location] and [Node] are in LayoutDefinitions.h.
    The values they give to the members are parameters of the
    development; strings and vectors start empty. *)
Class Constructors : Type := mkConstructors {
  Location_new : Location;
  Node_offset : Z;
  Node_size : Z;
  Node_align : Z;
  Node_nature : Category
}.

Definition Node_new `{Constructors} : Node :=
  mkNode "" "" Location_new Location_new Node_offset Node_size Node_align
    Node_nature [].

(** Assignments to one member of a node. *)
Definition set_name (v : string) (n : Node) : Node :=
  mkNode v (type n) (typeLocation n) (fieldLocation n) (offset n) (size n)
    (align n) (nature n) (children n).
Definition set_type (v : string) (n : Node) : Node :=
  mkNode (name n) v (typeLocation n) (fieldLocation n) (offset n) (size n)
    (align n) (nature n) (children n).
Definition set_typeLocation (v : Location) (n : Node) : Node :=
  mkNode (name n) (type n) v (fieldLocation n) (offset n) (size n)
    (align n) (nature n) (children n).
Definition set_fieldLocation (v : Location) (n : Node) : Node :=
  mkNode (name n) (type n) (typeLocation n) v (offset n) (size n)
    (align n) (nature n) (children n).
Definition set_offset (v : Z) (n : Node) : Node :=
  mkNode (name n) (type n) (typeLocation n) (fieldLocation n) v (size n)
    (align n) (nature n) (children n).
Definition set_size (v : Z) (n : Node) : Node :=
  mkNode (name n) (type n) (typeLocation n) (fieldLocation n) (offset n) v
    (align n) (nature n) (children n).
Definition set_align (v : Z) (n : Node) : Node :=
  mkNode (name n) (type n) (typeLocation n) (fieldLocation n) (offset n)
    (size n) v (nature n) (children n).
Definition set_nature (v : Category) (n : Node) : Node :=
  mkNode (name n) (type n) (typeLocation n) (fieldLocation n) (offset n)
    (size n) (align n) v (children n).
Definition push_back (c : Node) (n : Node) : Node :=
  mkNode (name n) (type n) (typeLocation n) (fieldLocation n) (offset n)
    (size n) (align n) (nature n) (children n ++ [c]).

End Layout.

(** ** The clang collaborator, as read by the parser *)

Module clang.

(** [clang::FileID]: an [int]; 0 is the invalid identifier and the hash
    value is the identifier converted to [unsigned]. *)
Record FileID : Set := mkFileID { ID : Z }.

#[global] Instance FileID_eq_dec : EqDecision FileID.
Proof. solve_decision. Defined.

Definition FileID_isValid (f : FileID) : bool := negb (ID f =? 0).
Definition getHashValue (f : FileID) : Z := ID f mod 2 ^ 32.

(** [clang::SourceLocation]: its raw encoding; 0 is the invalid
    location. *)
Definition SourceLocation : Set := N.
Bind Scope N_scope with SourceLocation.
Definition SourceLocation_isValid (l : SourceLocation) : bool :=
  negb (l =? 0)%N.

(** [clang::PresumedLoc] *)
Record PresumedLoc : Set := mkPresumedLoc {
  PresumedLoc_isValid : bool;
  getFileID : FileID;
  getFilename : string;
  getLine : N;
  getColumn : N
}.

Record SourceRange : Set := mkSourceRange {
  getBegin : SourceLocation;
  getEnd : SourceLocation
}.

(** [clang::SourceManager] *)
Record SourceManager : Type := mkSourceManager {
  getPresumedLoc : SourceLocation -> PresumedLoc;
  SourceManager_getFileID : SourceLocation -> FileID;
  getMainFileID : FileID
}.

(** [clang::TargetInfo]: widths are in bits. *)
Record TargetInfo : Set := mkTargetInfo {
  isMicrosoft : bool;
  getPointerWidth : Z;
  getPointerAlign : Z;
  getCharWidth : Z
}.

(** [clang::ASTContext] *)
Record ASTContext : Type := mkASTContext {
  getSourceManager : SourceManager;
  getTargetInfo : TargetInfo
}.

(** [ASTContext::toCharUnitsFromBits] and [ASTContext::toBits]; the
    division of C++ truncates. *)
Definition toCharUnitsFromBits (context : ASTContext) (BitSize : Z) : Z :=
  Z.quot BitSize (getCharWidth (getTargetInfo context)).
Definition toBits (context : ASTContext) (CharSize : Z) : Z :=
  CharSize * getCharWidth (getTargetInfo context).

(** A declaration is identified by its address. *)
Definition DeclID : Set := nat.
Bind Scope nat_scope with DeclID.

(** [clang::ASTRecordLayout], the ABI facts of one record.  Offsets and
    sizes are [CharUnits] quantities, except [getFieldOffset], which is
    a [uint64_t] count of bits. *)
Record ASTRecordLayout : Type := mkASTRecordLayout {
  getSize : Z;
  getNonVirtualSize : Z;
  getAlignment : Z;
  getPrimaryBase : option DeclID;
  hasOwnVFPtr : bool;
  hasOwnVBPtr : bool;
  getVBPtrOffset : Z;
  getBaseClassOffset : DeclID -> Z;
  getVBaseClassOffset : DeclID -> Z;
  hasVtorDisp : DeclID -> bool;
  getFieldOffset : nat -> Z
}.

(** [clang::TypeInfo] *)
Record TypeInfo : Set := mkTypeInfo { Width : Z; Align : Z }.

(** [clang::CXXBaseSpecifier] over the type of record declarations. *)
Record CXXBaseSpecifier_ (D : Type) : Type := mkCXXBaseSpecifier {
  base_isDependentType : bool;
  isVirtual : bool;
  base_getAsCXXRecordDecl : D
}.
Arguments mkCXXBaseSpecifier {D}.
Arguments base_isDependentType {D}.
Arguments isVirtual {D}.
Arguments base_getAsCXXRecordDecl {D}.

(** [clang::FieldDecl] over the type of record declarations:
    [field_getAsCXXRecordDecl] is [getType()->getAsCXXRecordDecl()],
    [getTypeInfo] is [ASTContext::getTypeInfo(getType())]. *)
Record FieldDecl_ (D : Type) : Type := mkFieldDecl {
  getNameAsString : string;
  getAsString : string;
  field_getLocation : SourceLocation;
  field_getAsCXXRecordDecl : option D;
  isBitField : bool;
  getBitWidthValue : Z;
  getTypeInfo : TypeInfo
}.
Arguments mkFieldDecl {D}.
Arguments getNameAsString {D}.
Arguments getAsString {D}.
Arguments field_getLocation {D}.
Arguments field_getAsCXXRecordDecl {D}.
Arguments isBitField {D}.
Arguments getBitWidthValue {D}.
Arguments getTypeInfo {D}.

(** [clang::CXXRecordDecl] *)
#[warnings="-register-all"]
Inductive CXXRecordDecl : Type := mkCXXRecordDecl {
  declID : DeclID;
  getLocation : SourceLocation;
  getSourceRange : SourceRange;
  getQualifiedNameAsString : string;
  isDependentType : bool;
  getDefinition : bool;
  isInvalidDecl : bool;
  isCompleteDefinition : bool;
  isDynamicClass : bool;
  getASTRecordLayout : ASTRecordLayout;
  bases : list (CXXBaseSpecifier_ CXXRecordDecl);
  fields : list (FieldDecl_ CXXRecordDecl);
  vbases : list (CXXBaseSpecifier_ CXXRecordDecl)
}.

Abbreviation CXXBaseSpecifier := (CXXBaseSpecifier_ CXXRecordDecl).
Abbreviation FieldDecl := (FieldDecl_ CXXRecordDecl).

(** [clang::VarDecl]: [var_getAsCXXRecordDecl] is
    [getType()->getAsCXXRecordDecl()]. *)
Record VarDecl : Type := mkVarDecl {
  var_getLocation : SourceLocation;
  var_getSourceRange : SourceRange;
  var_getAsCXXRecordDecl : option CXXRecordDecl
}.

End clang.

Import clang.

(** ** std::stable_sort

    [llvm::stable_sort] is fixed by its contract: for a comparator that is
    a strict weak order the result is the one ordered permutation that
    keeps equivalent elements in their input order.  It is embedded as a
    stable insertion sort, whose three properties are proved below. *)

Section stable_sort.
Context {A : Type} (less : A -> A -> bool).

Fixpoint stable_insert (x : A) (l : list A) : list A :=
  match l with
  | [] => [x]
  | y :: l' => if less y x then y :: stable_insert x l' else x :: y :: l'
  end.

Definition stable_sort (l : list A) : list A := foldr stable_insert [] l.

End stable_sort.

(** ** namespace ClangParser *)

Module ClangParser.

Record LocationFilter : Set := mkLocationFilter { row : N; col : N }.

(** The globals of the translation unit: [g_filenameLookup] is an
    [unordered_map<unsigned int, size_t>]. *)
Record Globals : Type := mkGlobals {
  g_filenameLookup : gmap Z nat;
  g_result : Layout.Result;
  g_locationFilter : LocationFilter
}.

(** Computations over the globals that a failed [assert] aborts. *)
Definition M (A : Type) : Type := Globals -> option (A * Globals).

Definition ret {A : Type} (a : A) : M A := fun g => Some (a, g).

Definition bind {A B : Type} (c : M A) (k : A -> M B) : M B :=
  fun g => match c g with
           | Some (a, g') => k a g'
           | None => None
           end.

Definition assert (b : bool) : M unit :=
  fun g => if b then Some (tt, g) else None.

Definition lift {A : Type} (f : Globals -> A * Globals) : M A :=
  fun g => Some (f g).

Notation "'let*' x ':=' c 'in' k" := (bind c (fun x => k))
  (at level 10, x name, c at level 100, k at level 200, only parsing).

(** A [for] loop over a range that updates one local. *)
Section foldM.
Context {A B : Type} (f : A -> B -> M A).

Fixpoint foldM (a : A) (l : list B) : M A :=
  match l with
  | [] => ret a
  | x :: l' => let* a' := f a x in foldM a' l'
  end.

End foldM.

Module Helpers.

(** [ClearResult].  [DestroyTree] only releases the nodes; the tree is a
    value here and is dropped with [g_result.node]. *)
Definition ClearResult (g : Globals) : Globals :=
  mkGlobals ∅ (Layout.mkResult None []) (g_locationFilter g).

(** [AddFileToDictionary].  [unordered_map::insert] leaves the map as it
    is when the key is present and returns the entry found. *)
Definition AddFileToDictionary (fileId : FileID) (filename : string)
    (g : Globals) : nat * Globals :=
  let nextIndex := length (Layout.files (g_result g)) in
  match g_filenameLookup g !! getHashValue fileId with
  | Some index => (index, g)
  | None =>
      (nextIndex,
       mkGlobals (<[getHashValue fileId := nextIndex]> (g_filenameLookup g))
         (Layout.mkResult (Layout.node (g_result g))
            (Layout.files (g_result g) ++ [filename]))
         (g_locationFilter g))
  end.

(** [RetrieveLocation]: [output] is passed by reference; the value
    returned is its content when the function returns. *)
Definition RetrieveLocation (output : Layout.Location) (context : ASTContext)
    (location : SourceLocation) (g : Globals) : Layout.Location * Globals :=
  let sourceManager := getSourceManager context in
  if negb (SourceLocation_isValid location) then (output, g) else
  let startLocation := getPresumedLoc sourceManager location in
  let fileId := getFileID startLocation in
  if negb (PresumedLoc_isValid startLocation) || negb (FileID_isValid fileId)
  then (output, g) else
  let '(index, g') :=
    AddFileToDictionary fileId (getFilename startLocation) g in
  (Layout.mkLocation (static_cast_int index) (getLine startLocation)
     (getColumn startLocation), g').

(** A record declaration reached from the one being laid out, paired with
    the recursive call [ComputeStruct(context, decl, .)] on it. *)
Definition Sub : Type := CXXRecordDecl * (bool -> M Layout.Node).

(** The recursive call [ComputeStruct(context, decl, includeVirtualBases)]. *)
Definition recurse (decl : Sub) (includeVirtualBases : bool)
    : M Layout.Node :=
  decl.2 includeVirtualBases.

Section ComputeStruct.
Context `{Layout.Constructors}.

(** The hidden pointer nodes: [nature], [offset] and the pointer width
    and alignment of the target. *)
Definition vPtrNode (context : ASTContext) (nature : Layout.Category)
    (offset : Z) : Layout.Node :=
  let vPtrNode := Layout.Node_new in
  let vPtrNode := Layout.set_nature nature vPtrNode in
  let vPtrNode := Layout.set_offset offset vPtrNode in
  let vPtrNode := Layout.set_size
    (toCharUnitsFromBits context
       (to_int64 (getPointerWidth (getTargetInfo context)))) vPtrNode in
  let vPtrNode := Layout.set_align
    (toCharUnitsFromBits context
       (to_int64 (getPointerAlign (getTargetInfo context)))) vPtrNode in
  vPtrNode.

(** Body of the loop that collects the non-virtual bases. *)
Definition collect_nvbase (bases : list Sub) (base : CXXBaseSpecifier_ Sub)
    : M (list Sub) :=
  let* _ := assert (negb (base_isDependentType base)) in
  if negb (isVirtual base)
  then ret (bases ++ [base_getAsCXXRecordDecl base])
  else ret bases.

(** Body of the loop over the sorted non-virtual bases. *)
Definition compute_nvbase (layout : ASTRecordLayout)
    (primaryBase : option DeclID) (node : Layout.Node) (base : Sub)
    : M Layout.Node :=
  let* baseNode := recurse base false in
  let baseNode :=
    Layout.set_offset (getBaseClassOffset layout (declID base.1)) baseNode in
  let baseNode :=
    Layout.set_nature
      (if bool_decide (Some (declID base.1) = primaryBase)
       then Layout.NVPrimaryBase else Layout.NVBase) baseNode in
  ret (Layout.push_back baseNode node).

(** Body of the loop over the fields; the loop state is the node and
    [fieldNo]. *)
Definition compute_field (context : ASTContext) (layout : ASTRecordLayout)
    (st : Layout.Node * nat) (field : FieldDecl_ Sub)
    : M (Layout.Node * nat) :=
  let '(node, fieldNo) := st in
  let localFieldOffsetInBits := getFieldOffset layout fieldNo in
  let fieldOffset :=
    toCharUnitsFromBits context (to_int64 localFieldOffsetInBits) in
  let* node :=
    match field_getAsCXXRecordDecl field with
    | Some fieldDeclarationCXX =>
        let* fieldNode := recurse fieldDeclarationCXX true in
        let fieldNode := Layout.set_name (getNameAsString field) fieldNode in
        let fieldNode := Layout.set_type (getAsString field) fieldNode in
        let fieldNode := Layout.set_offset fieldOffset fieldNode in
        let fieldNode := Layout.set_nature Layout.ComplexField fieldNode in
        let* fieldLocation :=
          lift (RetrieveLocation (Layout.fieldLocation fieldNode) context
                  (field_getLocation field)) in
        let fieldNode := Layout.set_fieldLocation fieldLocation fieldNode in
        ret (Layout.push_back fieldNode node)
    | None =>
        if isBitField field then
          let fieldInfo := getTypeInfo field in
          let fieldNode := Layout.Node_new in
          let fieldNode := Layout.set_name (getNameAsString field) fieldNode in
          let fieldNode := Layout.set_type (getAsString field) fieldNode in
          let fieldNode := Layout.set_nature Layout.Bitfield fieldNode in
          let fieldNode := Layout.set_offset fieldOffset fieldNode in
          let fieldNode := Layout.set_size
            (toCharUnitsFromBits context (to_int64 (Width fieldInfo)))
            fieldNode in
          let fieldNode := Layout.set_align
            (toCharUnitsFromBits context (to_int64 (Align fieldInfo)))
            fieldNode in
          let extraData := Layout.Node_new in
          let extraData := Layout.set_offset
            (to_uint64 (localFieldOffsetInBits
                        - to_uint64 (toBits context fieldOffset)))
            extraData in
          let extraData :=
            Layout.set_size (getBitWidthValue field) extraData in
          let fieldNode := Layout.push_back extraData fieldNode in
          ret (Layout.push_back fieldNode node)
        else
          let fieldInfo := getTypeInfo field in
          let fieldNode := Layout.Node_new in
          let fieldNode := Layout.set_name (getNameAsString field) fieldNode in
          let fieldNode := Layout.set_type (getAsString field) fieldNode in
          let fieldNode := Layout.set_nature Layout.SimpleField fieldNode in
          let fieldNode := Layout.set_offset fieldOffset fieldNode in
          let fieldNode := Layout.set_size
            (toCharUnitsFromBits context (to_int64 (Width fieldInfo)))
            fieldNode in
          let fieldNode := Layout.set_align
            (toCharUnitsFromBits context (to_int64 (Align fieldInfo)))
            fieldNode in
          let* fieldLocation :=
            lift (RetrieveLocation (Layout.fieldLocation fieldNode) context
                    (field_getLocation field)) in
          let fieldNode := Layout.set_fieldLocation fieldLocation fieldNode in
          ret (Layout.push_back fieldNode node)
    end in
  ret (node, S fieldNo).

(** Body of the loop over the virtual bases. *)
Definition compute_vbase (layout : ASTRecordLayout)
    (primaryBase : option DeclID) (node : Layout.Node)
    (Base : CXXBaseSpecifier_ Sub) : M Layout.Node :=
  let* _ := assert (isVirtual Base) in
  let vBase := base_getAsCXXRecordDecl Base in
  let vBaseOffset := getVBaseClassOffset layout (declID vBase.1) in
  let node :=
    if hasVtorDisp layout (declID vBase.1) then
      let size := 4 in
      let vtorDispNode := Layout.Node_new in
      let vtorDispNode := Layout.set_nature Layout.VtorDisp vtorDispNode in
      let vtorDispNode := Layout.set_offset (vBaseOffset - size) vtorDispNode in
      let vtorDispNode := Layout.set_size size vtorDispNode in
      let vtorDispNode := Layout.set_align size vtorDispNode in
      Layout.push_back vtorDispNode node
    else node in
  let* vBaseNode := recurse vBase false in
  let vBaseNode := Layout.set_offset vBaseOffset vBaseNode in
  let vBaseNode :=
    Layout.set_nature
      (if bool_decide (Some (declID vBase.1) = primaryBase)
       then Layout.VPrimaryBase else Layout.VBase) vBaseNode in
  ret (Layout.push_back vBaseNode node).

(** The body of [ComputeStruct], given the bases, fields and virtual bases
    of [declaration] with the recursive calls attached. *)
Definition ComputeStruct_body (context : ASTContext)
    (declaration : CXXRecordDecl)
    (declaration_bases : list (CXXBaseSpecifier_ Sub))
    (declaration_fields : list (FieldDecl_ Sub))
    (declaration_vbases : list (CXXBaseSpecifier_ Sub))
    (includeVirtualBases : bool) : M Layout.Node :=
  let node := Layout.Node_new in
  let* typeLocation :=
    lift (RetrieveLocation (Layout.typeLocation node) context
            (getLocation declaration)) in
  let node := Layout.set_typeLocation typeLocation node in
  let layout := getASTRecordLayout declaration in
  let node := Layout.set_type (getQualifiedNameAsString declaration) node in
  let node := Layout.set_size
    (if includeVirtualBases then getSize layout
     else getNonVirtualSize layout) node in
  let node := Layout.set_align (getAlignment layout) node in
  let primaryBase := getPrimaryBase layout in
  let node :=
    if isDynamicClass declaration && negb (bool_decide (is_Some primaryBase))
       && negb (isMicrosoft (getTargetInfo context))
    then Layout.push_back (vPtrNode context Layout.VTablePtr 0) node
    else if hasOwnVFPtr layout
    then Layout.push_back (vPtrNode context Layout.VFTablePtr 0) node
    else node in
  let* bases := foldM collect_nvbase [] declaration_bases in
  let bases :=
    stable_sort
      (fun lhs rhs : Sub =>
         getBaseClassOffset layout (declID lhs.1)
         <? getBaseClassOffset layout (declID rhs.1)) bases in
  let* node := foldM (compute_nvbase layout primaryBase) node bases in
  let node :=
    if hasOwnVBPtr layout
    then Layout.push_back
           (vPtrNode context Layout.VBTablePtr (getVBPtrOffset layout)) node
    else node in
  let* st := foldM (compute_field context layout) (node, 0%nat)
               declaration_fields in
  let node := st.1 in
  let* node :=
    if includeVirtualBases
    then foldM (compute_vbase layout primaryBase) node declaration_vbases
    else ret node in
  ret node.

(** [ComputeStruct]: the recursion follows the declarations nested in
    [declaration]; a complete C++ type never contains itself. *)
Fixpoint ComputeStruct (context : ASTContext) (declaration : CXXRecordDecl)
    (includeVirtualBases : bool) {struct declaration} : M Layout.Node :=
  ComputeStruct_body context declaration
    (map (fun base : CXXBaseSpecifier =>
            match base with
            | mkCXXBaseSpecifier dep virt d =>
                mkCXXBaseSpecifier dep virt (d, ComputeStruct context d)
            end) (bases declaration))
    (map (fun field : FieldDecl =>
            match field with
            | mkFieldDecl n t l r b w i =>
                mkFieldDecl n t l
                  (match r with
                   | Some d => Some (d, ComputeStruct context d)
                   | None => None
                   end) b w i
            end) (fields declaration))
    (map (fun base : CXXBaseSpecifier =>
            match base with
            | mkCXXBaseSpecifier dep virt d =>
                mkCXXBaseSpecifier dep virt (d, ComputeStruct context d)
            end) (vbases declaration))
    includeVirtualBases.

End ComputeStruct.

End Helpers.

(** [class FindStructAtLocationVisitor]: the members of the visitor. *)
Record FindStructAtLocationVisitor : Type := mkVisitor {
  m_sourceManager : SourceManager;
  m_best : option CXXRecordDecl;
  m_mainFileId : FileID;
  m_bestStartLine : N;
  m_bestStartCol : N
}.

Local Open Scope N_scope.

(** The constructor of the visitor. *)
Definition Visitor_new (sourceManager : SourceManager)
    : FindStructAtLocationVisitor :=
  mkVisitor sourceManager None (getMainFileID sourceManager) 0 0.

(** [TryRecord]; [declaration] may be null and [g_locationFilter] is read
    from the globals. *)
Definition TryRecord (g : Globals) (v : FindStructAtLocationVisitor)
    (declaration : option CXXRecordDecl) (sourceRange : SourceRange)
    : FindStructAtLocationVisitor :=
  match declaration with
  | Some decl =>
      if negb (isDependentType decl) && getDefinition decl
         && negb (isInvalidDecl decl) && isCompleteDefinition decl
      then
        let startLocation :=
          getPresumedLoc (m_sourceManager v) (getBegin sourceRange) in
        let endLocation :=
          getPresumedLoc (m_sourceManager v) (getEnd sourceRange) in
        let startLine := getLine startLocation in
        let startCol := getColumn startLocation in
        let endLine := getLine endLocation in
        let endCol := getColumn endLocation in
        let filter := g_locationFilter g in
        if ((startLine <? row filter)
            || ((row filter =? startLine) && (startCol <=? col filter)))
           && ((row filter <? endLine)
               || ((row filter =? endLine) && (col filter <=? endCol)))
           && ((m_bestStartLine v <? startLine)
               || ((startLine =? m_bestStartLine v)
                   && (m_bestStartCol v <? startCol)))
        then mkVisitor (m_sourceManager v) (Some decl) (m_mainFileId v)
               startLine startCol
        else v
      else v
  | None => v
  end.

Definition VisitCXXRecordDecl (g : Globals) (v : FindStructAtLocationVisitor)
    (declaration : CXXRecordDecl) : FindStructAtLocationVisitor :=
  if bool_decide (SourceManager_getFileID (m_sourceManager v)
                    (getLocation declaration) = m_mainFileId v)
  then TryRecord g v (Some declaration) (getSourceRange declaration)
  else v.

Definition VisitVarDecl (g : Globals) (v : FindStructAtLocationVisitor)
    (declaration : VarDecl) : FindStructAtLocationVisitor :=
  if bool_decide (SourceManager_getFileID (m_sourceManager v)
                    (var_getLocation declaration) = m_mainFileId v)
  then TryRecord g v (var_getAsCXXRecordDecl declaration)
         (var_getSourceRange declaration)
  else v.

Definition GetBest (v : FindStructAtLocationVisitor) : option CXXRecordDecl :=
  m_best v.

(** [clang::RecursiveASTVisitor] is the traversal collaborator: a
    top-level declaration is given by the sequence of [Visit] calls that
    [TraverseDecl] makes on it. *)
Inductive Visit : Type :=
| CXXRecord (declaration : CXXRecordDecl)
| Var (declaration : VarDecl).

Definition Decl : Type := list Visit.

Definition TraverseDecl (g : Globals) (v : FindStructAtLocationVisitor)
    (D : Decl) : FindStructAtLocationVisitor :=
  foldl (fun v visit =>
           match visit with
           | CXXRecord declaration => VisitCXXRecordDecl g v declaration
           | Var declaration => VisitVarDecl g v declaration
           end) v D.

(** The first half of [Consumer::HandleTranslationUnit]: the declaration
    locator. *)
Definition locate (context : ASTContext) (Decls : list Decl) (g : Globals)
    : option CXXRecordDecl :=
  let sourceManager := getSourceManager context in
  let visitor := foldl (TraverseDecl g) (Visitor_new sourceManager) Decls in
  GetBest visitor.

(** [Consumer::HandleTranslationUnit] *)
Definition HandleTranslationUnit `{Layout.Constructors}
    (context : ASTContext) (Decls : list Decl) : M unit :=
  fun g =>
    match locate context Decls g with
    | Some best =>
        match Helpers.ComputeStruct context best true g with
        | Some (n, g') =>
            Some (tt, mkGlobals (g_filenameLookup g')
                        (Layout.mkResult (Some n)
                           (Layout.files (g_result g')))
                        (g_locationFilter g'))
        | None => None
        end
    | None => Some (tt, g)
    end.

End ClangParser.

(** [Parser::SetFilter] *)
Definition SetFilter (filter : ClangParser.LocationFilter)
    (g : ClangParser.Globals) : ClangParser.Globals :=
  ClangParser.mkGlobals (ClangParser.g_filenameLookup g)
    (ClangParser.g_result g) filter.

Import ClangParser ClangParser.Helpers.

(** A run of [AddFileToDictionary] calls, in order, with the indices
    returned. *)
Fixpoint intern_calls (calls : list (FileID * string)) (g : Globals)
    : list nat * Globals :=
  match calls with
  | [] => ([], g)
  | (fileId, filename) :: calls' =>
      let '(index, g1) := AddFileToDictionary fileId filename g in
      let '(indices, g2) := intern_calls calls' g1 in
      (index :: indices, g2)
  end.


(** ** The children of a node, in the order they are pushed

    The loops of [ComputeStruct] push the nodes they build onto
    [node->children].  The definitions below name the node or nodes each
    iteration pushes; [ComputeStruct_emitted] puts them together and is
    proved equal to [ComputeStruct]. *)

Definition push_all (cs : list Layout.Node) (n : Layout.Node) : Layout.Node :=
  Layout.mkNode (Layout.name n) (Layout.type n) (Layout.typeLocation n)
    (Layout.fieldLocation n) (Layout.offset n) (Layout.size n)
    (Layout.align n) (Layout.nature n) (Layout.children n ++ cs).

(** A loop that builds one result per element, in order; the globals are
    threaded through the iterations and [k] counts them. *)
Section mapM_from.
Context {X Y : Type} (e : nat -> X -> M Y).

Fixpoint mapM_from (k : nat) (l : list X) : M (list Y) :=
  match l with
  | [] => ret []
  | x :: l' =>
      let* y := e k x in
      let* ys := mapM_from (S k) l' in
      ret (y :: ys)
  end.

End mapM_from.

Section emitted.
Context `{Layout.Constructors} (context : ASTContext).

(** The recursive calls attached to the declarations nested in a record,
    as [ComputeStruct] attaches them. *)
Definition attach (d : CXXRecordDecl) : Sub := (d, ComputeStruct context d).

Definition attach_base (b : CXXBaseSpecifier) : CXXBaseSpecifier_ Sub :=
  mkCXXBaseSpecifier (base_isDependentType b) (isVirtual b)
    (attach (base_getAsCXXRecordDecl b)).

Definition attach_field (f : FieldDecl) : FieldDecl_ Sub :=
  mkFieldDecl (getNameAsString f) (getAsString f) (field_getLocation f)
    (attach <$> field_getAsCXXRecordDecl f) (isBitField f)
    (getBitWidthValue f) (getTypeInfo f).

(** The direct non-virtual bases in declaration order, and the comparison
    they are sorted by. *)
Definition nvbases (declaration : CXXRecordDecl) : list CXXRecordDecl :=
  base_getAsCXXRecordDecl
    <$> List.filter (fun b : CXXBaseSpecifier => negb (isVirtual b))
          (bases declaration).

Definition base_less (layout : ASTRecordLayout) (lhs rhs : CXXRecordDecl)
    : bool :=
  getBaseClassOffset layout (declID lhs)
  <? getBaseClassOffset layout (declID rhs).

Definition sorted_nvbases (declaration : CXXRecordDecl)
    : list CXXRecordDecl :=
  stable_sort (base_less (getASTRecordLayout declaration))
    (nvbases declaration).

(** The vtable or vftable pointer node, if any. *)
Definition emit_vptr (declaration : CXXRecordDecl) : list Layout.Node :=
  let layout := getASTRecordLayout declaration in
  if isDynamicClass declaration
     && negb (bool_decide (is_Some (getPrimaryBase layout)))
     && negb (isMicrosoft (getTargetInfo context))
  then [vPtrNode context Layout.VTablePtr 0]
  else if hasOwnVFPtr layout
  then [vPtrNode context Layout.VFTablePtr 0]
  else [].

(** The vbtable pointer node, if any. *)
Definition emit_vbptr (declaration : CXXRecordDecl) : list Layout.Node :=
  let layout := getASTRecordLayout declaration in
  if hasOwnVBPtr layout
  then [vPtrNode context Layout.VBTablePtr (getVBPtrOffset layout)]
  else [].

(** The node of one non-virtual base. *)
Definition nvbase_node (layout : ASTRecordLayout) (base : CXXRecordDecl)
    (baseNode : Layout.Node) : Layout.Node :=
  Layout.set_nature
    (if bool_decide (Some (declID base) = getPrimaryBase layout)
     then Layout.NVPrimaryBase else Layout.NVBase)
    (Layout.set_offset (getBaseClassOffset layout (declID base)) baseNode).

Definition emit_nvbase (layout : ASTRecordLayout) (base : CXXRecordDecl)
    : M Layout.Node :=
  let* baseNode := ComputeStruct context base false in
  ret (nvbase_node layout base baseNode).

(** The node of one field. *)
Definition field_offset (layout : ASTRecordLayout) (fieldNo : nat) : Z :=
  toCharUnitsFromBits context (to_int64 (getFieldOffset layout fieldNo)).

Definition complex_field_node (layout : ASTRecordLayout) (fieldNo : nat)
    (field : FieldDecl) (fieldNode : Layout.Node)
    (fieldLocation : Layout.Location) : Layout.Node :=
  Layout.set_fieldLocation fieldLocation
    (Layout.set_nature Layout.ComplexField
       (Layout.set_offset (field_offset layout fieldNo)
          (Layout.set_type (getAsString field)
             (Layout.set_name (getNameAsString field) fieldNode)))).

Definition bitfield_extraData (layout : ASTRecordLayout) (fieldNo : nat)
    (field : FieldDecl) : Layout.Node :=
  Layout.set_size (getBitWidthValue field)
    (Layout.set_offset
       (to_uint64 (getFieldOffset layout fieldNo
                   - to_uint64 (toBits context (field_offset layout fieldNo))))
       Layout.Node_new).

Definition scalar_field_node (nature : Layout.Category)
    (layout : ASTRecordLayout) (fieldNo : nat) (field : FieldDecl)
    : Layout.Node :=
  Layout.set_align
    (toCharUnitsFromBits context (to_int64 (Align (getTypeInfo field))))
    (Layout.set_size
       (toCharUnitsFromBits context (to_int64 (Width (getTypeInfo field))))
       (Layout.set_offset (field_offset layout fieldNo)
          (Layout.set_nature nature
             (Layout.set_type (getAsString field)
                (Layout.set_name (getNameAsString field) Layout.Node_new))))).

Definition bitfield_node (layout : ASTRecordLayout) (fieldNo : nat)
    (field : FieldDecl) : Layout.Node :=
  Layout.push_back (bitfield_extraData layout fieldNo field)
    (scalar_field_node Layout.Bitfield layout fieldNo field).

Definition simple_field_node (layout : ASTRecordLayout) (fieldNo : nat)
    (field : FieldDecl) (fieldLocation : Layout.Location) : Layout.Node :=
  Layout.set_fieldLocation fieldLocation
    (scalar_field_node Layout.SimpleField layout fieldNo field).

Definition emit_field (layout : ASTRecordLayout) (fieldNo : nat)
    (field : FieldDecl) : M Layout.Node :=
  match field_getAsCXXRecordDecl field with
  | Some fieldDeclarationCXX =>
      let* fieldNode := ComputeStruct context fieldDeclarationCXX true in
      let* fieldLocation :=
        lift (RetrieveLocation (Layout.fieldLocation fieldNode) context
                (field_getLocation field)) in
      ret (complex_field_node layout fieldNo field fieldNode fieldLocation)
  | None =>
      if isBitField field then ret (bitfield_node layout fieldNo field)
      else
        let* fieldLocation :=
          lift (RetrieveLocation Layout.Location_new context
                  (field_getLocation field)) in
        ret (simple_field_node layout fieldNo field fieldLocation)
  end.

(** The nodes of one virtual base: the displacement adjustment, if the
    base has one, then the base. *)
Definition vtorDisp_node (layout : ASTRecordLayout) (vBase : CXXRecordDecl)
    : Layout.Node :=
  Layout.set_align 4
    (Layout.set_size 4
       (Layout.set_offset (getVBaseClassOffset layout (declID vBase) - 4)
          (Layout.set_nature Layout.VtorDisp Layout.Node_new))).

Definition emit_vtorDisp (layout : ASTRecordLayout) (vBase : CXXRecordDecl)
    : list Layout.Node :=
  if hasVtorDisp layout (declID vBase) then [vtorDisp_node layout vBase]
  else [].

Definition vbase_node (layout : ASTRecordLayout) (vBase : CXXRecordDecl)
    (vBaseNode : Layout.Node) : Layout.Node :=
  Layout.set_nature
    (if bool_decide (Some (declID vBase) = getPrimaryBase layout)
     then Layout.VPrimaryBase else Layout.VBase)
    (Layout.set_offset (getVBaseClassOffset layout (declID vBase)) vBaseNode).

Definition emit_vbase (layout : ASTRecordLayout) (Base : CXXBaseSpecifier)
    : M (list Layout.Node) :=
  let* _ := assert (isVirtual Base) in
  let vBase := base_getAsCXXRecordDecl Base in
  let* vBaseNode := ComputeStruct context vBase false in
  ret (emit_vtorDisp layout vBase ++ [vbase_node layout vBase vBaseNode]).

(** [ComputeStruct] with its children listed in the order of emission. *)
Definition ComputeStruct_emitted (declaration : CXXRecordDecl)
    (includeVirtualBases : bool) : M Layout.Node :=
  let layout := getASTRecordLayout declaration in
  let* typeLocation :=
    lift (RetrieveLocation Layout.Location_new context
            (getLocation declaration)) in
  let* _ :=
    assert (forallb (fun b : CXXBaseSpecifier =>
                       negb (base_isDependentType b)) (bases declaration)) in
  let* nvs :=
    mapM_from (fun _ => emit_nvbase layout) 0 (sorted_nvbases declaration) in
  let* fs := mapM_from (emit_field layout) 0 (fields declaration) in
  let* vss :=
    if includeVirtualBases
    then mapM_from (fun _ => emit_vbase layout) 0 (vbases declaration)
    else ret [] in
  ret (Layout.mkNode "" (getQualifiedNameAsString declaration) typeLocation
         Layout.Location_new Layout.Node_offset
         (if includeVirtualBases then getSize layout
          else getNonVirtualSize layout)
         (getAlignment layout) Layout.Node_nature
         (emit_vptr declaration ++ nvs ++ emit_vbptr declaration ++ fs
          ++ concat vss)).

(** The assertions of [ComputeStruct] over the declarations it visits. *)
Fixpoint asserts_hold (declaration : CXXRecordDecl)
    (includeVirtualBases : bool) {struct declaration} : bool :=
  forallb (fun b : CXXBaseSpecifier =>
             match b with
             | mkCXXBaseSpecifier dep virt d =>
                 negb dep && (virt || asserts_hold d false)
             end) (bases declaration)
  && forallb (fun f : FieldDecl =>
                match f with
                | mkFieldDecl _ _ _ (Some d) _ _ _ => asserts_hold d true
                | mkFieldDecl _ _ _ None _ _ _ => true
                end) (fields declaration)
  && (negb includeVirtualBases
      || forallb (fun b : CXXBaseSpecifier =>
                    match b with
                    | mkCXXBaseSpecifier dep virt d =>
                        virt && asserts_hold d false
                    end) (vbases declaration)).

End emitted.

(** ** Kinds of children *)

Definition is_nvbase (c : Layout.Category) : bool :=
  match c with
  | Layout.NVPrimaryBase | Layout.NVBase => true
  | _ => false
  end.

Definition is_field (c : Layout.Category) : bool :=
  match c with
  | Layout.ComplexField | Layout.Bitfield | Layout.SimpleField => true
  | _ => false
  end.

Definition is_vbase (c : Layout.Category) : bool :=
  match c with
  | Layout.VtorDisp | Layout.VPrimaryBase | Layout.VBase => true
  | _ => false
  end.

Definition is_category (c c' : Layout.Category) : bool := bool_decide (c = c').

(** The children of a node whose category satisfies [p], in order. *)
Definition children_of (p : Layout.Category -> bool) (n : Layout.Node)
    : list Layout.Node :=
  List.filter (fun c => p (Layout.nature c)) (Layout.children n).


(** A source location that [RetrieveLocation] resolves: the location, its
    presumed location and the file of the latter are valid. *)
Definition resolvable (context : ASTContext) (location : SourceLocation)
    : bool :=
  let startLocation := getPresumedLoc (getSourceManager context) location in
  SourceLocation_isValid location
  && PresumedLoc_isValid startLocation
  && FileID_isValid (getFileID startLocation).

(** The conditions under which [ComputeStruct] pushes a vtable pointer
    and a vftable pointer. *)
Definition emits_VTablePtr (context : ASTContext)
    (declaration : CXXRecordDecl) : bool :=
  isDynamicClass declaration
  && negb (bool_decide
             (is_Some (getPrimaryBase (getASTRecordLayout declaration))))
  && negb (isMicrosoft (getTargetInfo context)).

Definition emits_VFTablePtr (context : ASTContext)
    (declaration : CXXRecordDecl) : bool :=
  negb (emits_VTablePtr context declaration)
  && hasOwnVFPtr (getASTRecordLayout declaration).

(** Every node of a tree: the node, then the nodes of its children. *)
Fixpoint nodes (n : Layout.Node) : list Layout.Node :=
  n :: concat (map nodes (Layout.children n)).




(** ** The declaration locator, as a scan of candidates *)

(** A candidate is one call of [TryRecord]: the record declaration, null
    for a variable whose type is not a record, and the source range. *)
Definition Candidate : Type := option CXXRecordDecl * SourceRange.

(** The calls of [TryRecord] that a traversal makes, in order: one for
    every visited declaration located in the main file. *)
Definition candidate_of (sourceManager : SourceManager) (visit : Visit)
    : list Candidate :=
  match visit with
  | CXXRecord declaration =>
      if bool_decide (SourceManager_getFileID sourceManager
                        (getLocation declaration)
                      = getMainFileID sourceManager)
      then [(Some declaration, getSourceRange declaration)] else []
  | Var declaration =>
      if bool_decide (SourceManager_getFileID sourceManager
                        (var_getLocation declaration)
                      = getMainFileID sourceManager)
      then [(var_getAsCXXRecordDecl declaration,
             var_getSourceRange declaration)]
      else []
  end.

Definition candidates (sourceManager : SourceManager) (Decls : list Decl)
    : list Candidate :=
  concat (candidate_of sourceManager <$> concat Decls).

(** Eligibility: a non-dependent, defined, valid and complete record. *)
Definition eligible (c : Candidate) : bool :=
  match c.1 with
  | Some decl =>
      negb (isDependentType decl) && getDefinition decl
      && negb (isInvalidDecl decl) && isCompleteDefinition decl
  | None => false
  end.

(** Positions are (line, column) pairs ordered lexicographically. *)
Definition Position : Set := (N * N)%type.

Definition pos_lt (a b : Position) : Prop :=
  (a.1 < b.1 \/ (a.1 = b.1 /\ a.2 < b.2))%N.

Definition pos_le (a b : Position) : Prop :=
  (a.1 < b.1 \/ (a.1 = b.1 /\ a.2 <= b.2))%N.

Definition start_of (sourceManager : SourceManager) (c : Candidate)
    : Position :=
  let startLocation := getPresumedLoc sourceManager (getBegin c.2) in
  (getLine startLocation, getColumn startLocation).

Definition end_of (sourceManager : SourceManager) (c : Candidate)
    : Position :=
  let endLocation := getPresumedLoc sourceManager (getEnd c.2) in
  (getLine endLocation, getColumn endLocation).

Definition filter_position (filter : LocationFilter) : Position :=
  (row filter, col filter).

(** The filter position lies within [start, end], both ends included. *)
Definition contains (sourceManager : SourceManager) (filter : LocationFilter)
    (c : Candidate) : Prop :=
  pos_le (start_of sourceManager c) (filter_position filter)
  /\ pos_le (filter_position filter) (end_of sourceManager c).

(** ** Sample inputs

    Values of the constructors of LayoutDefinitions.h and a few
    translation units, used where a statement is evaluated. *)

(** Modelled from the spec: the constructors of [Layout::Location] and
    [Layout::Node] are in LayoutDefinitions.h, which is not part of the
    sources at hand.  The spec gives [fileIndex] the sentinel -1 when
    unresolved and names the category of a root node
    [RootOrComplexField]; the remaining members start at zero here. *)
Definition sample_Constructors : Layout.Constructors :=
  Layout.mkConstructors (Layout.mkLocation (-1) 0 0) 0 0 0 Layout.ComplexField.

(** A source manager whose locations encode [100 * line + column]; the
    locations from 100000 on lie in a header. *)
Definition sample_getPresumedLoc (l : SourceLocation) : PresumedLoc :=
  if (l =? 0)%N then mkPresumedLoc false (mkFileID 0) "" 0 0
  else if (l <? 100000)%N
  then mkPresumedLoc true (mkFileID 1) "main.cpp" (l / 100)%N (l mod 100)%N
  else mkPresumedLoc true (mkFileID 2) "header.h"
         ((l - 100000) / 100)%N (l mod 100)%N.

Definition sample_SourceManager : SourceManager :=
  mkSourceManager sample_getPresumedLoc
    (fun l => getFileID (sample_getPresumedLoc l)) (mkFileID 1).

(** A 64-bit target with the Itanium ABI, and one with the Microsoft
    ABI. *)
Definition itanium : ASTContext :=
  mkASTContext sample_SourceManager (mkTargetInfo false 64 64 8).

Definition microsoft : ASTContext :=
  mkASTContext sample_SourceManager (mkTargetInfo true 64 64 8).

Definition sample_Globals : Globals :=
  mkGlobals ∅ (Layout.mkResult None []) (mkLocationFilter 0 0).

Definition no_offsets : DeclID -> Z := fun _ => 0.
Definition no_vtorDisp : DeclID -> bool := fun _ => false.

Definition int_field (name : string) (l : SourceLocation) : FieldDecl :=
  mkFieldDecl name "int" l None false 0 (mkTypeInfo 32 32).

(** [struct A { virtual void f(); };] at line 1. *)
Definition struct_A : CXXRecordDecl :=
  mkCXXRecordDecl 1 108 (mkSourceRange 101 130) "A"
    false true false true true
    (mkASTRecordLayout 8 8 8 None false false 0 no_offsets no_offsets
       no_vtorDisp (fun _ => 0))
    [] [] [].

(** [struct B : virtual A { int x; };] at line 2, laid out by the Itanium
    ABI: [A] is the primary base at offset 0 and [x] follows the vtable
    pointer of [A]. *)
Definition struct_B : CXXRecordDecl :=
  mkCXXRecordDecl 2 208 (mkSourceRange 201 240) "B"
    false true false true true
    (mkASTRecordLayout 16 12 8 (Some 1%nat) false false 0 no_offsets
       no_offsets no_vtorDisp (fun _ => 64))
    [mkCXXBaseSpecifier false true struct_A]
    [int_field "x" 230]
    [mkCXXBaseSpecifier false true struct_A].

(** [struct P { int x; };], [struct Q { int y; };] and
    [struct R : Q, P { unsigned a : 3; int z; };] where the ABI is taken
    to place [P] at offset 0 and [Q] at offset 4. *)
Definition struct_P : CXXRecordDecl :=
  mkCXXRecordDecl 3 308 (mkSourceRange 301 320) "P"
    false true false true false
    (mkASTRecordLayout 4 4 4 None false false 0 no_offsets no_offsets
       no_vtorDisp (fun _ => 0))
    [] [int_field "x" 312] [].

Definition struct_Q : CXXRecordDecl :=
  mkCXXRecordDecl 4 408 (mkSourceRange 401 420) "Q"
    false true false true false
    (mkASTRecordLayout 4 4 4 None false false 0 no_offsets no_offsets
       no_vtorDisp (fun _ => 0))
    [] [int_field "y" 412] [].

Definition struct_R : CXXRecordDecl :=
  mkCXXRecordDecl 5 508 (mkSourceRange 501 560) "R"
    false true false true false
    (mkASTRecordLayout 16 16 4 None false false 0
       (fun d => if (d =? 3)%nat then 0 else 4) no_offsets no_vtorDisp
       (fun i => if (i =? 0)%nat then 64 else 96))
    [mkCXXBaseSpecifier false false struct_Q;
     mkCXXBaseSpecifier false false struct_P]
    [mkFieldDecl "a" "unsigned int" 530 None true 3 (mkTypeInfo 32 32);
     int_field "z" 545]
    [].

(** [struct V { int v; };] and [struct W : virtual V { P p; };] under the
    Microsoft ABI: [W] owns a vbtable pointer at offset 0 and [V], at
    offset 16, is taken to need a displacement adjustment. *)
Definition struct_V : CXXRecordDecl :=
  mkCXXRecordDecl 6 608 (mkSourceRange 601 620) "V"
    false true false true false
    (mkASTRecordLayout 4 4 4 None false false 0 no_offsets no_offsets
       no_vtorDisp (fun _ => 0))
    [] [int_field "v" 612] [].

Definition struct_W : CXXRecordDecl :=
  mkCXXRecordDecl 7 708 (mkSourceRange 701 750) "W"
    false true false true false
    (mkASTRecordLayout 24 12 8 None false true 0 no_offsets
       (fun _ => 16) (fun _ => true) (fun _ => 64))
    [mkCXXBaseSpecifier false true struct_V]
    [mkFieldDecl "p" "P" 730 (Some struct_P) false 0 (mkTypeInfo 32 32)]
    [mkCXXBaseSpecifier false true struct_V].

(** Three lookups in two files. *)
Definition sample_calls : list (FileID * string) :=
  [(mkFileID 1, "main.cpp"); (mkFileID 2, "header.h");
   (mkFileID 1, "main.cpp")].

(** [struct S { unsigned a : 3; };]: a bitfield at bit offset 0 of a
    4-byte [unsigned]. *)
Definition bitfield_a : FieldDecl :=
  mkFieldDecl "a" "unsigned int" 830 None true 3 (mkTypeInfo 32 32).

Definition struct_S : CXXRecordDecl :=
  mkCXXRecordDecl 8 808 (mkSourceRange 801 850) "S"
    false true false true false
    (mkASTRecordLayout 4 4 4 None false false 0 no_offsets no_offsets
       no_vtorDisp (fun _ => 0))
    [] [bitfield_a] [].

(** [struct Outer { struct Inner { int x; }; Inner i; };] on lines 10 to
    13 of the main file, followed by [Outer o;] on line 14, with the
    visits of the traversal in pre-order. *)
Definition struct_Inner : CXXRecordDecl :=
  mkCXXRecordDecl 11 1110 (mkSourceRange 1103 1125) "Outer::Inner"
    false true false true false
    (mkASTRecordLayout 4 4 4 None false false 0 no_offsets no_offsets
       no_vtorDisp (fun _ => 0))
    [] [int_field "x" 1122] [].

Definition struct_Outer : CXXRecordDecl :=
  mkCXXRecordDecl 10 1008 (mkSourceRange 1001 1301) "Outer"
    false true false true false
    (mkASTRecordLayout 4 4 4 None false false 0 no_offsets no_offsets
       no_vtorDisp (fun _ => 0))
    []
    [mkFieldDecl "i" "Inner" 1209 (Some struct_Inner) false 0
       (mkTypeInfo 32 32)]
    [].

Definition sample_Decls : list Decl :=
  [[CXXRecord struct_Outer; CXXRecord struct_Inner];
   [Var (mkVarDecl 1407 (mkSourceRange 1401 1407) (Some struct_Outer))]].

(** A filter position inside the braces of [Inner]. *)
Definition sample_filter : Globals :=
  mkGlobals ∅ (Layout.mkResult None []) (mkLocationFilter 11 20).

(** ** Further definitions *)

(** [DestroyTree]: the nodes in the order in which they are deleted, the
    children of a node before the node; a null pointer deletes
    nothing. *)
Fixpoint DestroyTree_node (node : Layout.Node) : list Layout.Node :=
  concat (map DestroyTree_node (Layout.children node)) ++ [node].

Definition DestroyTree (node : option Layout.Node) : list Layout.Node :=
  match node with
  | Some n => DestroyTree_node n
  | None => []
  end.

(** The globals [g'] extend [g]: the filter and the root node are the
    same, the file table of [g] is the beginning of that of [g'] and
    every identity bound in [g] is bound to the same index in [g']. *)
Definition grows (g g' : Globals) : Prop :=
  g_locationFilter g' = g_locationFilter g
  /\ Layout.node (g_result g') = Layout.node (g_result g)
  /\ (exists l, Layout.files (g_result g')
               = Layout.files (g_result g) ++ l)
  /\ (forall h i, g_filenameLookup g !! h = Some i ->
                  g_filenameLookup g' !! h = Some i).

(** Every index bound in the lookup is an index of the file table, and
    no two identities are bound to one index. *)
Definition table_ok (g : Globals) : Prop :=
  (forall h i, g_filenameLookup g !! h = Some i ->
               (i < length (Layout.files (g_result g)))%nat)
  /\ (forall h h' i, g_filenameLookup g !! h = Some i ->
                     g_filenameLookup g !! h' = Some i -> h = h').

(** A location that is either as the constructor left it or holds an
    index of the file table of [g]. *)
Definition location_ok `{Layout.Constructors} (g : Globals)
    (location : Layout.Location) : Prop :=
  location = Layout.Location_new
  \/ exists index,
       (index < length (Layout.files (g_result g)))%nat
       /\ Layout.fileIndex location = static_cast_int index.

Definition node_locations_ok `{Layout.Constructors} (g : Globals)
    (n : Layout.Node) : Prop :=
  location_ok g (Layout.typeLocation n)
  /\ location_ok g (Layout.fieldLocation n).

(** A base sub-object node. *)
Definition is_base (c : Layout.Category) : bool :=
  match c with
  | Layout.NVPrimaryBase | Layout.NVBase
  | Layout.VPrimaryBase | Layout.VBase => true
  | _ => false
  end.

(** A node tagged as the primary base. *)
Definition is_primary (c : Layout.Category) : bool :=
  match c with
  | Layout.NVPrimaryBase | Layout.VPrimaryBase => true
  | _ => false
  end.

(** The visits of a translation unit that lie in the main file. *)
Definition in_main_file (sourceManager : SourceManager) (visit : Visit)
    : bool :=
  match visit with
  | CXXRecord declaration =>
      bool_decide (SourceManager_getFileID sourceManager
                     (getLocation declaration)
                   = getMainFileID sourceManager)
  | Var declaration =>
      bool_decide (SourceManager_getFileID sourceManager
                     (var_getLocation declaration)
                   = getMainFileID sourceManager)
  end.

(** [struct T : D<U> { };] with a base that is still dependent. *)
Definition struct_dependent : CXXRecordDecl :=
  mkCXXRecordDecl 9 908 (mkSourceRange 901 920) "T"
    false true false true false
    (mkASTRecordLayout 4 4 4 None false false 0 no_offsets no_offsets
       no_vtorDisp (fun _ => 0))
    [mkCXXBaseSpecifier true false struct_P] [] [].

(** The nodes below a node. *)
Definition descendants (n : Layout.Node) : list Layout.Node :=
  concat (map nodes (Layout.children n)).

(** A base sub-object node has no virtual-base child and no displacement
    adjustment. *)
Definition base_without_vbases (m : Layout.Node) : Prop :=
  is_base (Layout.nature m) = true -> children_of is_vbase m = [].

(** The traversal restricted to the visits in the main file. *)
Definition main_file_visits (sourceManager : SourceManager)
    (Decls : list Decl) : list Decl :=
  List.filter (in_main_file sourceManager) <$> Decls.

(** A candidate that can become the best match: it is eligible and its
    range contains the filter position. *)
Definition qualifies (sourceManager : SourceManager) (filter : LocationFilter)
    (c : Candidate) : Prop :=
  eligible c = true /\ contains sourceManager filter c.

(** * Properties *)

(** ** The file table *)

Lemma AddFileToDictionary_found fileId filename g index :
  g_filenameLookup g !! getHashValue fileId = Some index ->
  AddFileToDictionary fileId filename g = (index, g).
Proof. intros E. unfold AddFileToDictionary. by rewrite E. Qed.


(** After a call the identity is bound to the index returned. *)
Lemma AddFileToDictionary_bound fileId filename g :
  g_filenameLookup (AddFileToDictionary fileId filename g).2
    !! getHashValue fileId
  = Some (AddFileToDictionary fileId filename g).1.
Proof.
  unfold AddFileToDictionary.
  destruct (g_filenameLookup g !! getHashValue fileId) as [i|] eqn:E; simpl.
  - done.
  - apply lookup_insert_eq.
Qed.

(** A binding, once made, survives every later call. *)
Lemma AddFileToDictionary_keeps fileId filename g h index :
  g_filenameLookup g !! h = Some index ->
  g_filenameLookup (AddFileToDictionary fileId filename g).2 !! h
  = Some index.
Proof.
  intros Hh. unfold AddFileToDictionary.
  destruct (g_filenameLookup g !! getHashValue fileId) as [i|] eqn:E; simpl.
  - done.
  - rewrite lookup_insert_ne; [done | congruence].
Qed.

Lemma intern_calls_keeps calls g h index :
  g_filenameLookup g !! h = Some index ->
  g_filenameLookup (intern_calls calls g).2 !! h = Some index.
Proof.
  revert g. induction calls as [|[f n] calls IH]; intros g Hh; simpl; [done|].
  pose proof (AddFileToDictionary_keeps f n g h index Hh) as Hk.
  destruct (AddFileToDictionary f n g) as [i g1]; simpl in Hk.
  specialize (IH g1 Hk).
  destruct (intern_calls calls g1) as [ixs g2]; simpl in *. done.
Qed.







Lemma RetrieveLocation_resolvable output context location g :
  resolvable context location = true ->
  let startLocation := getPresumedLoc (getSourceManager context) location in
  let interned :=
    AddFileToDictionary (getFileID startLocation) (getFilename startLocation)
      g in
  RetrieveLocation output context location g
  = (Layout.mkLocation (static_cast_int interned.1) (getLine startLocation)
       (getColumn startLocation), interned.2).
Proof.
  unfold resolvable, RetrieveLocation. simpl.
  destruct (SourceLocation_isValid location); simpl; [|done].
  destruct (PresumedLoc_isValid _); simpl; [|done].
  destruct (FileID_isValid _); simpl; [|done].
  intros _. by destruct (AddFileToDictionary _ _ g).
Qed.

(** The table only grows at its end. *)
Lemma AddFileToDictionary_prefix fileId filename g :
  exists l,
    Layout.files (g_result (AddFileToDictionary fileId filename g).2)
    = Layout.files (g_result g) ++ l.
Proof.
  unfold AddFileToDictionary.
  destruct (g_filenameLookup g !! getHashValue fileId); simpl.
  - exists []. by rewrite app_nil_r.
  - by eexists.
Qed.



(** ** Computations over the globals *)

Lemma foldM_cons {A B : Type} (f : A -> B -> M A) a x l :
  foldM f a (x :: l) = bind (f a x) (fun a' => foldM f a' l).
Proof. done. Qed.

Lemma push_all_nil n : push_all [] n = n.
Proof. destruct n. unfold push_all. simpl. by rewrite app_nil_r. Qed.

Lemma push_all_push_back c cs n :
  push_all cs (Layout.push_back c n) = push_all (c :: cs) n.
Proof. unfold push_all, Layout.push_back. simpl. by rewrite <- app_assoc. Qed.

(** ** The stable sort *)

Section stable_sort_facts.
Context {A : Type} (less : A -> A -> bool).

Lemma stable_sort_cons x l :
  stable_sort less (x :: l) = stable_insert less x (stable_sort less l).
Proof. done. Qed.

Lemma stable_insert_Permutation x l : stable_insert less x l ≡ₚ x :: l.
Proof.
  induction l as [|y l IH]; simpl; [done|].
  destruct (less y x); [|done].
  rewrite IH. apply Permutation_swap.
Qed.

Lemma stable_sort_Permutation l : stable_sort less l ≡ₚ l.
Proof.
  induction l as [|x l IH]; [done|].
  by rewrite stable_sort_cons, stable_insert_Permutation, IH.
Qed.

End stable_sort_facts.

(** Sorting commutes with attaching data that the comparison ignores. *)
Lemma stable_sort_fmap {A B : Type} (less : A -> A -> bool)
    (less' : B -> B -> bool) (h : A -> B) (l : list A) :
  (forall x y, less' (h x) (h y) = less x y) ->
  stable_sort less' (h <$> l) = h <$> stable_sort less l.
Proof.
  intros E. induction l as [|x l IH]; [done|].
  rewrite fmap_cons, !stable_sort_cons, IH. clear IH.
  induction (stable_sort less l) as [|y s IH]; [done|].
  rewrite fmap_cons. simpl. rewrite E.
  destruct (less y x); [by rewrite IH | done].
Qed.

(** Sorting by a key: the result is ordered by the key and elements with
    equal keys keep their order. *)
Section stable_sort_key.
Context {A : Type} (key : A -> Z).

Let less (x y : A) : bool := key x <? key y.





End stable_sort_key.

(** ** [ComputeStruct] lists its children in the order of emission *)

Section emitted_facts.
Context `{Layout.Constructors} (context : ASTContext).

Lemma ComputeStruct_eq declaration includeVirtualBases :
  ComputeStruct context declaration includeVirtualBases
  = ComputeStruct_body context declaration
      (attach_base context <$> bases declaration)
      (attach_field context <$> fields declaration)
      (attach_base context <$> vbases declaration) includeVirtualBases.
Proof.
  destruct declaration; simpl.
  f_equal; apply map_ext; intros []; done.
Qed.

Lemma foldM_collect_nvbase (l : list CXXBaseSpecifier) acc g :
  foldM collect_nvbase acc (attach_base context <$> l) g
  = if forallb (fun b : CXXBaseSpecifier => negb (base_isDependentType b)) l
    then Some (acc ++ (attach context <$>
                        (base_getAsCXXRecordDecl
                           <$> List.filter
                                 (fun b : CXXBaseSpecifier =>
                                    negb (isVirtual b)) l)), g)
    else None.
Proof.
  revert acc. induction l as [|b l IH]; intros acc; simpl.
  - by rewrite app_nil_r.
  - unfold bind at 1. unfold collect_nvbase at 1. unfold bind, assert. simpl.
    destruct (base_isDependentType b); simpl; [done|].
    destruct (isVirtual b); simpl; rewrite IH.
    + done.
    + by rewrite <- app_assoc.
Qed.

Lemma foldM_compute_nvbase layout (l : list CXXRecordDecl) k node g :
  foldM (compute_nvbase layout (getPrimaryBase layout)) node
    (attach context <$> l) g
  = bind (mapM_from (fun _ => emit_nvbase context layout) k l)
      (fun cs => ret (push_all cs node)) g.
Proof.
  revert k node g. induction l as [|b l IH]; intros k node g; simpl.
  - unfold bind, ret. simpl. by rewrite push_all_nil.
  - unfold bind at 1. unfold compute_nvbase at 1.
    unfold emit_nvbase at 1. unfold bind, ret, recurse. simpl.
    destruct (ComputeStruct context b false g) as [[n0 g1]|]; [|done].
    rewrite (IH (S k)). unfold bind, ret.
    destruct (mapM_from _ (S k) l g1) as [[cs g2]|]; [|done].
    by rewrite push_all_push_back.
Qed.

Lemma compute_field_emit layout node fieldNo (field : FieldDecl) g :
  compute_field context layout (node, fieldNo) (attach_field context field) g
  = bind (emit_field context layout fieldNo field)
      (fun c => ret (Layout.push_back c node, S fieldNo)) g.
Proof.
  unfold compute_field, emit_field, attach_field, recurse. simpl.
  destruct (field_getAsCXXRecordDecl field) as [d|]; simpl.
  - unfold bind, ret, lift. simpl.
    destruct (ComputeStruct context d true g) as [[n0 g1]|]; [|done].
    by destruct (RetrieveLocation _ _ _ g1).
  - destruct (isBitField field); [done|].
    unfold bind, ret, lift. simpl.
    by destruct (RetrieveLocation _ _ _ g).
Qed.

Lemma foldM_compute_field layout (l : list FieldDecl) k node g :
  foldM (compute_field context layout) (node, k)
    (attach_field context <$> l) g
  = bind (mapM_from (emit_field context layout) k l)
      (fun cs => ret (push_all cs node, (k + length l)%nat)) g.
Proof.
  revert k node g. induction l as [|f l IH]; intros k node g.
  - simpl. unfold bind, ret. simpl. rewrite push_all_nil.
    by rewrite Nat.add_0_r.
  - rewrite fmap_cons, foldM_cons. unfold bind at 1.
    rewrite compute_field_emit. simpl mapM_from. unfold bind, ret.
    destruct (emit_field context layout k f g) as [[c g1]|]; [|done].
    rewrite (IH (S k)). unfold bind, ret.
    destruct (mapM_from _ (S k) l g1) as [[cs g2]|]; [|done].
    rewrite push_all_push_back. simpl. do 3 f_equal. lia.
Qed.

Lemma foldM_compute_vbase layout (l : list CXXBaseSpecifier) k node g :
  foldM (compute_vbase layout (getPrimaryBase layout)) node
    (attach_base context <$> l) g
  = bind (mapM_from (fun _ => emit_vbase context layout) k l)
      (fun css => ret (push_all (concat css) node)) g.
Proof.
  revert k node g. induction l as [|b l IH]; intros k node g; simpl.
  - unfold bind, ret. simpl. by rewrite push_all_nil.
  - unfold bind at 1. unfold compute_vbase at 1.
    unfold emit_vbase at 1, emit_vtorDisp.
    unfold bind, ret, assert, recurse. simpl.
    destruct (isVirtual b); [|done].
    destruct (hasVtorDisp layout (declID (base_getAsCXXRecordDecl b)));
      (destruct (ComputeStruct context (base_getAsCXXRecordDecl b) false g)
         as [[n0 g1]|]; [|done]);
      rewrite (IH (S k)); unfold bind, ret;
      (destruct (mapM_from _ (S k) l g1) as [[cs g2]|]; [|done]);
      rewrite !push_all_push_back; done.
Qed.

Lemma sorted_attach layout (l : list CXXRecordDecl) :
  stable_sort
    (fun lhs rhs : Sub =>
       getBaseClassOffset layout (declID lhs.1)
       <? getBaseClassOffset layout (declID rhs.1))
    (attach context <$> l)
  = attach context <$> stable_sort (base_less layout) l.
Proof. by apply stable_sort_fmap. Qed.

Lemma ComputeStruct_emitted_eq declaration includeVirtualBases g :
  ComputeStruct context declaration includeVirtualBases g
  = ComputeStruct_emitted context declaration includeVirtualBases g.
Proof.
  rewrite ComputeStruct_eq.
  unfold ComputeStruct_body, ComputeStruct_emitted, sorted_nvbases, nvbases.
  unfold bind, lift, assert, ret. simpl.
  destruct (RetrieveLocation Layout.Location_new context
              (getLocation declaration) g) as [tl g0].
  rewrite foldM_collect_nvbase.
  destruct (forallb _ (bases declaration)); [|done].
  simpl app. rewrite sorted_attach, (foldM_compute_nvbase _ _ 0%nat).
  unfold bind, ret.
  destruct (mapM_from _ 0%nat _ g0) as [[nvs g1]|]; [|done].
  rewrite foldM_compute_field. unfold bind, ret.
  destruct (mapM_from _ 0%nat (fields declaration) g1) as [[fs g2]|]; [|done].
  simpl fst.
  assert (Hnode : forall vs,
    push_all vs
      (push_all fs
         (if hasOwnVBPtr (getASTRecordLayout declaration)
          then Layout.push_back
                 (vPtrNode context Layout.VBTablePtr
                    (getVBPtrOffset (getASTRecordLayout declaration)))
                 (push_all nvs
                    (push_all (emit_vptr context declaration)
                       (Layout.mkNode "" (getQualifiedNameAsString declaration)
                          tl Layout.Location_new Layout.Node_offset
                          (if includeVirtualBases
                           then getSize (getASTRecordLayout declaration)
                           else getNonVirtualSize
                                  (getASTRecordLayout declaration))
                          (getAlignment (getASTRecordLayout declaration))
                          Layout.Node_nature [])))
          else push_all nvs
                 (push_all (emit_vptr context declaration)
                    (Layout.mkNode "" (getQualifiedNameAsString declaration)
                       tl Layout.Location_new Layout.Node_offset
                       (if includeVirtualBases
                        then getSize (getASTRecordLayout declaration)
                        else getNonVirtualSize
                               (getASTRecordLayout declaration))
                       (getAlignment (getASTRecordLayout declaration))
                       Layout.Node_nature []))))
    = Layout.mkNode "" (getQualifiedNameAsString declaration) tl
        Layout.Location_new Layout.Node_offset
        (if includeVirtualBases
         then getSize (getASTRecordLayout declaration)
         else getNonVirtualSize (getASTRecordLayout declaration))
        (getAlignment (getASTRecordLayout declaration)) Layout.Node_nature
        (emit_vptr context declaration ++ nvs
         ++ emit_vbptr context declaration ++ fs ++ vs)).
  { intros vs. unfold emit_vbptr.
    destruct (hasOwnVBPtr (getASTRecordLayout declaration));
      unfold push_all, Layout.push_back; simpl;
      rewrite <- ?app_assoc; done. }
  assert (Hvptr :
    (if isDynamicClass declaration
        && negb (bool_decide
                   (is_Some (getPrimaryBase (getASTRecordLayout declaration))))
        && negb (isMicrosoft (getTargetInfo context))
     then Layout.push_back (vPtrNode context Layout.VTablePtr 0)
            (Layout.set_align (getAlignment (getASTRecordLayout declaration))
               (Layout.set_size
                  (if includeVirtualBases
                   then getSize (getASTRecordLayout declaration)
                   else getNonVirtualSize (getASTRecordLayout declaration))
                  (Layout.set_type (getQualifiedNameAsString declaration)
                     (Layout.set_typeLocation tl Layout.Node_new))))
     else if hasOwnVFPtr (getASTRecordLayout declaration)
     then Layout.push_back (vPtrNode context Layout.VFTablePtr 0)
            (Layout.set_align (getAlignment (getASTRecordLayout declaration))
               (Layout.set_size
                  (if includeVirtualBases
                   then getSize (getASTRecordLayout declaration)
                   else getNonVirtualSize (getASTRecordLayout declaration))
                  (Layout.set_type (getQualifiedNameAsString declaration)
                     (Layout.set_typeLocation tl Layout.Node_new))))
     else Layout.set_align (getAlignment (getASTRecordLayout declaration))
            (Layout.set_size
               (if includeVirtualBases
                then getSize (getASTRecordLayout declaration)
                else getNonVirtualSize (getASTRecordLayout declaration))
               (Layout.set_type (getQualifiedNameAsString declaration)
                  (Layout.set_typeLocation tl Layout.Node_new))))
    = push_all (emit_vptr context declaration)
        (Layout.mkNode "" (getQualifiedNameAsString declaration) tl
           Layout.Location_new Layout.Node_offset
           (if includeVirtualBases
            then getSize (getASTRecordLayout declaration)
            else getNonVirtualSize (getASTRecordLayout declaration))
           (getAlignment (getASTRecordLayout declaration))
           Layout.Node_nature [])).
  { unfold emit_vptr.
    destruct (isDynamicClass declaration && _ && _);
      [|destruct (hasOwnVFPtr (getASTRecordLayout declaration))]; done. }
  rewrite Hvptr. clear Hvptr.
  destruct includeVirtualBases.
  - rewrite (foldM_compute_vbase _ _ 0%nat). unfold bind, ret.
    destruct (mapM_from _ 0%nat (vbases declaration) g2) as [[vss g3]|];
      [|done].
    by rewrite Hnode.
  - cbn [concat]. rewrite <- (Hnode []). by rewrite push_all_nil.
Qed.

End emitted_facts.

(** ** Loops that build one result per element *)

Section mapM_from_facts.
Context {X Y : Type} (e : nat -> X -> M Y).

Lemma mapM_from_cons k x l g :
  mapM_from e k (x :: l) g
  = match e k x g with
    | Some (y, g1) =>
        match mapM_from e (S k) l g1 with
        | Some (ys, g2) => Some (y :: ys, g2)
        | None => None
        end
    | None => None
    end.
Proof. done. Qed.

Lemma mapM_from_total k l g :
  (forall x, x ∈ l -> forall k' g', is_Some (e k' x g')) ->
  is_Some (mapM_from e k l g).
Proof.
  revert k g. induction l as [|x l IH]; intros k g Hl.
  - by eexists.
  - rewrite mapM_from_cons.
    destruct (Hl x (list_elem_of_here _ _) k g) as [[y g1] ->].
    destruct (IH (S k) g1) as [[ys g2] ->]; [|by eexists].
    intros x' Hx'. apply Hl. by apply list_elem_of_further.
Qed.

Lemma mapM_from_fails k l g :
  is_Some (mapM_from e k l g) ->
  forall i x, l !! i = Some x -> exists gi, is_Some (e (k + i)%nat x gi).
Proof.
  revert k g. induction l as [|x l IH]; intros k g Hs i x' Hi; [done|].
  rewrite mapM_from_cons in Hs.
  destruct (e k x g) as [[y g1]|] eqn:E; [|by destruct Hs].
  destruct i as [|i]; simpl in Hi.
  - injection Hi as <-. exists g. rewrite Nat.add_0_r, E. by eexists.
  - destruct (mapM_from e (S k) l g1) as [[ys g2]|] eqn:E2;
      [|by destruct Hs].
    destruct (IH (S k) g1 (ltac:(rewrite E2; by eexists)) i x' Hi) as [gi Hgi].
    exists gi. by replace (k + S i)%nat with (S k + i)%nat by lia.
Qed.

(** The globals before and after every iteration of a run. *)
Lemma mapM_from_trace k l g ys g' :
  mapM_from e k l g = Some (ys, g') ->
  exists gs : list Globals,
    length gs = length l /\ length ys = length l /\
    last (g :: gs) = Some g' /\
    forall i x, l !! i = Some x ->
      exists y gi gi',
        ys !! i = Some y /\ (g :: gs) !! i = Some gi /\ gs !! i = Some gi' /\
        e (k + i)%nat x gi = Some (y, gi').
Proof.
  revert k g ys g'. induction l as [|x l IH]; intros k g ys g' Hrun.
  - injection Hrun as <- <-. exists []. done.
  - rewrite mapM_from_cons in Hrun.
    destruct (e k x g) as [[y g1]|] eqn:E; [|done].
    destruct (mapM_from e (S k) l g1) as [[ys' g2]|] eqn:E2; [|done].
    injection Hrun as <- <-.
    destruct (IH _ _ _ _ E2) as (gs & Hlen & Hlen' & Hlast & Hstep).
    exists (g1 :: gs). split_and!; simpl; [by rewrite Hlen | by rewrite Hlen' | |].
    + rewrite <- Hlast. by destruct gs.
    + intros [|i] x' Hi; simpl in Hi.
      * injection Hi as <-. exists y, g, g1. by rewrite Nat.add_0_r.
      * destruct (Hstep i x' Hi) as (y' & gi & gi' & ? & ? & ? & ?).
        exists y', gi, gi'. split_and!; try done.
        by replace (k + S i)%nat with (S k + i)%nat by lia.
Qed.

End mapM_from_facts.

(** ** Induction over the declarations nested in a record *)

Lemma CXXRecordDecl_nested_ind (P : CXXRecordDecl -> Prop) :
  (forall d,
     Forall (fun b : CXXBaseSpecifier => P (base_getAsCXXRecordDecl b))
       (bases d) ->
     Forall (fun f : FieldDecl =>
               forall r, field_getAsCXXRecordDecl f = Some r -> P r)
       (fields d) ->
     Forall (fun b : CXXBaseSpecifier => P (base_getAsCXXRecordDecl b))
       (vbases d) ->
     P d) ->
  forall d, P d.
Proof.
  intros step. fix self 1. intros d. apply step.
  - destruct d as [? ? ? ? ? ? ? ? ? ? bs fs vs]. simpl.
    induction bs as [|[dep virt b] bs IH]; constructor; [apply self | apply IH].
  - destruct d as [? ? ? ? ? ? ? ? ? ? bs fs vs]. simpl.
    induction fs as [|[n t l [r|] bf w ti] fs IH]; constructor; try apply IH.
    + simpl. intros r' [= <-]. apply self.
    + simpl. intros r' [=].
  - destruct d as [? ? ? ? ? ? ? ? ? ? bs fs vs]. simpl.
    induction vs as [|[dep virt b] vs IH]; constructor; [apply self | apply IH].
Qed.

(** ** [ComputeStruct] returns unless an assertion fails *)

Lemma forallb_pointwise {A : Type} (p q : A -> bool) (l : list A) :
  (forall x, p x = q x) -> forallb p l = forallb q l.
Proof. intros E. induction l as [|x l IH]; simpl; [done|]. by rewrite E, IH. Qed.

Lemma asserts_hold_eq declaration includeVirtualBases :
  asserts_hold declaration includeVirtualBases
  = forallb (fun b : CXXBaseSpecifier =>
               negb (base_isDependentType b)
               && (isVirtual b
                   || asserts_hold (base_getAsCXXRecordDecl b) false))
      (bases declaration)
    && forallb (fun f : FieldDecl =>
                  match field_getAsCXXRecordDecl f with
                  | Some d => asserts_hold d true
                  | None => true
                  end) (fields declaration)
    && (negb includeVirtualBases
        || forallb (fun b : CXXBaseSpecifier =>
                      isVirtual b
                      && asserts_hold (base_getAsCXXRecordDecl b) false)
             (vbases declaration)).
Proof.
  destruct declaration as [? ? ? ? ? ? ? ? ? ? bs fs vs]. simpl.
  f_equal; [f_equal|f_equal]; apply forallb_pointwise; by intros [? ? ? [?|] ? ? ?] || by intros [].
Qed.

Section returns.
Context `{Layout.Constructors} (context : ASTContext).

Lemma elem_of_sorted_nvbases declaration x :
  x ∈ sorted_nvbases declaration <->
  exists b : CXXBaseSpecifier,
    b ∈ bases declaration /\ isVirtual b = false
    /\ base_getAsCXXRecordDecl b = x.
Proof.
  unfold sorted_nvbases. rewrite stable_sort_Permutation.
  unfold nvbases. rewrite list_elem_of_fmap. split.
  - intros (b & -> & Hb). apply list_elem_of_In, filter_In in Hb as [Hb Hv].
    exists b. split_and!; [by apply list_elem_of_In | | done].
    by destruct (isVirtual b).
  - intros (b & Hb & Hv & <-). exists b. split; [done|].
    apply list_elem_of_In, filter_In. split; [by apply list_elem_of_In|].
    by rewrite Hv.
Qed.

Lemma emit_field_returns layout fieldNo (field : FieldDecl) g :
  (forall r, field_getAsCXXRecordDecl field = Some r ->
     forall g', is_Some (ComputeStruct context r true g')) ->
  is_Some (emit_field context layout fieldNo field g).
Proof.
  intros Hr. unfold emit_field.
  destruct (field_getAsCXXRecordDecl field) as [r|].
  - unfold bind, lift, ret.
    destruct (Hr r eq_refl g) as [[n0 g1] ->].
    destruct (RetrieveLocation _ _ _ g1). by eexists.
  - destruct (isBitField field); [by eexists|].
    unfold bind, lift, ret. destruct (RetrieveLocation _ _ _ g). by eexists.
Qed.

Lemma ComputeStruct_returns declaration :
  forall includeVirtualBases g,
    asserts_hold declaration includeVirtualBases = true ->
    is_Some (ComputeStruct context declaration includeVirtualBases g).
Proof.
  induction declaration as [d IHb IHf IHv] using CXXRecordDecl_nested_ind.
  intros ivb g. rewrite ComputeStruct_emitted_eq, asserts_hold_eq.
  rewrite !andb_true_iff. intros [[Hb Hf] Hv].
  rewrite forallb_forall in Hb. rewrite forallb_forall in Hf.
  rewrite Forall_forall in IHb. rewrite Forall_forall in IHf.
  rewrite Forall_forall in IHv.
  unfold ComputeStruct_emitted, bind, lift, assert.
  destruct (RetrieveLocation _ _ _ g) as [tl g0].
  assert (Hdep : forallb (fun b : CXXBaseSpecifier =>
                            negb (base_isDependentType b)) (bases d) = true).
  { apply forallb_forall. intros b Hin.
    specialize (Hb b Hin). by apply andb_true_iff in Hb as [-> _]. }
  rewrite Hdep.
  destruct (mapM_from_total (fun _ => emit_nvbase context (getASTRecordLayout d))
              0 (sorted_nvbases d) g0) as [[nvs g1] ->].
  { intros x Hx k' g'. apply elem_of_sorted_nvbases in Hx as (b & Hin & Hv' & <-).
    unfold emit_nvbase, bind, ret.
    destruct (IHb b Hin false g') as [[n0 g2] ->]; [|by eexists].
    apply list_elem_of_In in Hin. specialize (Hb b Hin).
    rewrite Hv' in Hb. by apply andb_true_iff in Hb as [_ Hb]. }
  destruct (mapM_from_total (emit_field context (getASTRecordLayout d))
              0 (fields d) g1) as [[fs g2] ->].
  { intros f Hin k' g'. apply emit_field_returns. intros r Hr g''.
    apply (IHf f Hin r Hr). apply list_elem_of_In in Hin.
    specialize (Hf f Hin). by rewrite Hr in Hf. }
  destruct ivb; [|by eexists].
  simpl in Hv. rewrite forallb_forall in Hv.
  destruct (mapM_from_total (fun _ => emit_vbase context (getASTRecordLayout d))
              0 (vbases d) g2) as [[vss g3] ->]; [|by eexists].
  intros b Hin k' g'. unfold emit_vbase, bind, assert, ret.
  pose proof (Hv b (proj1 (list_elem_of_In _ _) Hin)) as Hvb.
  apply andb_true_iff in Hvb as [-> Hvb].
  destruct (IHv b Hin false g' Hvb) as [[n0 g4] ->]. by eexists.
Qed.

End returns.

(** ** The segments of the children of a node *)

Lemma filter_all {A : Type} (p : A -> bool) (l : list A) :
  Forall (fun x => p x = true) l -> List.filter p l = l.
Proof.
  induction 1 as [|x l Hx _ IH]; simpl; [done|]. by rewrite Hx, IH.
Qed.

Lemma filter_none {A : Type} (p : A -> bool) (l : list A) :
  Forall (fun x => p x = false) l -> List.filter p l = [].
Proof.
  induction 1 as [|x l Hx _ IH]; simpl; [done|]. by rewrite Hx, IH.
Qed.

Section segments.
Context `{Layout.Constructors} (context : ASTContext).

(** What a successful call returns, read off [ComputeStruct_emitted]. *)
Lemma ComputeStruct_inv declaration includeVirtualBases g n g' :
  ComputeStruct context declaration includeVirtualBases g = Some (n, g') ->
  let layout := getASTRecordLayout declaration in
  let r := RetrieveLocation Layout.Location_new context
             (getLocation declaration) g in
  exists nvs g1 fs g2 vss,
    mapM_from (fun _ => emit_nvbase context layout) 0
      (sorted_nvbases declaration) r.2 = Some (nvs, g1)
    /\ mapM_from (emit_field context layout) 0 (fields declaration) g1
       = Some (fs, g2)
    /\ (if includeVirtualBases
        then mapM_from (fun _ => emit_vbase context layout) 0
               (vbases declaration) g2 = Some (vss, g')
        else vss = [] /\ g' = g2)
    /\ n = Layout.mkNode "" (getQualifiedNameAsString declaration) r.1
             Layout.Location_new Layout.Node_offset
             (if includeVirtualBases then getSize layout
              else getNonVirtualSize layout)
             (getAlignment layout) Layout.Node_nature
             (emit_vptr context declaration ++ nvs
              ++ emit_vbptr context declaration ++ fs ++ concat vss).
Proof.
  rewrite ComputeStruct_emitted_eq.
  unfold ComputeStruct_emitted, bind, lift, assert, ret. simpl.
  destruct (RetrieveLocation _ _ _ g) as [tl g0]. simpl.
  destruct (forallb _ (bases declaration)); [|done].
  destruct (mapM_from _ 0%nat (sorted_nvbases declaration) g0)
    as [[nvs g1]|] eqn:E1; [|done].
  destruct (mapM_from _ 0%nat (fields declaration) g1) as [[fs g2]|] eqn:E2;
    [|done].
  destruct includeVirtualBases.
  - destruct (mapM_from _ 0%nat (vbases declaration) g2) as [[vss g3]|] eqn:E;
      [|done].
    intros [= <- <-]. by exists nvs, g1, fs, g2, vss.
  - intros [= <- <-]. by exists nvs, g1, fs, g2, [].
Qed.

Lemma emit_nvbase_inv layout base g c g' :
  emit_nvbase context layout base g = Some (c, g') ->
  exists baseNode,
    ComputeStruct context base false g = Some (baseNode, g')
    /\ c = nvbase_node layout base baseNode.
Proof.
  unfold emit_nvbase, bind, ret.
  destruct (ComputeStruct context base false g) as [[n0 g1]|]; [|done].
  intros [= <- <-]. by exists n0.
Qed.

Lemma emit_vbase_inv layout (Base : CXXBaseSpecifier) g cs g' :
  emit_vbase context layout Base g = Some (cs, g') ->
  exists vBaseNode,
    isVirtual Base = true
    /\ ComputeStruct context (base_getAsCXXRecordDecl Base) false g
       = Some (vBaseNode, g')
    /\ cs = emit_vtorDisp layout (base_getAsCXXRecordDecl Base)
            ++ [vbase_node layout (base_getAsCXXRecordDecl Base) vBaseNode].
Proof.
  unfold emit_vbase, bind, assert, ret.
  destruct (isVirtual Base); [|done].
  destruct (ComputeStruct context _ false g) as [[n0 g1]|]; [|done].
  intros [= <- <-]. by exists n0.
Qed.

Lemma emit_field_nature layout fieldNo (field : FieldDecl) g c g' :
  emit_field context layout fieldNo field g = Some (c, g') ->
  Layout.nature c
  = match field_getAsCXXRecordDecl field with
    | Some _ => Layout.ComplexField
    | None => if isBitField field then Layout.Bitfield
              else Layout.SimpleField
    end.
Proof.
  unfold emit_field, bind, lift, ret.
  destruct (field_getAsCXXRecordDecl field) as [r|].
  - destruct (ComputeStruct context r true g) as [[n0 g1]|]; [|done].
    destruct (RetrieveLocation _ _ _ g1). by intros [= <- <-].
  - destruct (isBitField field); [by intros [= <- <-]|].
    destruct (RetrieveLocation _ _ _ g). by intros [= <- <-].
Qed.

(** A property of every result of a loop. *)
Lemma mapM_from_Forall {X Y : Type} (e : nat -> X -> M Y) (P : Y -> Prop)
    k l g ys g' :
  (forall k' x g1 y g2, x ∈ l -> e k' x g1 = Some (y, g2) -> P y) ->
  mapM_from e k l g = Some (ys, g') -> Forall P ys.
Proof.
  revert k g ys g'.
  induction l as [|x l IH]; intros k g ys g' HP.
  - by intros [= <- <-].
  - rewrite mapM_from_cons.
    destruct (e k x g) as [[y g1]|] eqn:E; [|done].
    destruct (mapM_from e (S k) l g1) as [[ys' g2]|] eqn:E2; [|done].
    intros [= <- <-]. constructor.
    + eapply HP; [apply list_elem_of_here | exact E].
    + eapply IH; [|exact E2]. intros k' x' ga y' gb Hin.
      apply HP. by apply list_elem_of_further.
Qed.

Lemma nvbase_node_nature layout base baseNode :
  is_nvbase (Layout.nature (nvbase_node layout base baseNode)) = true.
Proof. unfold nvbase_node. simpl. by case_bool_decide. Qed.

Lemma emit_vbase_natures layout vBase vBaseNode :
  Forall (fun c => is_vbase (Layout.nature c) = true)
    (emit_vtorDisp layout vBase ++ [vbase_node layout vBase vBaseNode]).
Proof.
  apply Forall_app. split.
  - unfold emit_vtorDisp. destruct (hasVtorDisp _ _); repeat constructor.
  - repeat constructor. unfold vbase_node. simpl. by case_bool_decide.
Qed.

Lemma ComputeStruct_segments declaration includeVirtualBases g n g' :
  ComputeStruct context declaration includeVirtualBases g = Some (n, g') ->
  let layout := getASTRecordLayout declaration in
  let r := RetrieveLocation Layout.Location_new context
             (getLocation declaration) g in
  exists nvs g1 fs g2 vss,
    (mapM_from (fun _ => emit_nvbase context layout) 0
       (sorted_nvbases declaration) r.2 = Some (nvs, g1)
     /\ mapM_from (emit_field context layout) 0 (fields declaration) g1
        = Some (fs, g2)
     /\ (if includeVirtualBases
         then mapM_from (fun _ => emit_vbase context layout) 0
                (vbases declaration) g2 = Some (vss, g')
         else vss = [] /\ g' = g2))
    /\ Layout.children n
       = emit_vptr context declaration ++ nvs
         ++ emit_vbptr context declaration ++ fs ++ concat vss
    /\ children_of is_nvbase n = nvs
    /\ children_of is_field n = fs
    /\ children_of is_vbase n = concat vss
    /\ children_of (is_category Layout.VTablePtr) n
       = (if emits_VTablePtr context declaration
          then [vPtrNode context Layout.VTablePtr 0] else [])
    /\ children_of (is_category Layout.VFTablePtr) n
       = (if emits_VFTablePtr context declaration
          then [vPtrNode context Layout.VFTablePtr 0] else [])
    /\ children_of (is_category Layout.VBTablePtr) n
       = emit_vbptr context declaration.
Proof.
  intros Hrun layout r.
  destruct (ComputeStruct_inv _ _ _ _ _ Hrun)
    as (nvs & g1 & fs & g2 & vss & Hnv & Hf & Hv & ->).
  fold layout in Hnv, Hf, Hv. fold r in Hnv.
  exists nvs, g1, fs, g2, vss. split; [done|]. split; [done|].
  assert (Nnv : Forall (fun c => is_nvbase (Layout.nature c) = true) nvs).
  { eapply mapM_from_Forall; [|exact Hnv]. simpl.
    intros _ x ga y gb _ Hy. apply emit_nvbase_inv in Hy as (n0 & _ & ->).
    apply nvbase_node_nature. }
  assert (Nf : Forall (fun c => is_field (Layout.nature c) = true) fs).
  { eapply mapM_from_Forall; [|exact Hf]. simpl.
    intros k x ga y gb _ Hy. rewrite (emit_field_nature _ _ _ _ _ _ Hy).
    destruct (field_getAsCXXRecordDecl x); [done|].
    by destruct (isBitField x). }
  assert (Nv : Forall (fun c => is_vbase (Layout.nature c) = true)
                 (concat vss)).
  { apply Forall_concat. destruct includeVirtualBases.
    - eapply mapM_from_Forall; [|exact Hv]. simpl.
      intros _ x ga y gb _ Hy.
      apply emit_vbase_inv in Hy as (n0 & _ & _ & ->).
      apply emit_vbase_natures.
    - destruct Hv as [-> _]. constructor. }
  assert (Np : Forall (fun c => Layout.nature c = Layout.VTablePtr
                                \/ Layout.nature c = Layout.VFTablePtr)
                 (emit_vptr context declaration)).
  { unfold emit_vptr.
    destruct (_ && _ && _); [constructor; [by left | constructor]|].
    destruct (hasOwnVFPtr _); constructor; [by right | constructor]. }
  assert (Nb : Forall (fun c => Layout.nature c = Layout.VBTablePtr)
                 (emit_vbptr context declaration)).
  { unfold emit_vbptr. destruct (hasOwnVBPtr _); repeat constructor. }
  unfold children_of. simpl. rewrite !List.filter_app.
  split_and!.
  - rewrite (filter_all _ nvs Nnv).
    rewrite (filter_none _ (emit_vptr _ _)), (filter_none _ (emit_vbptr _ _)),
      (filter_none _ fs), (filter_none _ (concat vss)).
    + by rewrite app_nil_r.
    + eapply Forall_impl; [exact Nv|]. simpl. intros c.
      by destruct (Layout.nature c).
    + eapply Forall_impl; [exact Nf|]. simpl. intros c.
      by destruct (Layout.nature c).
    + eapply Forall_impl; [exact Nb|]. simpl. by intros c ->.
    + eapply Forall_impl; [exact Np|]. simpl. by intros c [-> | ->].
  - rewrite (filter_all _ fs Nf).
    rewrite (filter_none _ (emit_vptr _ _)), (filter_none _ (emit_vbptr _ _)),
      (filter_none _ nvs), (filter_none _ (concat vss)).
    + by rewrite app_nil_r.
    + eapply Forall_impl; [exact Nv|]. simpl. intros c.
      by destruct (Layout.nature c).
    + eapply Forall_impl; [exact Nnv|]. simpl. intros c.
      by destruct (Layout.nature c).
    + eapply Forall_impl; [exact Nb|]. simpl. by intros c ->.
    + eapply Forall_impl; [exact Np|]. simpl. by intros c [-> | ->].
  - rewrite (filter_all _ (concat vss) Nv).
    rewrite (filter_none _ (emit_vptr _ _)), (filter_none _ (emit_vbptr _ _)),
      (filter_none _ nvs), (filter_none _ fs).
    + done.
    + eapply Forall_impl; [exact Nf|]. simpl. intros c.
      by destruct (Layout.nature c).
    + eapply Forall_impl; [exact Nnv|]. simpl. intros c.
      by destruct (Layout.nature c).
    + eapply Forall_impl; [exact Nb|]. simpl. by intros c ->.
    + eapply Forall_impl; [exact Np|]. simpl. by intros c [-> | ->].
  - rewrite (filter_none _ (emit_vbptr _ _)),
      (filter_none _ nvs), (filter_none _ fs), (filter_none _ (concat vss)).
    + rewrite app_nil_r. unfold emit_vptr, emits_VTablePtr.
      destruct (_ && _ && _); [done|]. by destruct (hasOwnVFPtr _).
    + eapply Forall_impl; [exact Nv|]. simpl. intros c.
      by destruct (Layout.nature c).
    + eapply Forall_impl; [exact Nf|]. simpl. intros c.
      by destruct (Layout.nature c).
    + eapply Forall_impl; [exact Nnv|]. simpl. intros c.
      by destruct (Layout.nature c).
    + eapply Forall_impl; [exact Nb|]. simpl. by intros c ->.
  - rewrite (filter_none _ (emit_vbptr _ _)),
      (filter_none _ nvs), (filter_none _ fs), (filter_none _ (concat vss)).
    + rewrite app_nil_r. unfold emit_vptr, emits_VFTablePtr, emits_VTablePtr.
      destruct (_ && _ && _); [done|]. by destruct (hasOwnVFPtr _).
    + eapply Forall_impl; [exact Nv|]. simpl. intros c.
      by destruct (Layout.nature c).
    + eapply Forall_impl; [exact Nf|]. simpl. intros c.
      by destruct (Layout.nature c).
    + eapply Forall_impl; [exact Nnv|]. simpl. intros c.
      by destruct (Layout.nature c).
    + eapply Forall_impl; [exact Nb|]. simpl. by intros c ->.
  - rewrite (filter_all _ (emit_vbptr _ _)).
    rewrite (filter_none _ (emit_vptr _ _)),
      (filter_none _ nvs), (filter_none _ fs), (filter_none _ (concat vss)).
    + by rewrite app_nil_r.
    + eapply Forall_impl; [exact Nv|]. simpl. intros c.
      by destruct (Layout.nature c).
    + eapply Forall_impl; [exact Nf|]. simpl. intros c.
      by destruct (Layout.nature c).
    + eapply Forall_impl; [exact Nnv|]. simpl. intros c.
      by destruct (Layout.nature c).
    + eapply Forall_impl; [exact Np|]. simpl. by intros c [-> | ->].
    + eapply Forall_impl; [exact Nb|]. simpl. by intros c ->.
Qed.

End segments.

Section members.
Context `{Layout.Constructors} (context : ASTContext).

(** The members of the node a call returns, other than its children. *)
Lemma ComputeStruct_members declaration includeVirtualBases g n g' :
  ComputeStruct context declaration includeVirtualBases g = Some (n, g') ->
  let layout := getASTRecordLayout declaration in
  Layout.name n = ""
  /\ Layout.type n = getQualifiedNameAsString declaration
  /\ Layout.typeLocation n
     = (RetrieveLocation Layout.Location_new context
          (getLocation declaration) g).1
  /\ Layout.fieldLocation n = Layout.Location_new
  /\ Layout.offset n = Layout.Node_offset
  /\ Layout.size n
     = (if includeVirtualBases then getSize layout
        else getNonVirtualSize layout)
  /\ Layout.align n = getAlignment layout
  /\ Layout.nature n = Layout.Node_nature.
Proof.
  intros Hrun.
  destruct (ComputeStruct_inv _ _ _ _ _ _ Hrun)
    as (nvs & g1 & fs & g2 & vss & _ & _ & _ & ->).
  done.
Qed.

Lemma mapM_from_Forall2 {X Y : Type} (e : nat -> X -> M Y) k l g ys g' :
  mapM_from e k l g = Some (ys, g') ->
  Forall2 (fun x y => exists k' gi gi', e k' x gi = Some (y, gi')) l ys.
Proof.
  revert k g ys g'. induction l as [|x l IH]; intros k g ys g'.
  - intros [= <- <-]. constructor.
  - rewrite mapM_from_cons.
    destruct (e k x g) as [[y g1]|] eqn:E; [|done].
    destruct (mapM_from e (S k) l g1) as [[ys' g2]|] eqn:E2; [|done].
    intros [= <- <-]. constructor; eauto.
Qed.

End members.

(** ** Bit offsets *)

Lemma to_int64_exact z : 0 <= z < 2 ^ 63 -> to_int64 z = z.
Proof. intros Hz. unfold to_int64. rewrite Z.mod_small; lia. Qed.

Lemma to_uint64_exact z : 0 <= z < 2 ^ 64 -> to_uint64 z = z.
Proof. intros Hz. unfold to_uint64. by rewrite Z.mod_small. Qed.

Lemma toCharUnitsFromBits_exact context bits :
  0 < getCharWidth (getTargetInfo context) -> 0 <= bits < 2 ^ 63 ->
  toCharUnitsFromBits context (to_int64 bits)
  = bits / getCharWidth (getTargetInfo context).
Proof.
  intros Hcw Hbits. unfold toCharUnitsFromBits.
  rewrite to_int64_exact by done. apply Z.quot_div_nonneg; lia.
Qed.

Lemma bit_offset_in_slot context bits :
  0 < getCharWidth (getTargetInfo context) -> 0 <= bits < 2 ^ 63 ->
  to_uint64
    (bits - to_uint64
              (toBits context (toCharUnitsFromBits context (to_int64 bits))))
  = bits mod getCharWidth (getTargetInfo context).
Proof.
  intros Hcw Hbits. rewrite toCharUnitsFromBits_exact by done.
  unfold toBits.
  set (cw := getCharWidth (getTargetInfo context)) in *.
  pose proof (Z.mod_pos_bound bits cw Hcw) as Hmod.
  pose proof (Z.div_mod bits cw ltac:(lia)) as Hdiv.
  assert (0 <= bits / cw) by (apply Z.div_pos; lia).
  assert (Heq : bits / cw * cw = bits - bits mod cw) by lia.
  rewrite Heq.
  rewrite (to_uint64_exact (bits - bits mod cw)) by lia.
  replace (bits - (bits - bits mod cw)) with (bits mod cw) by lia.
  apply to_uint64_exact. lia.
Qed.

Lemma bit_offset_zero context :
  to_uint64
    (0 - to_uint64 (toBits context (toCharUnitsFromBits context (to_int64 0))))
  = 0.
Proof.
  unfold toBits, toCharUnitsFromBits.
  change (to_int64 0) with 0. reflexivity.
Qed.

(** ** [ComputeStruct] aborts exactly when an assertion fails *)

Section aborts.
Context `{Layout.Constructors} (context : ASTContext).

Lemma mapM_from_steps {X Y : Type} (e : nat -> X -> M Y) k l g :
  is_Some (mapM_from e k l g) ->
  forall x, x ∈ l -> exists k' gi, is_Some (e k' x gi).
Proof.
  intros Hs x Hx. apply list_elem_of_lookup in Hx as [i Hi].
  destruct (mapM_from_fails e k l g Hs i x Hi) as [gi Hgi]. eauto.
Qed.

Lemma ComputeStruct_asserts declaration :
  forall includeVirtualBases g,
    is_Some (ComputeStruct context declaration includeVirtualBases g) ->
    asserts_hold declaration includeVirtualBases = true.
Proof.
  induction declaration as [d IHb IHf IHv] using CXXRecordDecl_nested_ind.
  intros ivb g [[n g'] Hrun].
  rewrite Forall_forall in IHb. rewrite Forall_forall in IHf.
  rewrite Forall_forall in IHv.
  assert (Hdep : forallb (fun b : CXXBaseSpecifier =>
                            negb (base_isDependentType b)) (bases d) = true).
  { rewrite ComputeStruct_emitted_eq in Hrun.
    unfold ComputeStruct_emitted, bind, lift, assert in Hrun.
    destruct (RetrieveLocation _ _ _ g).
    by destruct (forallb _ (bases d)). }
  destruct (ComputeStruct_inv _ _ _ _ _ _ Hrun)
    as (nvs & g1 & fs & g2 & vss & Hnv & Hf & Hv & _).
  rewrite asserts_hold_eq, !andb_true_iff. split_and!.
  - apply forallb_forall. intros b Hb.
    rewrite forallb_forall in Hdep. rewrite (Hdep b Hb). simpl.
    destruct (isVirtual b) eqn:Hvirt; [done|]. simpl.
    apply list_elem_of_In in Hb.
    destruct (mapM_from_steps _ _ _ _ (ltac:(rewrite Hnv; by eexists))
                (base_getAsCXXRecordDecl b)) as (k' & gi & Hstep).
    { apply elem_of_sorted_nvbases. by exists b. }
    apply (IHb b Hb false gi).
    unfold emit_nvbase, bind in Hstep.
    destruct (ComputeStruct context _ false gi); [by eexists|].
    by destruct Hstep.
  - apply forallb_forall. intros f Hin.
    destruct (field_getAsCXXRecordDecl f) as [r|] eqn:Hr; [|done].
    apply list_elem_of_In in Hin.
    destruct (mapM_from_steps _ _ _ _ (ltac:(rewrite Hf; by eexists)) f Hin)
      as (k' & gi & Hstep).
    apply (IHf f Hin r Hr true gi).
    unfold emit_field, bind in Hstep. rewrite Hr in Hstep.
    destruct (ComputeStruct context r true gi); [by eexists|].
    by destruct Hstep.
  - destruct ivb; [|done]. simpl.
    apply forallb_forall. intros b Hb. apply list_elem_of_In in Hb.
    destruct (mapM_from_steps _ _ _ _ (ltac:(rewrite Hv; by eexists)) b Hb)
      as (k' & gi & Hstep).
    unfold emit_vbase, bind, assert in Hstep.
    destruct (isVirtual b); [|by destruct Hstep]. simpl.
    apply (IHv b Hb false gi).
    destruct (ComputeStruct context _ false gi); [by eexists|].
    by destruct Hstep.
Qed.

End aborts.

(** ** The order of the children over the whole tree *)




Lemma nodes_eq n : nodes n = n :: concat (map nodes (Layout.children n)).
Proof. by destruct n. Qed.

Lemma Forall_nodes_children (P : Layout.Node -> Prop) n n' :
  Layout.children n = Layout.children n' ->
  (P n -> P n') -> Forall P (nodes n) -> Forall P (nodes n').
Proof.
  rewrite (nodes_eq n), (nodes_eq n'). intros -> HP Hn.
  apply Forall_cons in Hn as [Hn Hcs]. constructor; [by apply HP | done].
Qed.

Lemma Forall_nodes_leaf (P : Layout.Node -> Prop) n :
  Layout.children n = [] -> P n -> Forall P (nodes n).
Proof. rewrite nodes_eq. intros -> HP. simpl. by constructor. Qed.

Section order.
Context `{Layout.Constructors} (context : ASTContext).




End order.


(** ** The declaration locator *)

Section locate_facts.
Context (g : Globals) (sourceManager : SourceManager).

Let filter := g_locationFilter g.

Lemma TryRecord_members v declaration sourceRange :
  m_sourceManager (TryRecord g v declaration sourceRange) = m_sourceManager v
  /\ m_mainFileId (TryRecord g v declaration sourceRange) = m_mainFileId v.
Proof.
  unfold TryRecord. destruct declaration as [decl|]; [|done].
  destruct (_ && _ && _ && _); [|done].
  by destruct (_ && _ && _).
Qed.

(** One call of [TryRecord]: the best match is replaced exactly when the
    candidate is eligible, contains the filter position and starts
    strictly after the best start so far. *)
Lemma TryRecord_step v (c : Candidate) :
  m_sourceManager v = sourceManager ->
  let best := (m_bestStartLine v, m_bestStartCol v) in
  (eligible c = true /\ contains sourceManager filter c
   /\ pos_lt best (start_of sourceManager c)
   /\ exists decl, c.1 = Some decl
      /\ TryRecord g v c.1 c.2
         = mkVisitor sourceManager (Some decl) (m_mainFileId v)
             (start_of sourceManager c).1 (start_of sourceManager c).2)
  \/ (~ (eligible c = true /\ contains sourceManager filter c
         /\ pos_lt best (start_of sourceManager c))
      /\ TryRecord g v c.1 c.2 = v).
Proof.
  intros Hsm. simpl. destruct c as [[decl|] range]; [|right; split; [by intros [? _] | done]].
  unfold TryRecord, eligible, contains, pos_le, pos_lt, start_of, end_of,
    filter_position. simpl. fold filter. rewrite Hsm.
  destruct (_ && _ && _ && _); [|right; split; [by intros [? _] | done]].
  set (sl := getLine (getPresumedLoc sourceManager (getBegin range))).
  set (sc := getColumn (getPresumedLoc sourceManager (getBegin range))).
  set (el := getLine (getPresumedLoc sourceManager (getEnd range))).
  set (ec := getColumn (getPresumedLoc sourceManager (getEnd range))).
  destruct ((((sl <? row filter) || ((row filter =? sl) && (sc <=? col filter)))
             && ((row filter <? el)
                 || ((row filter =? el) && (col filter <=? ec)))
             && ((m_bestStartLine v <? sl)
                 || ((sl =? m_bestStartLine v) && (m_bestStartCol v <? sc))))%N)
    eqn:E.
  - left.
    rewrite !andb_true_iff, !orb_true_iff, !andb_true_iff in E.
    rewrite !N.ltb_lt, !N.eqb_eq, !N.leb_le in E.
    split; [done|]. split_and!; [lia | lia | lia |].
    by exists decl.
  - right. split; [|done]. intros (_ & [Hs He] & Hb).
    apply not_true_iff_false in E. apply E.
    rewrite !andb_true_iff, !orb_true_iff, !andb_true_iff.
    rewrite !N.ltb_lt, !N.eqb_eq, !N.leb_le. lia.
Qed.

(** The traversal is a scan of the candidates. *)
Lemma Traverse_candidates (Decls : list Decl) v :
  m_sourceManager v = sourceManager ->
  m_mainFileId v = getMainFileID sourceManager ->
  foldl (TraverseDecl g) v Decls
  = foldl (fun v (c : Candidate) => TryRecord g v c.1 c.2) v
      (candidates sourceManager Decls).
Proof.
  unfold candidates. revert v.
  induction Decls as [|D Decls IH]; intros v Hsm Hmain; [done|].
  simpl. rewrite fmap_app, concat_app, foldl_app.
  assert (HD : forall v,
    m_sourceManager v = sourceManager ->
    m_mainFileId v = getMainFileID sourceManager ->
    TraverseDecl g v D
    = foldl (fun v (c : Candidate) => TryRecord g v c.1 c.2) v
        (concat (candidate_of sourceManager <$> D))
    /\ m_sourceManager (TraverseDecl g v D) = sourceManager
    /\ m_mainFileId (TraverseDecl g v D) = getMainFileID sourceManager).
  { clear. unfold TraverseDecl.
    induction D as [|visit D IH]; intros v Hsm Hmain; [done|].
    simpl. rewrite foldl_app.
    assert (Hstep :
      match visit with
      | CXXRecord declaration => VisitCXXRecordDecl g v declaration
      | Var declaration => VisitVarDecl g v declaration
      end
      = foldl (fun v (c : Candidate) => TryRecord g v c.1 c.2) v
          (candidate_of sourceManager visit)).
    { destruct visit as [d|d]; simpl;
        unfold VisitCXXRecordDecl, VisitVarDecl; rewrite Hsm, Hmain;
        by case_bool_decide. }
    rewrite <- Hstep. apply IH.
    - destruct visit as [d|d]; unfold VisitCXXRecordDecl, VisitVarDecl;
        case_bool_decide; try done;
        by rewrite (proj1 (TryRecord_members _ _ _)).
    - destruct visit as [d|d]; unfold VisitCXXRecordDecl, VisitVarDecl;
        case_bool_decide; try done;
        by rewrite (proj2 (TryRecord_members _ _ _)). }
  destruct (HD v Hsm Hmain) as (<- & Hsm' & Hmain'). by apply IH.
Qed.

End locate_facts.

Section scan.
Context (g : Globals) (sourceManager : SourceManager).

Let filter := g_locationFilter g.
Let step := fun v (c : Candidate) => TryRecord g v c.1 c.2.

(** What the scan has found after any prefix of the candidates. *)
Lemma scan_invariant (cands : list Candidate) :
  let v := foldl step (Visitor_new sourceManager) cands in
  let best : Position := (m_bestStartLine v, m_bestStartCol v) in
  m_sourceManager v = sourceManager
  /\ (forall c, c ∈ cands -> eligible c = true ->
        contains sourceManager filter c ->
        pos_le (start_of sourceManager c) best)
  /\ match m_best v with
     | Some decl =>
         exists i c,
           cands !! i = Some c /\ c.1 = Some decl /\ eligible c = true
           /\ contains sourceManager filter c
           /\ start_of sourceManager c = best
           /\ forall j c', (j < i)%nat -> cands !! j = Some c' ->
                eligible c' = true -> contains sourceManager filter c' ->
                pos_lt (start_of sourceManager c') best
     | None => best = (0, 0)%N
     end.
Proof.
  induction cands as [|c cands IH] using rev_ind.
  { simpl. split_and!; [done | by intros c Hc%elem_of_nil | done]. }
  simpl. rewrite foldl_app. simpl.
  set (v := foldl step (Visitor_new sourceManager) cands) in *.
  simpl in IH. destruct IH as (Hsm & Hmax & Hbest).
  change (step v c) with (TryRecord g v c.1 c.2).
  destruct (TryRecord_step g sourceManager v c Hsm)
    as [(Hel & Hin & Hlt & decl & Hdecl & ->) | (Hnot & ->)]; simpl.
  - split; [done|]. split.
    + intros c' [Hc' | ->%list_elem_of_singleton]%elem_of_app Hel' Hin'.
      * specialize (Hmax c' Hc' Hel' Hin').
        unfold pos_le, pos_lt, start_of in *. simpl in *. lia.
      * unfold pos_le, start_of. simpl. lia.
    + exists (length cands), c. split_and!; try done.
      * by rewrite lookup_app_r, Nat.sub_diag.
      * intros j c' Hj Hc' Hel' Hin'.
        rewrite lookup_app_l in Hc' by done.
        apply list_elem_of_lookup_2 in Hc'.
        specialize (Hmax c' Hc' Hel' Hin').
        unfold pos_le, pos_lt, start_of in *. simpl in *. lia.
  - split; [done|]. split.
    + intros c' [Hc' | ->%list_elem_of_singleton]%elem_of_app Hel' Hin'.
      * by apply Hmax.
      * assert (Hnlt : ~ pos_lt (m_bestStartLine v, m_bestStartCol v)
                         (start_of sourceManager c)) by tauto.
        unfold pos_le, pos_lt, start_of in *. simpl in *. lia.
    + destruct (m_best v) as [decl|]; [|done].
      destruct Hbest as (i & c' & Hi & Hd & Hel & Hin & Hst & Hfirst).
      exists i, c'. split_and!; try done.
      * apply lookup_app_l_Some. done.
      * intros j c'' Hj Hc''. apply (Hfirst j c'' Hj).
        apply lookup_lt_Some in Hi.
        assert (Hlen : (j < length cands)%nat)
          by (eapply Nat.lt_trans; eassumption).
        by rewrite lookup_app_l in Hc'' by exact Hlen.
Qed.

End scan.

(** * The specified properties *)

(** ** Driver reset, file table and location resolver *)

(** C9.  [ClearResult] is idempotent: after one call, and equally after
    two consecutive calls from any starting state, the root node is
    absent, the file table is empty and the filename lookup is empty. *)
Theorem ClearResult_idempotent (g : Globals) :
  let once := ClearResult g in
  let twice := ClearResult (ClearResult g) in
  (Layout.node (g_result once) = None
   /\ Layout.files (g_result once) = []
   /\ g_filenameLookup once = ∅)
  /\ (Layout.node (g_result twice) = None
      /\ Layout.files (g_result twice) = []
      /\ g_filenameLookup twice = ∅)
  /\ twice = once.
Proof. done. Qed.






(** ** The layout tree builder *)

Section tree_properties.
Context `{Layout.Constructors} (context : ASTContext).

(** C6.  The node built for a record never has both a [VTablePtr] child
    and a [VFTablePtr] child: the first is emitted when the class is
    dynamic, has no primary base and the ABI is not Microsoft's, the
    second otherwise when the layout owns a vftable pointer.  Either sits
    at offset 0 with the size and alignment of a pointer of the target.
    A [VBTablePtr] child appears exactly when the layout owns a vbtable
    pointer, at the offset the layout reports. *)
Theorem pointer_nodes_exclusive declaration includeVirtualBases g :
  asserts_hold declaration includeVirtualBases = true ->
  exists n g',
    ComputeStruct context declaration includeVirtualBases g = Some (n, g')
    /\ let layout := getASTRecordLayout declaration in
       let target := getTargetInfo context in
       let vtable := children_of (is_category Layout.VTablePtr) n in
       let vftable := children_of (is_category Layout.VFTablePtr) n in
       let vbtable := children_of (is_category Layout.VBTablePtr) n in
       (vtable = [] \/ vftable = [])
       /\ (length vtable <= 1)%nat /\ (length vftable <= 1)%nat
       /\ (vtable <> [] <-> emits_VTablePtr context declaration = true)
       /\ (vftable <> [] <-> emits_VFTablePtr context declaration = true)
       /\ (forall c, c ∈ vtable ++ vftable ->
             Layout.offset c = 0
             /\ Layout.size c
                = toCharUnitsFromBits context
                    (to_int64 (getPointerWidth target))
             /\ Layout.align c
                = toCharUnitsFromBits context
                    (to_int64 (getPointerAlign target)))
       /\ (if hasOwnVBPtr layout
           then exists c,
               vbtable = [c]
               /\ Layout.offset c = getVBPtrOffset layout
               /\ Layout.size c
                  = toCharUnitsFromBits context
                      (to_int64 (getPointerWidth target))
               /\ Layout.align c
                  = toCharUnitsFromBits context
                      (to_int64 (getPointerAlign target))
           else vbtable = []).
Proof.
  intros Hok.
  destruct (ComputeStruct_returns context declaration includeVirtualBases g Hok)
    as [[n g'] Hrun].
  exists n, g'. split; [done|].
  destruct (ComputeStruct_segments _ _ _ _ _ _ Hrun)
    as (nvs & g1 & fs & g2 & vss & _ & _ & _ & _ & _ & Hvt & Hvf & Hvb).
  simpl. rewrite Hvt, Hvf, Hvb. unfold emits_VFTablePtr, emit_vbptr.
  assert (Hvbptr :
    if hasOwnVBPtr (getASTRecordLayout declaration)
    then exists c,
        (if hasOwnVBPtr (getASTRecordLayout declaration)
         then [vPtrNode context Layout.VBTablePtr
                 (getVBPtrOffset (getASTRecordLayout declaration))]
         else []) = [c]
        /\ Layout.offset c = getVBPtrOffset (getASTRecordLayout declaration)
        /\ Layout.size c
           = toCharUnitsFromBits context
               (to_int64 (getPointerWidth (getTargetInfo context)))
        /\ Layout.align c
           = toCharUnitsFromBits context
               (to_int64 (getPointerAlign (getTargetInfo context)))
    else (if hasOwnVBPtr (getASTRecordLayout declaration)
          then [vPtrNode context Layout.VBTablePtr
                  (getVBPtrOffset (getASTRecordLayout declaration))]
          else []) = []).
  { destruct (hasOwnVBPtr _); [by eexists | done]. }
  destruct (emits_VTablePtr context declaration); simpl;
    [|destruct (hasOwnVFPtr (getASTRecordLayout declaration)); simpl];
    (split_and!;
     [ auto | lia | lia | by split; intros | by split; intros
     | intros c Hc; first [ by apply elem_of_nil in Hc
                          | by apply list_elem_of_singleton in Hc as -> ]
     | exact Hvbptr ]).
Qed.


(** C4.  With [includeVirtualBases = true] the children tagged as
    virtual bases or displacement adjustments are, for each virtual base
    in the order of [vbases()]: a [VtorDisp] node of size 4 and alignment
    4 at the offset of the virtual base minus 4, when the layout reports
    that the base has a vtordisp, then the node built by the recursive
    call with [includeVirtualBases = false] on the base, at the offset of
    the virtual base and tagged [VPrimaryBase] exactly when the base is
    the primary base of the layout, else [VBase].  With
    [includeVirtualBases = false] there is no such child. *)
Theorem vbases_emitted declaration includeVirtualBases g :
  asserts_hold declaration includeVirtualBases = true ->
  exists n g',
    ComputeStruct context declaration includeVirtualBases g = Some (n, g')
    /\ let layout := getASTRecordLayout declaration in
       if includeVirtualBases
       then exists vss,
           children_of is_vbase n = concat vss
           /\ Forall2
                (fun (Base : CXXBaseSpecifier) vs =>
                   let vBase := base_getAsCXXRecordDecl Base in
                   let vBaseOffset :=
                     getVBaseClassOffset layout (declID vBase) in
                   exists adjustment c,
                     vs = adjustment ++ [c]
                     /\ (if hasVtorDisp layout (declID vBase)
                         then exists a,
                             adjustment = [a]
                             /\ Layout.nature a = Layout.VtorDisp
                             /\ Layout.size a = 4
                             /\ Layout.align a = 4
                             /\ Layout.offset a = vBaseOffset - 4
                             /\ Layout.children a = []
                         else adjustment = [])
                     /\ (exists vBaseNode gi gi',
                           ComputeStruct context vBase false gi
                           = Some (vBaseNode, gi')
                           /\ c = Layout.set_nature (Layout.nature c)
                                    (Layout.set_offset (Layout.offset c)
                                       vBaseNode))
                     /\ Layout.offset c = vBaseOffset
                     /\ Layout.size c
                        = getNonVirtualSize (getASTRecordLayout vBase)
                     /\ Layout.nature c
                        = (if bool_decide (getPrimaryBase layout
                                           = Some (declID vBase))
                           then Layout.VPrimaryBase else Layout.VBase))
                (vbases declaration) vss
       else children_of is_vbase n = [].
Proof.
  intros Hok.
  destruct (ComputeStruct_returns context declaration includeVirtualBases g Hok)
    as [[n g'] Hrun].
  exists n, g'. split; [done|].
  destruct (ComputeStruct_segments _ _ _ _ _ _ Hrun)
    as (nvs & g1 & fs & g2 & vss & (_ & _ & Hv) & _ & _ & _ & -> & _).
  simpl. destruct includeVirtualBases.
  - exists vss. split; [done|].
    eapply Forall2_impl; [exact (mapM_from_Forall2 _ _ _ _ _ _ Hv)|].
    simpl. intros Base vs (_ & gi & gi' & Hvs).
    apply emit_vbase_inv in Hvs as (vBaseNode & _ & Hbase & ->).
    destruct (ComputeStruct_members _ _ _ _ _ _ Hbase)
      as (_ & _ & _ & _ & _ & Hsize & _ & _).
    eexists _, _. split; [done|]. split_and!; try done.
    + unfold emit_vtorDisp. destruct (hasVtorDisp _ _); [|done].
      by eexists.
    + by exists vBaseNode, gi, gi'.
    + unfold vbase_node. simpl. repeat case_bool_decide; congruence.
  - by destruct Hv as [-> _].
Qed.

(** C5.  For a bitfield member, the child at the position of the field
    among the field children is a [Bitfield] node whose size and
    alignment are the width and alignment of the type of the field
    converted from bits to characters, not the bit-width, and which has
    exactly one child: its size is the bit-width of the field and its
    offset the bit offset of the field minus the bits of the characters
    before it, that is, for a bit offset below 2^63, the bit offset
    modulo the character width.  In particular a field of width 3 at bit
    offset 0 yields one child with offset 0 and size 3. *)
Theorem bitfield_node_shape declaration includeVirtualBases g i
    (field : FieldDecl) :
  asserts_hold declaration includeVirtualBases = true ->
  fields declaration !! i = Some field ->
  field_getAsCXXRecordDecl field = None ->
  isBitField field = true ->
  exists n g' c extraData,
    ComputeStruct context declaration includeVirtualBases g = Some (n, g')
    /\ children_of is_field n !! i = Some c
    /\ let layout := getASTRecordLayout declaration in
       let charWidth := getCharWidth (getTargetInfo context) in
       let bits := getFieldOffset layout i in
       Layout.nature c = Layout.Bitfield
       /\ Layout.name c = getNameAsString field
       /\ Layout.size c
          = toCharUnitsFromBits context (to_int64 (Width (getTypeInfo field)))
       /\ Layout.align c
          = toCharUnitsFromBits context (to_int64 (Align (getTypeInfo field)))
       /\ Layout.offset c = toCharUnitsFromBits context (to_int64 bits)
       /\ Layout.children c = [extraData]
       /\ Layout.size extraData = getBitWidthValue field
       /\ Layout.offset extraData
          = to_uint64
              (bits - to_uint64 (toBits context (Layout.offset c)))
       /\ Layout.children extraData = []
       /\ (0 < charWidth -> 0 <= bits < 2 ^ 63 ->
           Layout.offset c = bits / charWidth
           /\ Layout.offset extraData = bits mod charWidth)
       /\ (0 < charWidth -> 0 <= Width (getTypeInfo field) < 2 ^ 63 ->
           Layout.size c = Width (getTypeInfo field) / charWidth)
       /\ (0 < charWidth -> 0 <= Align (getTypeInfo field) < 2 ^ 63 ->
           Layout.align c = Align (getTypeInfo field) / charWidth)
       /\ (bits = 0 -> getBitWidthValue field = 3 ->
           Layout.offset extraData = 0 /\ Layout.size extraData = 3).
Proof.
  intros Hok Hi Hrec Hbit.
  destruct (ComputeStruct_returns context declaration includeVirtualBases g Hok)
    as [[n g'] Hrun].
  destruct (ComputeStruct_segments _ _ _ _ _ _ Hrun)
    as (nvs & g1 & fs & g2 & vss & (_ & Hf & _) & _ & _ & Hfs & _).
  destruct (mapM_from_trace _ _ _ _ _ _ Hf) as (gs & _ & _ & _ & Hstep).
  destruct (Hstep i field Hi) as (c & gi & gi' & Hc & _ & _ & Hemit).
  unfold emit_field in Hemit. rewrite Hrec, Hbit in Hemit.
  injection Hemit as <- <-. simpl in Hc.
  exists n, g', (bitfield_node context (getASTRecordLayout declaration) i field),
    (bitfield_extraData context (getASTRecordLayout declaration) i field).
  split; [done|]. split; [by rewrite Hfs|].
  simpl. split_and!; try done.
  - intros Hcw Hbits. unfold field_offset.
    split; [by apply toCharUnitsFromBits_exact|].
    by apply bit_offset_in_slot.
  - intros Hcw Hw. by apply toCharUnitsFromBits_exact.
  - intros Hcw Ha. by apply toCharUnitsFromBits_exact.
  - intros Hbits Hw. unfold field_offset. rewrite Hbits.
    split; [apply bit_offset_zero | done].
Qed.


End tree_properties.

Lemma pointer_nodes_exclusive_witness :
  asserts_hold struct_A true = true
  /\ exists n g',
       ComputeStruct (H := sample_Constructors) itanium struct_A true
         sample_Globals = Some (n, g')
       /\ children_of (is_category Layout.VTablePtr) n <> []
       /\ children_of (is_category Layout.VFTablePtr) n = []
       /\ children_of (is_category Layout.VBTablePtr) n = [].
Proof.
  split; [reflexivity|].
  destruct (pointer_nodes_exclusive (H := sample_Constructors) itanium
              struct_A true sample_Globals eq_refl)
    as (n & g' & Hrun & Hex & _ & _ & Hvt & _ & _ & Hvb).
  exists n, g'. split; [exact Hrun|].
  assert (Hne : children_of (is_category Layout.VTablePtr) n <> [])
    by (apply Hvt; reflexivity).
  split; [exact Hne|]. split; [|exact Hvb].
  destruct Hex as [Hnil | Hnil]; [destruct (Hne Hnil) | exact Hnil].
Defined.


Lemma vbases_emitted_witness :
  asserts_hold struct_W true = true
  /\ exists n g' vss,
       ComputeStruct (H := sample_Constructors) microsoft struct_W true
         sample_Globals = Some (n, g')
       /\ children_of is_vbase n = concat vss
       /\ length vss = 1%nat.
Proof.
  split; [reflexivity|].
  destruct (vbases_emitted (H := sample_Constructors) microsoft
              struct_W true sample_Globals eq_refl)
    as (n & g' & Hrun & vss & Hvs & Hall).
  exists n, g', vss. split; [exact Hrun|]. split; [exact Hvs|].
  rewrite <- (Forall2_length _ _ _ Hall). reflexivity.
Defined.

Lemma bitfield_node_shape_witness :
  (asserts_hold struct_S true = true
   /\ fields struct_S !! 0%nat = Some bitfield_a
   /\ field_getAsCXXRecordDecl bitfield_a = None
   /\ isBitField bitfield_a = true
   /\ getFieldOffset (getASTRecordLayout struct_S) 0 = 0
   /\ getBitWidthValue bitfield_a = 3)
  /\ exists n g' c extraData,
       ComputeStruct (H := sample_Constructors) itanium struct_S true
         sample_Globals = Some (n, g')
       /\ children_of is_field n !! 0%nat = Some c
       /\ Layout.nature c = Layout.Bitfield
       /\ Layout.size c = 4 /\ Layout.align c = 4
       /\ Layout.children c = [extraData]
       /\ Layout.offset extraData = 0 /\ Layout.size extraData = 3.
Proof.
  split; [repeat split; reflexivity|].
  destruct (bitfield_node_shape (H := sample_Constructors) itanium
              struct_S true sample_Globals 0%nat bitfield_a
              eq_refl eq_refl eq_refl eq_refl)
    as (n & g' & c & e & Hrun & Hc & Hnat & _ & Hsize & Halign & _ & Hch
        & _ & _ & _ & _ & _ & _ & Hzero).
  exists n, g', c, e.
  destruct (Hzero eq_refl eq_refl) as [Hoff Hwidth].
  split_and!;
    [exact Hrun | exact Hc | exact Hnat | exact Hsize | exact Halign
    | exact Hch | exact Hoff | exact Hwidth].
Defined.


(** ** The order of the children *)




(** ** The declaration locator *)

(** [locate] in terms of the scan. *)
Lemma locate_scan context (Decls : list Decl) g :
  locate context Decls g
  = m_best
      (foldl (fun v (c : Candidate) => TryRecord g v c.1 c.2)
         (Visitor_new (getSourceManager context))
         (candidates (getSourceManager context) Decls)).
Proof.
  unfold locate, GetBest. simpl.
  by rewrite (Traverse_candidates g (getSourceManager context)).
Qed.



(** The range tested is that of the visited declaration: with the filter
    on the variable [Outer o;] of line 14, [locate] returns [Outer], the
    record of its type, whose own range ends on line 13. *)
Example locate_through_variable :
  locate itanium sample_Decls
    (mkGlobals ∅ (Layout.mkResult None []) (mkLocationFilter 14 3))
  = Some struct_Outer.
Proof. reflexivity. Qed.

(** * Further properties of the parser *)

(** ** Assertions *)

(** X1.  [ComputeStruct] aborts exactly when one of its two assertions
    fails on a declaration it visits: a base that is still dependent, in
    the record or in a record reached through non-virtual bases, fields
    of record type or, with [includeVirtualBases], virtual bases; or an
    entry of [vbases()] that is not virtual.  Whether it aborts depends
    neither on the globals nor on the target. *)
Theorem ComputeStruct_aborts_iff `{Layout.Constructors} context declaration
    includeVirtualBases g :
  ComputeStruct context declaration includeVirtualBases g = None
  <-> asserts_hold declaration includeVirtualBases = false.
Proof.
  split.
  - intros Hnone. apply not_true_is_false. intros Hok.
    destruct (ComputeStruct_returns context declaration includeVirtualBases
                g Hok) as [r Hr]. congruence.
  - intros Hfalse.
    destruct (ComputeStruct context declaration includeVirtualBases g)
      as [r|] eqn:Hr; [|done].
    rewrite (ComputeStruct_asserts context declaration includeVirtualBases g)
      in Hfalse; [done | by eexists].
Qed.

(** A record with a dependent base cannot be laid out. *)
Example ComputeStruct_dependent_base :
  ComputeStruct (H := sample_Constructors) itanium struct_dependent true
    sample_Globals = None.
Proof. reflexivity. Qed.

(** ** The globals during a run *)

Lemma grows_refl g : grows g g.
Proof. split_and!; try done. exists []. by rewrite app_nil_r. Qed.

Lemma grows_trans g1 g2 g3 : grows g1 g2 -> grows g2 g3 -> grows g1 g3.
Proof.
  intros (Hf1 & Hn1 & [l1 Hl1] & Hk1) (Hf2 & Hn2 & [l2 Hl2] & Hk2).
  split_and!.
  - by rewrite Hf2.
  - by rewrite Hn2.
  - exists (l1 ++ l2). by rewrite Hl2, Hl1, app_assoc.
  - intros h i Hh. by apply Hk2, Hk1.
Qed.

Lemma AddFileToDictionary_grows fileId filename g :
  grows g (AddFileToDictionary fileId filename g).2.
Proof.
  split_and!.
  - unfold AddFileToDictionary. by destruct (g_filenameLookup g !! _).
  - unfold AddFileToDictionary. by destruct (g_filenameLookup g !! _).
  - apply AddFileToDictionary_prefix.
  - intros h i. apply AddFileToDictionary_keeps.
Qed.

Lemma RetrieveLocation_grows output context location g :
  grows g (RetrieveLocation output context location g).2.
Proof.
  unfold RetrieveLocation.
  destruct (negb (SourceLocation_isValid location)); [apply grows_refl|].
  destruct (_ || _); [apply grows_refl|].
  pose proof (AddFileToDictionary_grows
                (getFileID (getPresumedLoc (getSourceManager context) location))
                (getFilename
                   (getPresumedLoc (getSourceManager context) location)) g)
    as Hg.
  by destruct (AddFileToDictionary _ _ g).
Qed.

(** A loop whose iterations keep an invariant of the globals and extend
    them keeps the invariant, and what holds of a result once holds of it
    at the end. *)
Lemma mapM_from_inv {X Y : Type} (e : nat -> X -> M Y)
    (I : Globals -> Prop) (Q : Globals -> Y -> Prop) k l g ys g' :
  (forall k' x g1 y g2, x ∈ l -> e k' x g1 = Some (y, g2) -> I g1 ->
     I g2 /\ grows g1 g2 /\ Q g2 y) ->
  (forall g1 g2 y, grows g1 g2 -> Q g1 y -> Q g2 y) ->
  mapM_from e k l g = Some (ys, g') -> I g ->
  I g' /\ grows g g' /\ Forall (Q g') ys.
Proof.
  intros Hstep Hmono. revert k g ys g' Hstep.
  induction l as [|x l IH]; intros k g ys g' Hstep.
  - intros [= <- <-] HI. split_and!; [done | apply grows_refl | constructor].
  - rewrite mapM_from_cons.
    destruct (e k x g) as [[y g1]|] eqn:E; [|done].
    destruct (mapM_from e (S k) l g1) as [[ys' g2]|] eqn:E2; [|done].
    intros [= <- <-] HI.
    destruct (Hstep k x g y g1 (list_elem_of_here _ _) E HI)
      as (HI1 & Hg1 & HQ).
    destruct (IH (S k) g1 ys' g2) as (HI2 & Hg2 & HQs); try done.
    { intros k' x' ga y' gb Hin. apply Hstep. by apply list_elem_of_further. }
    split_and!; [done | by eapply grows_trans |].
    constructor; [by eapply Hmono | done].
Qed.

Section globals.
Context `{Layout.Constructors} (context : ASTContext).

Lemma ComputeStruct_grows declaration :
  forall includeVirtualBases g n g',
    ComputeStruct context declaration includeVirtualBases g = Some (n, g') ->
    grows g g'.
Proof.
  induction declaration as [d IHb IHf IHv] using CXXRecordDecl_nested_ind.
  intros ivb g n g' Hrun.
  rewrite Forall_forall in IHb. rewrite Forall_forall in IHf.
  rewrite Forall_forall in IHv.
  destruct (ComputeStruct_inv _ _ _ _ _ _ Hrun)
    as (nvs & g1 & fs & g2 & vss & Hnv & Hf & Hv & _).
  pose proof (RetrieveLocation_grows Layout.Location_new context
                (getLocation d) g) as Hg0.
  assert (Hg1 : grows (RetrieveLocation Layout.Location_new context
                         (getLocation d) g).2 g1).
  { eapply (mapM_from_inv _ (fun _ => True) (fun _ _ => True));
      [| done | exact Hnv | done].
    intros k' base ga c gb Hin Hc _.
    apply emit_nvbase_inv in Hc as (baseNode & Hbase & _).
    apply elem_of_sorted_nvbases in Hin as (b & Hb & _ & <-).
    split_and!; try done. by eapply (IHb b Hb). }
  assert (Hg2 : grows g1 g2).
  { eapply (mapM_from_inv _ (fun _ => True) (fun _ _ => True));
      [| done | exact Hf | done].
    intros k field ga c gb Hin Hc _. split_and!; try done.
    unfold emit_field, bind, lift, ret in Hc.
    destruct (field_getAsCXXRecordDecl field) as [r|] eqn:Hr.
    - destruct (ComputeStruct context r true ga) as [[fieldNode gr]|] eqn:Hrec;
        [|done].
      pose proof (RetrieveLocation_grows (Layout.fieldLocation fieldNode)
                    context (field_getLocation field) gr) as Hgx.
      destruct (RetrieveLocation _ _ _ gr) as [fl gx].
      assert (gb = gx) as -> by congruence.
      eapply grows_trans; [|exact Hgx].
      by eapply (IHf field Hin r Hr).
    - destruct (isBitField field).
      + assert (gb = ga) as -> by congruence. apply grows_refl.
      + pose proof (RetrieveLocation_grows Layout.Location_new context
                      (field_getLocation field) ga) as Hgx.
        destruct (RetrieveLocation _ _ _ ga) as [fl gx].
        by assert (gb = gx) as -> by congruence. }
  assert (Hg3 : grows g2 g').
  { destruct ivb; [|destruct Hv as [_ ->]; apply grows_refl].
    eapply (mapM_from_inv _ (fun _ => True) (fun _ _ => True));
      [| done | exact Hv | done].
    intros k' Base ga cs gb Hin Hcs _.
    apply emit_vbase_inv in Hcs as (vBaseNode & _ & Hbase & _).
    split_and!; try done. by eapply (IHv Base Hin). }
  eapply grows_trans; [exact Hg0|].
  eapply grows_trans; [exact Hg1|].
  eapply grows_trans; [exact Hg2 | exact Hg3].
Qed.

End globals.

(** X2.  A run of [ComputeStruct] only interns files: it leaves the
    location filter and the root node of the result as they were, the
    file table it finds is the beginning of the one it leaves, and every
    file identity bound before keeps its index. *)
Theorem ComputeStruct_extends_globals `{Layout.Constructors} context
    declaration includeVirtualBases g :
  asserts_hold declaration includeVirtualBases = true ->
  exists n g',
    ComputeStruct context declaration includeVirtualBases g = Some (n, g')
    /\ g_locationFilter g' = g_locationFilter g
    /\ Layout.node (g_result g') = Layout.node (g_result g)
    /\ (exists l, Layout.files (g_result g')
                 = Layout.files (g_result g) ++ l)
    /\ (forall h i, g_filenameLookup g !! h = Some i ->
                    g_filenameLookup g' !! h = Some i).
Proof.
  intros Hok.
  destruct (ComputeStruct_returns context declaration includeVirtualBases g Hok)
    as [[n g'] Hrun].
  exists n, g'. split; [done|].
  exact (ComputeStruct_grows context declaration _ _ _ _ Hrun).
Qed.

Lemma ComputeStruct_extends_globals_witness :
  asserts_hold struct_W true = true
  /\ exists n g',
       ComputeStruct (H := sample_Constructors) microsoft struct_W true
         (mkGlobals ∅ (Layout.mkResult None ["first.h"])
            (mkLocationFilter 7 8))
       = Some (n, g')
       /\ g_locationFilter g' = mkLocationFilter 7 8
       /\ exists l, Layout.files (g_result g') = ["first.h"] ++ l.
Proof.
  split; [reflexivity|].
  destruct (ComputeStruct_extends_globals (H := sample_Constructors)
              microsoft struct_W true
              (mkGlobals ∅ (Layout.mkResult None ["first.h"])
                 (mkLocationFilter 7 8)) eq_refl)
    as (n & g' & Hrun & Hfilter & _ & Hfiles & _).
  exists n, g'. split_and!; [exact Hrun | exact Hfilter | exact Hfiles].
Defined.

(** ** File indices in the tree *)

Lemma ClearResult_table_ok g : table_ok (ClearResult g).
Proof. split; intros h; intros; simpl in *; by rewrite lookup_empty in *. Qed.

Lemma AddFileToDictionary_table_ok fileId filename g :
  table_ok g ->
  table_ok (AddFileToDictionary fileId filename g).2
  /\ ((AddFileToDictionary fileId filename g).1
      < length (Layout.files
                  (g_result (AddFileToDictionary fileId filename g).2)))%nat.
Proof.
  intros [Hrange Hinj]. unfold AddFileToDictionary.
  destruct (g_filenameLookup g !! getHashValue fileId) as [i|] eqn:E; simpl.
  - split; [done | by eapply Hrange].
  - split; [split|].
    + intros h i. simpl. rewrite length_app. simpl.
      destruct (decide (getHashValue fileId = h)) as [<-|Hne].
      * rewrite lookup_insert_eq. intros [= <-]. lia.
      * rewrite lookup_insert_ne by done. intros Hh%Hrange. lia.
    + intros h h' i. simpl.
      destruct (decide (getHashValue fileId = h)) as [<-|Hne];
        destruct (decide (getHashValue fileId = h')) as [<-|Hne'];
        rewrite ?lookup_insert_eq, ?lookup_insert_ne by done; try done.
      * intros [= <-] Hh'%Hrange. lia.
      * intros Hh%Hrange [= <-]. lia.
      * apply Hinj.
    + rewrite length_app. simpl. lia.
Qed.

Section locations.
Context `{Layout.Constructors} (context : ASTContext).

Lemma location_ok_grows g g' location :
  grows g g' -> location_ok g location -> location_ok g' location.
Proof.
  intros (_ & _ & [l Hl] & _) [-> | (i & Hi & Hidx)]; [by left|].
  right. exists i. split; [|done]. rewrite Hl, length_app. lia.
Qed.

Lemma node_locations_ok_grows g g' n :
  grows g g' -> node_locations_ok g n -> node_locations_ok g' n.
Proof. intros Hg [? ?]. split; by eapply location_ok_grows. Qed.

Lemma RetrieveLocation_ok output location g :
  table_ok g -> location_ok g output ->
  table_ok (RetrieveLocation output context location g).2
  /\ location_ok (RetrieveLocation output context location g).2
       (RetrieveLocation output context location g).1.
Proof.
  intros Hok Hout. unfold RetrieveLocation.
  destruct (negb (SourceLocation_isValid location)); [done|].
  destruct (_ || _); [done|].
  destruct (AddFileToDictionary_table_ok
              (getFileID (getPresumedLoc (getSourceManager context) location))
              (getFilename
                 (getPresumedLoc (getSourceManager context) location)) g Hok)
    as [Hok' Hlt].
  destruct (AddFileToDictionary _ _ g) as [index g']. simpl in *.
  split; [done|]. right. by exists index.
Qed.

Lemma Forall_nodes_grows g g' n :
  grows g g' ->
  Forall (node_locations_ok g) (nodes n) ->
  Forall (node_locations_ok g') (nodes n).
Proof.
  intros Hg Hall. eapply Forall_impl; [exact Hall|].
  intros m. by apply node_locations_ok_grows.
Qed.

Lemma Node_new_locations_ok g : location_ok g Layout.Location_new.
Proof. by left. Qed.

Lemma ComputeStruct_table declaration :
  forall includeVirtualBases g n g',
    ComputeStruct context declaration includeVirtualBases g = Some (n, g') ->
    table_ok g ->
    table_ok g' /\ Forall (node_locations_ok g') (nodes n).
Proof.
  induction declaration as [d IHb IHf IHv] using CXXRecordDecl_nested_ind.
  intros ivb g n g' Hrun Hok.
  rewrite Forall_forall in IHb. rewrite Forall_forall in IHf.
  rewrite Forall_forall in IHv.
  destruct (ComputeStruct_members _ _ _ _ _ _ Hrun)
    as (_ & _ & Htl & Hfl & _).
  destruct (ComputeStruct_segments _ _ _ _ _ _ Hrun)
    as (nvs & g1 & fs & g2 & vss & (Hnv & Hf & Hv) & Hch & _).
  destruct (RetrieveLocation_ok Layout.Location_new (getLocation d) g Hok
              (Node_new_locations_ok g)) as [Hok0 Hloc0].
  set (g0 := (RetrieveLocation Layout.Location_new context
                (getLocation d) g).2) in *.
  (* the non-virtual bases *)
  assert (table_ok g1 /\ grows g0 g1
          /\ Forall (fun y => Forall (node_locations_ok g1) (nodes y)) nvs)
    as (Hok1 & Hg1 & Hnvs).
  { eapply (mapM_from_inv _ table_ok
              (fun g y => Forall (node_locations_ok g) (nodes y)));
      [| | exact Hnv | exact Hok0];
      [|intros ga gb y Hg; by apply Forall_nodes_grows].
    intros k' base ga c gb Hin Hc Hoka.
    apply emit_nvbase_inv in Hc as (baseNode & Hbase & ->).
    apply elem_of_sorted_nvbases in Hin as (b & Hb & _ & <-).
    destruct (IHb b Hb false ga baseNode gb Hbase Hoka) as [Hokb Hall].
    split_and!; [done | by eapply ComputeStruct_grows |].
    by eapply (Forall_nodes_children _ baseNode). }
  (* the fields *)
  assert (table_ok g2 /\ grows g1 g2
          /\ Forall (fun y => Forall (node_locations_ok g2) (nodes y)) fs)
    as (Hok2 & Hg2 & Hfs).
  { eapply (mapM_from_inv _ table_ok
              (fun g y => Forall (node_locations_ok g) (nodes y)));
      [| | exact Hf | exact Hok1];
      [|intros ga gb y Hg; by apply Forall_nodes_grows].
    intros k' field ga c gb Hin Hc Hoka.
    unfold emit_field, bind, lift, ret in Hc.
    destruct (field_getAsCXXRecordDecl field) as [r|] eqn:Hr.
    - destruct (ComputeStruct context r true ga) as [[fieldNode gr]|] eqn:Hrec;
        [|done].
      destruct (IHf field Hin r Hr true ga fieldNode gr Hrec Hoka)
        as [Hokr Hall].
      pose proof (ComputeStruct_grows context r _ _ _ _ Hrec) as Hgr.
      destruct (ComputeStruct_members _ _ _ _ _ _ Hrec)
        as (_ & _ & _ & Hflr & _).
      rewrite Hflr in Hc.
      destruct (RetrieveLocation_ok Layout.Location_new
                  (field_getLocation field) gr Hokr
                  (Node_new_locations_ok gr)) as [Hokx Hlocx].
      pose proof (RetrieveLocation_grows Layout.Location_new context
                    (field_getLocation field) gr) as Hgx.
      destruct (RetrieveLocation _ _ _ gr) as [fl gx]. simpl in *.
      injection Hc as <- <-.
      split_and!; [done | by eapply grows_trans |].
      apply (Forall_nodes_grows gr gx) in Hall; [|done].
      eapply (Forall_nodes_children _ fieldNode); [done | | exact Hall].
      intros [Ht _]. split; [exact Ht | exact Hlocx].
    - destruct (isBitField field).
      + injection Hc as <- <-.
        split_and!; [done | apply grows_refl |].
        rewrite nodes_eq. simpl.
        repeat constructor; apply Node_new_locations_ok.
      + destruct (RetrieveLocation_ok Layout.Location_new
                    (field_getLocation field) ga Hoka
                    (Node_new_locations_ok ga)) as [Hokx Hlocx].
        pose proof (RetrieveLocation_grows Layout.Location_new context
                      (field_getLocation field) ga) as Hgx.
        destruct (RetrieveLocation _ _ _ ga) as [fl gx]. simpl in *.
        injection Hc as <- <-.
        split_and!; [done | done |].
        rewrite nodes_eq. simpl.
        constructor; [|constructor].
        split; [apply Node_new_locations_ok | exact Hlocx]. }
  (* the virtual bases *)
  assert (Hvb : table_ok g' /\ grows g2 g'
                /\ Forall (fun y => Forall (node_locations_ok g') (nodes y))
                     (concat vss)).
  { destruct ivb.
    - assert (table_ok g' /\ grows g2 g'
              /\ Forall (fun ys =>
                           Forall (fun y =>
                                     Forall (node_locations_ok g') (nodes y))
                             ys) vss)
        as (Hok3 & Hg3 & Hvs);
        [|split_and!; [done | done | by apply Forall_concat]].
      eapply (mapM_from_inv _ table_ok
                (fun g ys =>
                   Forall (fun y => Forall (node_locations_ok g) (nodes y))
                     ys));
        [| | exact Hv | exact Hok2].
      + intros k' Base ga cs gb Hin Hcs Hoka.
        apply emit_vbase_inv in Hcs as (vBaseNode & _ & Hbase & ->).
        destruct (IHv Base Hin false ga vBaseNode gb Hbase Hoka)
          as [Hokb Hall].
        split_and!; [done | by eapply ComputeStruct_grows |].
        apply Forall_app. split.
        * unfold emit_vtorDisp. destruct (hasVtorDisp _ _); [|constructor].
          constructor; [|constructor]. rewrite nodes_eq. simpl.
          repeat constructor; apply Node_new_locations_ok.
        * constructor; [|constructor].
          by eapply (Forall_nodes_children _ vBaseNode).
      + intros ga gb ys Hg Hall. eapply Forall_impl; [exact Hall|].
        intros y. by apply Forall_nodes_grows.
    - destruct Hv as [-> ->].
      split_and!; [done | apply grows_refl | constructor]. }
  destruct Hvb as (Hok3 & Hg3 & Hvs).
  split; [done|].
  rewrite nodes_eq. constructor.
  - split.
    + rewrite Htl. eapply location_ok_grows; [|exact Hloc0].
      eapply grows_trans; [exact Hg1|]. by eapply grows_trans.
    + rewrite Hfl. apply Node_new_locations_ok.
  - rewrite Hch. apply Forall_concat, Forall_fmap.
    repeat (apply Forall_app; split).
    + unfold emit_vptr.
      destruct (_ && _ && _); [|destruct (hasOwnVFPtr _)];
        repeat constructor; apply Node_new_locations_ok.
    + eapply Forall_impl; [exact Hnvs|]. intros y. simpl.
      apply Forall_nodes_grows. by eapply grows_trans.
    + unfold emit_vbptr. destruct (hasOwnVBPtr _);
        repeat constructor; apply Node_new_locations_ok.
    + eapply Forall_impl; [exact Hfs|]. intros y. simpl.
      by apply Forall_nodes_grows.
    + exact Hvs.
Qed.

End locations.

(** X3.  Started with a lookup whose indices lie within the file table
    and are bound to one identity each, as after [ClearResult], a run of
    [ComputeStruct] ends with such a lookup, and every type location and
    field location of every node of the tree it returns is either as the
    constructor left it or holds an index of the file table as it is at
    the end of the run, converted to [int]. *)
Theorem ComputeStruct_file_indices `{Layout.Constructors} context
    declaration includeVirtualBases g :
  asserts_hold declaration includeVirtualBases = true ->
  table_ok g ->
  exists n g',
    ComputeStruct context declaration includeVirtualBases g = Some (n, g')
    /\ table_ok g'
    /\ Forall (node_locations_ok g') (nodes n).
Proof.
  intros Hok Htable.
  destruct (ComputeStruct_returns context declaration includeVirtualBases g Hok)
    as [[n g'] Hrun].
  exists n, g'. split; [done|].
  by eapply ComputeStruct_table.
Qed.

Lemma ComputeStruct_file_indices_witness :
  (asserts_hold struct_W true = true
   /\ table_ok (ClearResult sample_Globals))
  /\ exists n g',
       ComputeStruct (H := sample_Constructors) microsoft struct_W true
         (ClearResult sample_Globals) = Some (n, g')
       /\ table_ok g'
       /\ Forall (node_locations_ok (H := sample_Constructors) g') (nodes n).
Proof.
  split; [split; [reflexivity | apply ClearResult_table_ok]|].
  exact (ComputeStruct_file_indices (H := sample_Constructors) microsoft
           struct_W true (ClearResult sample_Globals) eq_refl
           (ClearResult_table_ok sample_Globals)).
Defined.

(** ** One index per file *)

Lemma mapM_from_trace_grows {X Y : Type} (e : nat -> X -> M Y) k l g ys g' :
  (forall k' x g1 y g2, x ∈ l -> e k' x g1 = Some (y, g2) -> grows g1 g2) ->
  mapM_from e k l g = Some (ys, g') ->
  forall i x, l !! i = Some x ->
    exists y gi gi',
      ys !! i = Some y /\ e (k + i)%nat x gi = Some (y, gi')
      /\ grows g gi /\ grows gi' g'.
Proof.
  revert k g ys g'. induction l as [|x l IH]; intros k g ys g' Hstep Hrun;
    [done|].
  rewrite mapM_from_cons in Hrun.
  destruct (e k x g) as [[y g1]|] eqn:E; [|done].
  destruct (mapM_from e (S k) l g1) as [[ys' g2]|] eqn:E2; [|done].
  injection Hrun as <- <-.
  assert (Hstep' : forall k' x' ga y' gb,
            x' ∈ l -> e k' x' ga = Some (y', gb) -> grows ga gb).
  { intros k' x' ga y' gb Hin. apply Hstep. by apply list_elem_of_further. }
  pose proof (Hstep k x g y g1 (list_elem_of_here _ _) E) as Hg1.
  intros [|i] x' Hi; simpl in Hi.
  - injection Hi as <-. exists y, g, g1. rewrite Nat.add_0_r.
    split_and!; [done | done | apply grows_refl |].
    destruct (mapM_from_inv e (fun _ => True) (fun _ _ => True)
                (S k) l g1 ys' g2) as (_ & Hg2 & _); try done.
    intros k' x' ga y' gb Hin Hs _. split_and!; try done. by eapply Hstep'.
  - destruct (IH (S k) g1 ys' g2 Hstep' E2 i x' Hi)
      as (y' & gi & gi' & Hy & He & Hga & Hgb).
    exists y', gi, gi'. split_and!; try done.
    + by replace (k + S i)%nat with (S k + i)%nat by lia.
    + by eapply grows_trans.
Qed.

(** X4.  In the tree built for a record, the field location of a field
    that is not a bitfield and whose location is resolvable holds the
    index to which the file of that location is bound when the run ends.
    Hence two such fields declared in the same file carry the same file
    index. *)
Theorem field_locations_share_index `{Layout.Constructors} context
    declaration includeVirtualBases g :
  asserts_hold declaration includeVirtualBases = true ->
  exists n g',
    ComputeStruct context declaration includeVirtualBases g = Some (n, g')
    /\ let file_of (field : FieldDecl) :=
         getFileID (getPresumedLoc (getSourceManager context)
                      (field_getLocation field)) in
       let located (field : FieldDecl) :=
         resolvable context (field_getLocation field) = true
         /\ (field_getAsCXXRecordDecl field = None ->
             isBitField field = false) in
       (forall i field c,
          fields declaration !! i = Some field ->
          children_of is_field n !! i = Some c ->
          located field ->
          exists index,
            g_filenameLookup g' !! getHashValue (file_of field) = Some index
            /\ Layout.fileIndex (Layout.fieldLocation c)
               = static_cast_int index)
       /\ (forall i j fi fj ci cj,
             fields declaration !! i = Some fi ->
             fields declaration !! j = Some fj ->
             children_of is_field n !! i = Some ci ->
             children_of is_field n !! j = Some cj ->
             located fi -> located fj -> file_of fi = file_of fj ->
             Layout.fileIndex (Layout.fieldLocation ci)
             = Layout.fileIndex (Layout.fieldLocation cj)).
Proof.
  intros Hok.
  destruct (ComputeStruct_returns context declaration includeVirtualBases g Hok)
    as [[n g'] Hrun].
  exists n, g'. split; [done|].
  destruct (ComputeStruct_segments _ _ _ _ _ _ Hrun)
    as (nvs & g1 & fs & g2 & vss & (_ & Hf & Hv) & _ & _ & Hfs & _).
  assert (Hg3 : grows g2 g').
  { destruct includeVirtualBases; [|destruct Hv as [_ ->]; apply grows_refl].
    eapply (mapM_from_inv _ (fun _ => True) (fun _ _ => True));
      [| done | exact Hv | done].
    intros k' Base ga cs gb Hin Hcs _.
    apply emit_vbase_inv in Hcs as (vBaseNode & _ & Hbase & _).
    split_and!; try done. by eapply ComputeStruct_grows. }
  assert (Hfield : forall k' (field : FieldDecl) ga c gb,
            emit_field context (getASTRecordLayout declaration) k' field ga
            = Some (c, gb) ->
            grows ga gb
            /\ (resolvable context (field_getLocation field) = true ->
                (field_getAsCXXRecordDecl field = None ->
                 isBitField field = false) ->
                exists index,
                  g_filenameLookup gb
                    !! getHashValue
                         (getFileID (getPresumedLoc (getSourceManager context)
                                       (field_getLocation field)))
                  = Some index
                  /\ Layout.fileIndex (Layout.fieldLocation c)
                     = static_cast_int index)).
  { intros k' field ga c gb Hc.
    unfold emit_field, bind, lift, ret in Hc.
    destruct (field_getAsCXXRecordDecl field) as [r|] eqn:Hr.
    - destruct (ComputeStruct context r true ga) as [[fieldNode gr]|] eqn:Hrec;
        [|done].
      pose proof (ComputeStruct_grows context r _ _ _ _ Hrec) as Hgr.
      pose proof (RetrieveLocation_grows (Layout.fieldLocation fieldNode)
                    context (field_getLocation field) gr) as Hgx.
      pose proof (RetrieveLocation_resolvable
                    (Layout.fieldLocation fieldNode) context
                    (field_getLocation field) gr) as Hres.
      destruct (RetrieveLocation _ _ _ gr) as [fl gx]. simpl in *.
      injection Hc as <- <-. split; [by eapply grows_trans|].
      intros Hr' _. specialize (Hres Hr'). injection Hres as -> ->.
      eexists. split; [apply AddFileToDictionary_bound | done].
    - destruct (isBitField field).
      + injection Hc as <- <-. split; [apply grows_refl|].
        intros _ Hbit. by specialize (Hbit eq_refl).
      + pose proof (RetrieveLocation_grows Layout.Location_new context
                      (field_getLocation field) ga) as Hgx.
        pose proof (RetrieveLocation_resolvable Layout.Location_new context
                      (field_getLocation field) ga) as Hres.
        destruct (RetrieveLocation _ _ _ ga) as [fl gx]. simpl in *.
        injection Hc as <- <-. split; [done|].
        intros Hr' _. specialize (Hres Hr'). injection Hres as -> ->.
        eexists. split; [apply AddFileToDictionary_bound | done]. }
  assert (Hone : forall i (field : FieldDecl) c,
            fields declaration !! i = Some field ->
            children_of is_field n !! i = Some c ->
            resolvable context (field_getLocation field) = true
            /\ (field_getAsCXXRecordDecl field = None ->
                isBitField field = false) ->
            exists index,
              g_filenameLookup g'
                !! getHashValue
                     (getFileID (getPresumedLoc (getSourceManager context)
                                   (field_getLocation field)))
              = Some index
              /\ Layout.fileIndex (Layout.fieldLocation c)
                 = static_cast_int index).
  { intros i field c Hi Hc [Hres Hnb]. rewrite Hfs in Hc.
    destruct (mapM_from_trace_grows _ _ _ _ _ _
                (fun k' x ga y gb _ Hs => proj1 (Hfield k' x ga y gb Hs))
                Hf i field Hi)
      as (c' & gi & gi' & Hc' & He & _ & Hgb).
    rewrite Hc in Hc'. injection Hc' as <-.
    destruct (proj2 (Hfield _ _ _ _ _ He) Hres Hnb) as (index & Hb & Hidx).
    exists index. split; [|done].
    destruct (grows_trans _ _ _ Hgb Hg3) as (_ & _ & _ & Hkeep).
    by apply Hkeep. }
  simpl. split; [exact Hone|].
  intros i j fi fj ci cj Hi Hj Hci Hcj Hli Hlj Hsame.
  destruct (Hone i fi ci Hi Hci Hli) as (xi & Hbi & ->).
  destruct (Hone j fj cj Hj Hcj Hlj) as (xj & Hbj & ->).
  rewrite Hsame in Hbi. congruence.
Qed.

Lemma field_locations_share_index_witness :
  (asserts_hold struct_R true = true
   /\ fields struct_R !! 1%nat = Some (int_field "z" 545)
   /\ resolvable itanium 545 = true)
  /\ exists n g' c index,
       ComputeStruct (H := sample_Constructors) itanium struct_R true
         sample_Globals = Some (n, g')
       /\ children_of is_field n !! 1%nat = Some c
       /\ g_filenameLookup g' !! getHashValue (mkFileID 1) = Some index
       /\ Layout.fileIndex (Layout.fieldLocation c) = static_cast_int index.
Proof.
  split; [repeat split; reflexivity|].
  destruct (field_locations_share_index (H := sample_Constructors) itanium
              struct_R true sample_Globals eq_refl)
    as (n & g' & Hrun & Hone & _).
  assert (Hfields : exists c, children_of is_field n !! 1%nat = Some c).
  { destruct (ComputeStruct_segments _ _ _ _ _ _ Hrun)
      as (nvs & g1 & fs & g2 & vss & (_ & Hf & _) & _ & _ & -> & _).
    destruct (mapM_from_trace _ _ _ _ _ _ Hf) as (gs & _ & _ & _ & Hstep).
    destruct (Hstep 1%nat (int_field "z" 545) eq_refl)
      as (c & _ & _ & Hc & _). by exists c. }
  destruct Hfields as [c Hc].
  destruct (Hone 1%nat (int_field "z" 545) c eq_refl Hc
              (conj eq_refl (fun _ => eq_refl))) as (index & Hb & Hidx).
  exists n, g', c, index.
  split_and!; [exact Hrun | exact Hc | exact Hb | exact Hidx].
Defined.

(** ** The file table over a run of calls *)

Lemma intern_calls_table_ok calls g :
  table_ok g -> table_ok (intern_calls calls g).2.
Proof.
  revert g. induction calls as [|[f n] calls IH]; intros g Hok; [done|].
  simpl.
  destruct (AddFileToDictionary_table_ok f n g Hok) as [Hok1 _].
  destruct (AddFileToDictionary f n g) as [x g1]. simpl in Hok1.
  specialize (IH g1 Hok1). by destruct (intern_calls calls g1).
Qed.

Lemma intern_calls_lookup calls :
  forall g k fileId filename index,
    calls !! k = Some (fileId, filename) ->
    (intern_calls calls g).1 !! k = Some index ->
    g_filenameLookup (intern_calls calls g).2 !! getHashValue fileId
    = Some index.
Proof.
  induction calls as [|[f n] calls IH]; intros g k fileId filename index Hk Hx;
    [done|].
  simpl in *.
  pose proof (AddFileToDictionary_bound f n g) as Hb.
  destruct (AddFileToDictionary f n g) as [x g1]. simpl in Hb.
  pose proof (intern_calls_keeps calls g1 (getHashValue f) x Hb) as Hkeep.
  specialize (IH g1).
  destruct (intern_calls calls g1) as [ixs g2]. simpl in *.
  destruct k as [|k]; simpl in *.
  - injection Hk as -> ->. by injection Hx as <-.
  - by eapply IH.
Qed.

(** X5.  Started with a lookup whose indices lie within the file table
    and are bound to one identity each, a run of [AddFileToDictionary]
    calls ends with such a lookup; every index returned is an index of
    the final table and is the one bound to the identity of the call, so
    calls with different identities return different indices.  A call
    repeated at once returns the same index and changes nothing, whatever
    filename it is given. *)
Theorem AddFileToDictionary_distinct calls g :
  table_ok g ->
  let run := intern_calls calls g in
  table_ok run.2
  /\ (forall k fileId filename index,
        calls !! k = Some (fileId, filename) ->
        run.1 !! k = Some index ->
        (index < length (Layout.files (g_result run.2)))%nat
        /\ g_filenameLookup run.2 !! getHashValue fileId = Some index)
  /\ (forall i j fi ni fj nj xi xj,
        calls !! i = Some (fi, ni) -> calls !! j = Some (fj, nj) ->
        run.1 !! i = Some xi -> run.1 !! j = Some xj ->
        getHashValue fi <> getHashValue fj -> xi <> xj)
  /\ (forall fileId filename filename',
        AddFileToDictionary fileId filename'
          (AddFileToDictionary fileId filename g).2
        = AddFileToDictionary fileId filename g).
Proof.
  intros Hok. simpl.
  pose proof (intern_calls_table_ok calls g Hok) as [Hrange Hinj].
  split_and!.
  - by split.
  - intros k fileId filename index Hk Hx.
    pose proof (intern_calls_lookup calls g k fileId filename index Hk Hx)
      as Hl.
    split; [by eapply Hrange | done].
  - intros i j fi ni fj nj xi xj Hi Hj Hxi Hxj Hne ->.
    apply Hne. eapply Hinj.
    + by eapply intern_calls_lookup.
    + by eapply intern_calls_lookup.
  - intros fileId filename filename'.
    pose proof (AddFileToDictionary_bound fileId filename g) as Hb.
    destruct (AddFileToDictionary fileId filename g) as [x g1]. simpl in *.
    by apply AddFileToDictionary_found.
Qed.

Lemma AddFileToDictionary_distinct_witness :
  (table_ok (ClearResult sample_Globals)
   /\ sample_calls !! 0%nat = Some (mkFileID 1, "main.cpp")
   /\ sample_calls !! 1%nat = Some (mkFileID 2, "header.h")
   /\ getHashValue (mkFileID 1) <> getHashValue (mkFileID 2))
  /\ exists xi xj,
       (intern_calls sample_calls (ClearResult sample_Globals)).1 !! 0%nat
       = Some xi
       /\ (intern_calls sample_calls (ClearResult sample_Globals)).1 !! 1%nat
          = Some xj
       /\ xi <> xj.
Proof.
  assert (Hne : getHashValue (mkFileID 1) <> getHashValue (mkFileID 2))
    by (vm_compute; discriminate).
  assert (Hxi :
    (intern_calls sample_calls (ClearResult sample_Globals)).1 !! 0%nat
    = Some 0%nat) by (vm_compute; reflexivity).
  assert (Hxj :
    (intern_calls sample_calls (ClearResult sample_Globals)).1 !! 1%nat
    = Some 1%nat) by (vm_compute; reflexivity).
  split; [split_and!; [apply ClearResult_table_ok | reflexivity
                       | reflexivity | exact Hne]|].
  exists 0%nat, 1%nat. split; [exact Hxi|]. split; [exact Hxj|].
  exact (proj1 (proj2 (proj2 (AddFileToDictionary_distinct sample_calls
                                (ClearResult sample_Globals)
                                (ClearResult_table_ok sample_Globals))))
           0%nat 1%nat (mkFileID 1) "main.cpp" (mkFileID 2) "header.h"
           0%nat 1%nat eq_refl eq_refl Hxi Hxj Hne).
Defined.

(** ** The shape of the tree *)

Section shape.
Context `{Layout.Constructors} (context : ASTContext).

Lemma mapM_from_fmap {X Y Z' : Type} (e : nat -> X -> M Y)
    (f : Y -> Z') (h : X -> Z') k l g ys g' :
  (forall k' x g1 y g2, x ∈ l -> e k' x g1 = Some (y, g2) -> f y = h x) ->
  mapM_from e k l g = Some (ys, g') -> f <$> ys = h <$> l.
Proof.
  revert k g ys g'. induction l as [|x l IH]; intros k g ys g' Hf.
  - by intros [= <- <-].
  - rewrite mapM_from_cons.
    destruct (e k x g) as [[y g1]|] eqn:E; [|done].
    destruct (mapM_from e (S k) l g1) as [[ys' g2]|] eqn:E2; [|done].
    intros [= <- <-]. rewrite !fmap_cons. f_equal.
    + eapply Hf; [apply list_elem_of_here | exact E].
    + eapply IH; [|exact E2]. intros k' x' ga y' gb Hin.
      apply Hf. by apply list_elem_of_further.
Qed.

Lemma emit_field_name layout k (field : FieldDecl) g c g' :
  emit_field context layout k field g = Some (c, g') ->
  Layout.name c = getNameAsString field
  /\ Layout.type c = getAsString field.
Proof.
  unfold emit_field, bind, lift, ret.
  destruct (field_getAsCXXRecordDecl field) as [r|].
  - destruct (ComputeStruct context r true g) as [[n0 gr]|]; [|done].
    destruct (RetrieveLocation _ _ _ gr). by intros [= <- <-].
  - destruct (isBitField field); [by intros [= <- <-]|].
    destruct (RetrieveLocation _ _ _ g). by intros [= <- <-].
Qed.

Lemma ComputeStruct_descendants declaration :
  forall includeVirtualBases g n g',
    ComputeStruct context declaration includeVirtualBases g = Some (n, g') ->
    Forall base_without_vbases (descendants n).
Proof.
  induction declaration as [d IHb IHf IHv] using CXXRecordDecl_nested_ind.
  intros ivb g n g' Hrun.
  rewrite Forall_forall in IHb. rewrite Forall_forall in IHf.
  rewrite Forall_forall in IHv.
  destruct (ComputeStruct_segments _ _ _ _ _ _ Hrun)
    as (nvs & g1 & fs & g2 & vss & (Hnv & Hf & Hv) & Hch & _).
  unfold descendants. rewrite Hch.
  assert (Hleaf : forall c, Layout.children c = [] ->
                            Forall base_without_vbases (nodes c)).
  { intros c Hc. apply Forall_nodes_leaf; [done|].
    intros _. unfold children_of. by rewrite Hc. }
  assert (Hbase : forall (b : CXXRecordDecl) ga baseNode gb c,
            (forall ivb' g0 n0 g0',
               ComputeStruct context b ivb' g0 = Some (n0, g0') ->
               Forall base_without_vbases (descendants n0)) ->
            ComputeStruct context b false ga = Some (baseNode, gb) ->
            Layout.children c = Layout.children baseNode ->
            Forall base_without_vbases (nodes c)).
  { intros b ga baseNode gb c IH Hb Hc.
    rewrite nodes_eq. constructor.
    - intros _. unfold children_of. rewrite Hc.
      destruct (ComputeStruct_segments _ _ _ _ _ _ Hb)
        as (? & ? & ? & ? & vss0 & (_ & _ & [-> _]) & _ & _ & _ & Hvs & _).
      exact Hvs.
    - rewrite Hc. by eapply IH. }
  apply Forall_concat, Forall_fmap.
  repeat (apply Forall_app; split).
  - unfold emit_vptr.
    destruct (_ && _ && _); [|destruct (hasOwnVFPtr _)];
      repeat constructor; by apply Hleaf.
  - eapply mapM_from_Forall; [|exact Hnv]. simpl.
    intros k' base ga c gb Hin Hc.
    apply emit_nvbase_inv in Hc as (baseNode & Hb & ->).
    apply elem_of_sorted_nvbases in Hin as (b & Hin & _ & <-).
    eapply Hbase; [apply (IHb b Hin) | exact Hb | done].
  - unfold emit_vbptr. destruct (hasOwnVBPtr _);
      repeat constructor; by apply Hleaf.
  - eapply mapM_from_Forall; [|exact Hf]. simpl.
    intros k' field ga c gb Hin Hc.
    unfold emit_field, bind, lift, ret in Hc.
    destruct (field_getAsCXXRecordDecl field) as [r|] eqn:Hr.
    + destruct (ComputeStruct context r true ga) as [[fieldNode gr]|] eqn:Hrec;
        [|done].
      destruct (RetrieveLocation _ _ _ gr) as [fl gx].
      injection Hc as <- <-. rewrite nodes_eq. constructor; [by intros ?|].
      exact (IHf field Hin r Hr _ _ _ _ Hrec).
    + destruct (isBitField field).
      * injection Hc as <- <-. rewrite nodes_eq. constructor; [by intros ?|].
        apply Forall_concat, Forall_fmap.
        constructor; [|constructor]. by apply Hleaf.
      * destruct (RetrieveLocation _ _ _ ga) as [fl gx].
        injection Hc as <- <-. by apply Hleaf.
  - apply Forall_concat. destruct ivb.
    + eapply mapM_from_Forall; [|exact Hv]. simpl.
      intros k' Base ga cs gb Hin Hcs.
      apply emit_vbase_inv in Hcs as (vBaseNode & _ & Hb & ->).
      apply Forall_app. split.
      * unfold emit_vtorDisp. destruct (hasVtorDisp _ _); [|constructor].
        constructor; [|constructor]. by apply Hleaf.
      * constructor; [|constructor].
        eapply Hbase; [apply (IHv Base Hin) | exact Hb | done].
    + destruct Hv as [-> _]. constructor.
Qed.

End shape.

(** X6.  [includeVirtualBases] only decides the size of the node and the
    virtual bases among its children: the node built without them has
    the non-virtual size, and the children of the node built with them
    are the children of the former followed by the virtual bases and
    their adjustments; every other member is the same, and the globals
    left by the former run are extended by the latter. *)
Theorem ComputeStruct_without_virtual_bases `{Layout.Constructors} context
    declaration g :
  asserts_hold declaration true = true ->
  exists n g' n0 g0,
    ComputeStruct context declaration true g = Some (n, g')
    /\ ComputeStruct context declaration false g = Some (n0, g0)
    /\ Layout.children n = Layout.children n0 ++ children_of is_vbase n
    /\ children_of is_vbase n0 = []
    /\ Layout.size n = getSize (getASTRecordLayout declaration)
    /\ Layout.size n0 = getNonVirtualSize (getASTRecordLayout declaration)
    /\ n0 = Layout.mkNode (Layout.name n) (Layout.type n)
              (Layout.typeLocation n) (Layout.fieldLocation n)
              (Layout.offset n) (Layout.size n0) (Layout.align n)
              (Layout.nature n) (Layout.children n0)
    /\ grows g0 g'.
Proof.
  intros Hok.
  destruct (ComputeStruct_returns context declaration true g Hok)
    as [[n g'] Hrun].
  destruct (ComputeStruct_segments _ _ _ _ _ _ Hrun)
    as (nvs & g1 & fs & g2 & vss & (Hnv & Hf & Hv) & Hch & _ & _ & Hvs & _).
  pose proof Hrun as Ht. rewrite ComputeStruct_emitted_eq in Ht.
  pose proof (ComputeStruct_emitted_eq context declaration false g) as Ef.
  unfold ComputeStruct_emitted, bind, lift, assert, ret in Ht, Ef.
  destruct (RetrieveLocation Layout.Location_new context
              (getLocation declaration) g) as [tl ga]. simpl in *.
  destruct (forallb _ (bases declaration)); [|done].
  rewrite Hnv in Ht, Ef. rewrite Hf in Ht, Ef. rewrite Hv in Ht.
  injection Ht as <-.
  eexists _, g', _, g2. split; [exact Hrun|]. split; [exact Ef|].
  assert (Hg : grows g2 g').
  { eapply (mapM_from_inv _ (fun _ => True) (fun _ _ => True));
      [| done | exact Hv | done].
    intros k' Base gx cs gy Hin Hcs _.
    apply emit_vbase_inv in Hcs as (vBaseNode & _ & Hbase & _).
    split_and!; try done. by eapply ComputeStruct_grows. }
  rewrite Hvs. simpl. split_and!; try done.
  - by rewrite app_nil_r, <- !app_assoc.
  - destruct (ComputeStruct_segments _ _ _ _ _ _ Ef)
      as (? & ? & ? & ? & vss0 & (_ & _ & [-> _]) & _ & _ & _ & Hvs0 & _).
    exact Hvs0.
Qed.

Lemma ComputeStruct_without_virtual_bases_witness :
  asserts_hold struct_W true = true
  /\ exists n g' n0 g0,
       ComputeStruct (H := sample_Constructors) microsoft struct_W true
         sample_Globals = Some (n, g')
       /\ ComputeStruct (H := sample_Constructors) microsoft struct_W false
            sample_Globals = Some (n0, g0)
       /\ Layout.children n = Layout.children n0 ++ children_of is_vbase n
       /\ Layout.size n = 24 /\ Layout.size n0 = 12.
Proof.
  split; [reflexivity|].
  destruct (ComputeStruct_without_virtual_bases (H := sample_Constructors)
              microsoft struct_W sample_Globals eq_refl)
    as (n & g' & n0 & g0 & Ht & Hf & Hch & _ & Hs & Hs0 & _).
  exists n, g', n0, g0.
  split_and!; [exact Ht | exact Hf | exact Hch | exact Hs | exact Hs0].
Defined.

(** X7.  Below the root of the tree built for a record, a node tagged as
    a base sub-object, virtual or not, primary or not, has no
    virtual-base child and no displacement adjustment: bases are always
    built with [includeVirtualBases = false], at every depth. *)
Theorem bases_built_without_virtual_bases `{Layout.Constructors} context
    declaration includeVirtualBases g :
  asserts_hold declaration includeVirtualBases = true ->
  exists n g',
    ComputeStruct context declaration includeVirtualBases g = Some (n, g')
    /\ forall m, m ∈ descendants n ->
         is_base (Layout.nature m) = true -> children_of is_vbase m = [].
Proof.
  intros Hok.
  destruct (ComputeStruct_returns context declaration includeVirtualBases g Hok)
    as [[n g'] Hrun].
  exists n, g'. split; [done|].
  pose proof (ComputeStruct_descendants context declaration _ _ _ _ Hrun)
    as Hall.
  rewrite Forall_forall in Hall. exact Hall.
Qed.

Lemma bases_built_without_virtual_bases_witness :
  asserts_hold struct_B true = true
  /\ exists n g',
       ComputeStruct (H := sample_Constructors) itanium struct_B true
         sample_Globals = Some (n, g')
       /\ forall m, m ∈ descendants n ->
            is_base (Layout.nature m) = true -> children_of is_vbase m = [].
Proof.
  split; [reflexivity|].
  exact (bases_built_without_virtual_bases (H := sample_Constructors)
           itanium struct_B true sample_Globals eq_refl).
Defined.

Section names.
Context `{Layout.Constructors} (context : ASTContext).

Lemma emit_nvbase_members layout base g c g' :
  emit_nvbase context layout base g = Some (c, g') ->
  Layout.name c = ""
  /\ Layout.type c = getQualifiedNameAsString base
  /\ (is_primary (Layout.nature c) = true ->
      getPrimaryBase layout = Some (declID base)).
Proof.
  intros Hc. apply emit_nvbase_inv in Hc as (baseNode & Hb & ->).
  destruct (ComputeStruct_members _ _ _ _ _ _ Hb) as (Hn & Ht & _).
  unfold nvbase_node. simpl. split_and!; try done.
  by case_bool_decide.
Qed.

Lemma emit_vbase_members layout (Base : CXXBaseSpecifier) g cs g' :
  emit_vbase context layout Base g = Some (cs, g') ->
  Forall (fun c =>
            Layout.name c = ""
            /\ (is_primary (Layout.nature c) = true ->
                getPrimaryBase layout
                = Some (declID (base_getAsCXXRecordDecl Base))
                /\ Layout.type c
                   = getQualifiedNameAsString (base_getAsCXXRecordDecl Base)))
    cs.
Proof.
  intros Hcs. apply emit_vbase_inv in Hcs as (vBaseNode & _ & Hb & ->).
  destruct (ComputeStruct_members _ _ _ _ _ _ Hb) as (Hn & Ht & _).
  apply Forall_app. split.
  - unfold emit_vtorDisp. destruct (hasVtorDisp _ _); [|constructor].
    constructor; [|constructor]. by split.
  - constructor; [|constructor]. unfold vbase_node. simpl.
    split; [done|]. by case_bool_decide.
Qed.

End names.

(** X8.  The field children of the node built for a record carry, in
    declaration order, the names of the fields and the spellings of the
    types of the fields, also for a field of record type, whose node thus
    does not keep the qualified name of the record; the non-virtual base
    children carry the qualified names of the bases in the sorted order;
    every child that is not a field has an empty name. *)
Theorem children_names `{Layout.Constructors} context declaration
    includeVirtualBases g :
  asserts_hold declaration includeVirtualBases = true ->
  exists n g',
    ComputeStruct context declaration includeVirtualBases g = Some (n, g')
    /\ Layout.name <$> children_of is_field n
       = getNameAsString <$> fields declaration
    /\ Layout.type <$> children_of is_field n
       = getAsString <$> fields declaration
    /\ Layout.type <$> children_of is_nvbase n
       = getQualifiedNameAsString <$> sorted_nvbases declaration
    /\ (forall c, c ∈ Layout.children n ->
          is_field (Layout.nature c) = false -> Layout.name c = "").
Proof.
  intros Hok.
  destruct (ComputeStruct_returns context declaration includeVirtualBases g Hok)
    as [[n g'] Hrun].
  exists n, g'. split; [done|].
  destruct (ComputeStruct_segments _ _ _ _ _ _ Hrun)
    as (nvs & g1 & fs & g2 & vss & (Hnv & Hf & Hv) & Hch & -> & -> & _).
  split_and!.
  - eapply mapM_from_fmap; [|exact Hf].
    intros k' x ga y gb _ Hy. by apply emit_field_name in Hy as [? _].
  - eapply mapM_from_fmap; [|exact Hf].
    intros k' x ga y gb _ Hy. by apply emit_field_name in Hy as [_ ?].
  - eapply mapM_from_fmap; [|exact Hnv].
    intros k' x ga y gb _ Hy. simpl in Hy.
    by apply emit_nvbase_members in Hy as (_ & ? & _).
  - rewrite Hch. intros c Hc Hnf.
    rewrite !elem_of_app in Hc.
    destruct Hc as [Hc | [Hc | [Hc | [Hc | Hc]]]].
    + unfold emit_vptr in Hc.
      destruct (_ && _ && _); [|destruct (hasOwnVFPtr _)];
        first [ by apply elem_of_nil in Hc
              | by apply list_elem_of_singleton in Hc as -> ].
    + assert (Hall : Forall (fun c => Layout.name c = "") nvs).
      { eapply mapM_from_Forall; [|exact Hnv].
        intros k' x ga y gb _ Hy. simpl in Hy.
        by apply emit_nvbase_members in Hy as (? & _). }
      rewrite Forall_forall in Hall. by apply Hall.
    + unfold emit_vbptr in Hc.
      destruct (hasOwnVBPtr _);
        first [ by apply elem_of_nil in Hc
              | by apply list_elem_of_singleton in Hc as -> ].
    + assert (Hall : Forall (fun c => is_field (Layout.nature c) = true) fs).
      { eapply mapM_from_Forall; [|exact Hf].
        intros k' x ga y gb _ Hy. rewrite (emit_field_nature _ _ _ _ _ _ _ Hy).
        destruct (field_getAsCXXRecordDecl x); [done|].
        by destruct (isBitField x). }
      rewrite Forall_forall in Hall. specialize (Hall c Hc). congruence.
    + destruct includeVirtualBases;
        [|destruct Hv as [-> _]; by apply elem_of_nil in Hc].
      assert (Hall : Forall (Forall (fun c => Layout.name c = "")) vss).
      { eapply mapM_from_Forall; [|exact Hv].
        intros k' x ga y gb _ Hy. simpl in Hy.
        apply emit_vbase_members in Hy.
        eapply Forall_impl; [exact Hy|]. by intros ? [? _]. }
      apply Forall_concat in Hall. rewrite Forall_forall in Hall.
      by apply Hall.
Qed.

Lemma children_names_witness :
  asserts_hold struct_W true = true
  /\ exists n g',
       ComputeStruct (H := sample_Constructors) microsoft struct_W true
         sample_Globals = Some (n, g')
       /\ Layout.name <$> children_of is_field n = ["p"]
       /\ Layout.type <$> children_of is_field n = ["P"].
Proof.
  split; [reflexivity|].
  destruct (children_names (H := sample_Constructors) microsoft struct_W true
              sample_Globals eq_refl) as (n & g' & Hrun & Hn & Ht & _).
  exists n, g'. split_and!; [exact Hrun | exact Hn | exact Ht].
Defined.

(** X9.  A child of the node built for a record is tagged as a primary
    base only if it is the node of a base whose declaration is the
    primary base the layout reports.  So a record whose layout reports no
    primary base has no child tagged primary, and neither has a node with
    a [VTablePtr] child: the vtable pointer is emitted only when there is
    no primary base to supply it. *)
Theorem primary_tags `{Layout.Constructors} context declaration
    includeVirtualBases g :
  asserts_hold declaration includeVirtualBases = true ->
  exists n g',
    ComputeStruct context declaration includeVirtualBases g = Some (n, g')
    /\ let layout := getASTRecordLayout declaration in
       (forall c, c ∈ Layout.children n ->
          is_primary (Layout.nature c) = true ->
          exists base : CXXBaseSpecifier,
            (base ∈ bases declaration \/ base ∈ vbases declaration)
            /\ getPrimaryBase layout
               = Some (declID (base_getAsCXXRecordDecl base))
            /\ Layout.type c
               = getQualifiedNameAsString (base_getAsCXXRecordDecl base))
       /\ (getPrimaryBase layout = None -> children_of is_primary n = [])
       /\ (children_of (is_category Layout.VTablePtr) n <> [] ->
           children_of is_primary n = []).
Proof.
  intros Hok.
  destruct (ComputeStruct_returns context declaration includeVirtualBases g Hok)
    as [[n g'] Hrun].
  exists n, g'. split; [done|].
  destruct (ComputeStruct_segments _ _ _ _ _ _ Hrun)
    as (nvs & g1 & fs & g2 & vss & (Hnv & Hf & Hv) & Hch & _ & _ & _ & Hvt & _).
  simpl.
  assert (Hone : forall c, c ∈ Layout.children n ->
            is_primary (Layout.nature c) = true ->
            exists base : CXXBaseSpecifier,
              (base ∈ bases declaration \/ base ∈ vbases declaration)
              /\ getPrimaryBase (getASTRecordLayout declaration)
                 = Some (declID (base_getAsCXXRecordDecl base))
              /\ Layout.type c
                 = getQualifiedNameAsString (base_getAsCXXRecordDecl base)).
  { rewrite Hch. intros c Hc Hp.
    rewrite !elem_of_app in Hc.
    destruct Hc as [Hc | [Hc | [Hc | [Hc | Hc]]]].
    - unfold emit_vptr in Hc.
      destruct (_ && _ && _); [|destruct (hasOwnVFPtr _)];
        first [ by apply elem_of_nil in Hc
              | by apply list_elem_of_singleton in Hc as -> ].
    - assert (Hall : Forall (fun c =>
                is_primary (Layout.nature c) = true ->
                exists base : CXXBaseSpecifier,
                  (base ∈ bases declaration \/ base ∈ vbases declaration)
                  /\ getPrimaryBase (getASTRecordLayout declaration)
                     = Some (declID (base_getAsCXXRecordDecl base))
                  /\ Layout.type c
                     = getQualifiedNameAsString
                         (base_getAsCXXRecordDecl base)) nvs).
      { eapply mapM_from_Forall; [|exact Hnv].
        intros k' x ga y gb Hin Hy. simpl in Hy.
        apply emit_nvbase_members in Hy as (_ & Ht & Hpb).
        apply elem_of_sorted_nvbases in Hin as (b & Hb & _ & <-).
        intros Hy. exists b. split_and!; [by left | by apply Hpb | done]. }
      rewrite Forall_forall in Hall. by apply Hall.
    - unfold emit_vbptr in Hc.
      destruct (hasOwnVBPtr _);
        first [ by apply elem_of_nil in Hc
              | by apply list_elem_of_singleton in Hc as -> ].
    - assert (Hall : Forall (fun c => is_field (Layout.nature c) = true) fs).
      { eapply mapM_from_Forall; [|exact Hf].
        intros k' x ga y gb _ Hy. rewrite (emit_field_nature _ _ _ _ _ _ _ Hy).
        destruct (field_getAsCXXRecordDecl x); [done|].
        by destruct (isBitField x). }
      rewrite Forall_forall in Hall. specialize (Hall c Hc).
      by destruct (Layout.nature c).
    - destruct includeVirtualBases;
        [|destruct Hv as [-> _]; by apply elem_of_nil in Hc].
      assert (Hall : Forall (Forall (fun c =>
                is_primary (Layout.nature c) = true ->
                exists base : CXXBaseSpecifier,
                  (base ∈ bases declaration \/ base ∈ vbases declaration)
                  /\ getPrimaryBase (getASTRecordLayout declaration)
                     = Some (declID (base_getAsCXXRecordDecl base))
                  /\ Layout.type c
                     = getQualifiedNameAsString
                         (base_getAsCXXRecordDecl base))) vss).
      { eapply mapM_from_Forall; [|exact Hv].
        intros k' x ga y gb Hin Hy. simpl in Hy.
        apply emit_vbase_members in Hy.
        eapply Forall_impl; [exact Hy|]. intros c' [_ Hc'] Hp'.
        destruct (Hc' Hp') as [? ?]. exists x.
        split_and!; [by right | done | done]. }
      apply Forall_concat in Hall. rewrite Forall_forall in Hall.
      by apply Hall. }
  assert (Hnone : getPrimaryBase (getASTRecordLayout declaration) = None ->
                  children_of is_primary n = []).
  { intros Hnp. apply filter_none, Forall_forall. intros c Hc.
    destruct (is_primary (Layout.nature c)) eqn:Hp; [|done].
    destruct (Hone c Hc Hp) as (b & _ & Hb & _). congruence. }
  split_and!; [exact Hone | exact Hnone |].
  intros Hne. apply Hnone. rewrite Hvt in Hne.
  unfold emits_VTablePtr in Hne.
  destruct (getPrimaryBase (getASTRecordLayout declaration)) as [p|]; [|done].
  exfalso. apply Hne.
  rewrite bool_decide_eq_true_2 by by eexists.
  by rewrite andb_false_r.
Qed.

Lemma primary_tags_witness :
  asserts_hold struct_A true = true
  /\ exists n g',
       ComputeStruct (H := sample_Constructors) itanium struct_A true
         sample_Globals = Some (n, g')
       /\ children_of is_primary n = [].
Proof.
  split; [reflexivity|].
  destruct (primary_tags (H := sample_Constructors) itanium struct_A true
              sample_Globals eq_refl) as (n & g' & Hrun & _ & Hnone & _).
  exists n, g'. split; [exact Hrun | exact (Hnone eq_refl)].
Defined.

(** ** More on the declaration locator *)

Section locate_more.
Context (g : Globals) (sourceManager : SourceManager).

Let filter := g_locationFilter g.
Let step := fun v (c : Candidate) => TryRecord g v c.1 c.2.

(** A best match, once there is one, starts after (0, 0). *)
Lemma scan_start_positive (cands : list Candidate) :
  let v := foldl step (Visitor_new sourceManager) cands in
  m_sourceManager v = sourceManager
  /\ (is_Some (m_best v) ->
      pos_lt (0, 0)%N (m_bestStartLine v, m_bestStartCol v)).
Proof.
  induction cands as [|c cands IH] using rev_ind; [by split; [|intros []]|].
  simpl. rewrite foldl_app. simpl.
  set (v := foldl step (Visitor_new sourceManager) cands) in *.
  simpl in IH. destruct IH as [Hsm Hpos].
  change (step v c) with (TryRecord g v c.1 c.2).
  destruct (TryRecord_step g sourceManager v c Hsm)
    as [(_ & _ & Hlt & decl & _ & ->) | (_ & ->)]; simpl; [|done].
  split; [done|]. intros _.
  unfold pos_lt, start_of in *. simpl in *. lia.
Qed.

(** A candidate that does not qualify leaves the visitor as it is. *)
Lemma scan_skip (cands : list Candidate) v :
  m_sourceManager v = sourceManager ->
  Forall (fun c => ~ qualifies sourceManager filter c) cands ->
  foldl step v cands = v.
Proof.
  intros Hsm Hall. induction Hall as [|c cands Hc _ IH]; [done|].
  simpl. change (step v c) with (TryRecord g v c.1 c.2).
  destruct (TryRecord_step g sourceManager v c Hsm)
    as [(Hel & Hin & _) | (_ & ->)]; [|done].
  destruct Hc. by split.
Qed.

Lemma scan_sourceManager (cands : list Candidate) v :
  m_sourceManager v = sourceManager ->
  m_sourceManager (foldl step v cands) = sourceManager.
Proof.
  revert v. induction cands as [|c cands IH]; intros v Hsm; [done|].
  simpl. apply IH. change (step v c) with (TryRecord g v c.1 c.2).
  by rewrite (proj1 (TryRecord_members g v c.1 c.2)).
Qed.

End locate_more.

Lemma candidates_app sourceManager (D1 D2 : list Decl) :
  candidates sourceManager (D1 ++ D2)
  = candidates sourceManager D1 ++ candidates sourceManager D2.
Proof. unfold candidates. by rewrite concat_app, fmap_app, concat_app. Qed.

Lemma candidate_of_outside sourceManager visit :
  in_main_file sourceManager visit = false ->
  candidate_of sourceManager visit = [].
Proof. destruct visit as [d|d]; simpl; by intros ->. Qed.

Lemma candidates_filter sourceManager (D : Decl) :
  concat (candidate_of sourceManager
            <$> List.filter (in_main_file sourceManager) D)
  = concat (candidate_of sourceManager <$> D).
Proof.
  induction D as [|visit D IH]; [done|].
  cbn [List.filter]. rewrite fmap_cons, concat_cons.
  destruct (in_main_file sourceManager visit) eqn:E.
  - by rewrite fmap_cons, concat_cons, IH.
  - by rewrite IH, (candidate_of_outside _ _ E).
Qed.

Lemma candidates_main_file sourceManager (Decls : list Decl) :
  candidates sourceManager (main_file_visits sourceManager Decls)
  = candidates sourceManager Decls.
Proof.
  unfold candidates, main_file_visits.
  induction Decls as [|D Decls IH]; [done|].
  rewrite !fmap_cons, !concat_cons, !fmap_app, !concat_app.
  by rewrite IH, candidates_filter.
Qed.

(** X10.  Whatever the positions, [locate] returns the record of the
    first among the latest-starting candidates that are eligible, contain
    the filter position and start after line 0, column 0, the start the
    visitor is constructed with; it returns absent exactly when every
    eligible candidate containing the filter position starts at (0, 0).
    A candidate that starts at (0, 0) is never returned. *)
Theorem locate_general context (Decls : list Decl) g :
  let sourceManager := getSourceManager context in
  let filter := g_locationFilter g in
  let cands := candidates sourceManager Decls in
  match locate context Decls g with
  | Some best =>
      exists i c,
        cands !! i = Some c /\ c.1 = Some best
        /\ qualifies sourceManager filter c
        /\ pos_lt (0, 0)%N (start_of sourceManager c)
        /\ forall j c',
             cands !! j = Some c' -> qualifies sourceManager filter c' ->
             pos_le (start_of sourceManager c') (start_of sourceManager c)
             /\ (start_of sourceManager c' = start_of sourceManager c ->
                 (i <= j)%nat)
  | None =>
      forall c, c ∈ cands -> qualifies sourceManager filter c ->
                start_of sourceManager c = (0, 0)%N
  end.
Proof.
  intros sourceManager filter cands.
  rewrite locate_scan. fold sourceManager. fold cands.
  destruct (scan_invariant g sourceManager cands) as (_ & Hmax & Hbest).
  destruct (scan_start_positive g sourceManager cands) as (_ & Hpos).
  simpl in Hmax, Hbest, Hpos. fold filter in Hmax, Hbest.
  destruct (m_best _) as [best|].
  - destruct Hbest as (i & c & Hi & Hd & Hel & Hin & Hst & Hfirst).
    exists i, c. split_and!; try done.
    + rewrite Hst. apply Hpos. by eexists.
    + intros j c' Hj [Hel' Hin']. rewrite Hst. split.
      * apply Hmax; [by eapply list_elem_of_lookup_2 | done | done].
      * intros Heq. destruct (decide (i <= j)%nat) as [|Hlt]; [done|].
        assert (Hji : (j < i)%nat) by lia.
        specialize (Hfirst j c' Hji Hj Hel' Hin').
        rewrite Heq in Hfirst. unfold pos_lt in Hfirst.
        destruct Hfirst as [Hf | [_ Hf]]; by apply N.lt_irrefl in Hf.
  - intros c Hc [Hel Hin].
    specialize (Hmax c Hc Hel Hin).
    rewrite Hbest in Hmax. unfold pos_le in Hmax.
    destruct (start_of sourceManager c) as [l0 c0]. simpl in *.
    destruct Hmax as [Hm | [-> Hm]]; [by apply N.nlt_0_r in Hm|].
    apply N.le_0_r in Hm. by rewrite Hm.
Qed.

(** X11.  A top-level declaration none of whose candidates is eligible
    with a range containing the filter position can be removed from, or
    inserted into, the translation unit at any place without changing
    what [locate] returns.  Declarations visited outside the main file
    yield no candidate and are such declarations. *)
Theorem locate_skips_irrelevant context (D1 D2 : list Decl) (D : Decl) g :
  let sourceManager := getSourceManager context in
  (forall c, c ∈ candidates sourceManager [D] ->
             ~ qualifies sourceManager (g_locationFilter g) c) ->
  locate context (D1 ++ D :: D2) g = locate context (D1 ++ D2) g.
Proof.
  intros sourceManager Hskip.
  rewrite !locate_scan. fold sourceManager.
  change (D :: D2) with ([D] ++ D2).
  rewrite !candidates_app, !foldl_app. f_equal. f_equal.
  apply (scan_skip g sourceManager); [|by apply Forall_forall].
  by apply (scan_sourceManager g sourceManager).
Qed.

Lemma locate_skips_irrelevant_witness :
  (forall c,
     c ∈ candidates (getSourceManager itanium)
           [[CXXRecord struct_A; CXXRecord struct_P]] ->
     ~ qualifies (getSourceManager itanium) (g_locationFilter sample_filter)
         c)
  /\ locate itanium
       ([[CXXRecord struct_Outer; CXXRecord struct_Inner]]
        ++ [CXXRecord struct_A; CXXRecord struct_P] :: []) sample_filter
     = locate itanium
         ([[CXXRecord struct_Outer; CXXRecord struct_Inner]] ++ [])
         sample_filter.
Proof.
  assert (Hskip : forall c,
    c ∈ candidates (getSourceManager itanium)
          [[CXXRecord struct_A; CXXRecord struct_P]] ->
    ~ qualifies (getSourceManager itanium) (g_locationFilter sample_filter) c).
  { apply Forall_forall.
    constructor; [|constructor; [|constructor]];
      intros [_ [_ He]]; unfold pos_le in He; vm_compute in He;
      destruct He as [He | [He _]]; discriminate. }
  split; [exact Hskip|].
  exact (locate_skips_irrelevant itanium
           [[CXXRecord struct_Outer; CXXRecord struct_Inner]] []
           [CXXRecord struct_A; CXXRecord struct_P] sample_filter Hskip).
Defined.

(** X12.  [locate] sees a translation unit only through the visits in
    the main file: dropping every visited declaration whose location lies
    in another file leaves the result unchanged, and a translation unit
    with no visit in the main file yields absent. *)
Theorem locate_main_file_only context (Decls : list Decl) g :
  let sourceManager := getSourceManager context in
  locate context (main_file_visits sourceManager Decls) g
  = locate context Decls g
  /\ (Forall (Forall (fun visit => in_main_file sourceManager visit = false))
        Decls ->
      locate context Decls g = None).
Proof.
  intros sourceManager. split.
  - rewrite !locate_scan. fold sourceManager.
    by rewrite candidates_main_file.
  - intros Hout. rewrite locate_scan. fold sourceManager.
    assert (Hnil : candidates sourceManager Decls = []).
    { unfold candidates.
      induction Hout as [|D Decls HD _ IH]; [done|].
      rewrite concat_cons, fmap_app, concat_app, IH, app_nil_r.
      clear IH. induction HD as [|visit D Hv _ IH]; [done|].
      by rewrite fmap_cons, concat_cons, IH, (candidate_of_outside _ _ Hv). }
    by rewrite Hnil.
Qed.

Lemma locate_main_file_only_witness :
  Forall (Forall (fun visit =>
                    in_main_file (getSourceManager itanium) visit = false))
    [[Var (mkVarDecl 101120 (mkSourceRange 101103 101125)
             (Some struct_Inner))]]
  /\ locate itanium
       [[Var (mkVarDecl 101120 (mkSourceRange 101103 101125)
                (Some struct_Inner))]] sample_filter
     = None.
Proof.
  assert (Hout :
    Forall (Forall (fun visit =>
                      in_main_file (getSourceManager itanium) visit = false))
      [[Var (mkVarDecl 101120 (mkSourceRange 101103 101125)
               (Some struct_Inner))]]).
  { repeat constructor. }
  split; [exact Hout|].
  exact (proj2 (locate_main_file_only itanium
                  [[Var (mkVarDecl 101120 (mkSourceRange 101103 101125)
                           (Some struct_Inner))]] sample_filter) Hout).
Defined.

(** ** The number of children *)

Section count.
Context `{Layout.Constructors} (context : ASTContext).

Lemma mapM_from_length {X Y : Type} (e : nat -> X -> M Y) k l g ys g' :
  mapM_from e k l g = Some (ys, g') -> length ys = length l.
Proof.
  intros Hrun. by destruct (mapM_from_trace e k l g ys g' Hrun) as (_ & _ & ? & _).
Qed.

Lemma emit_vbase_count layout (l : list CXXBaseSpecifier) k g vss g' :
  mapM_from (fun _ => emit_vbase context layout) k l g = Some (vss, g') ->
  length (concat vss)
  = (length l
     + length (List.filter
                 (fun b : CXXBaseSpecifier =>
                    hasVtorDisp layout (declID (base_getAsCXXRecordDecl b)))
                 l))%nat.
Proof.
  revert k g vss g'. induction l as [|b l IH]; intros k g vss g'.
  - by intros [= <- <-].
  - rewrite mapM_from_cons.
    destruct (emit_vbase context layout b g) as [[cs g1]|] eqn:E; [|done].
    destruct (mapM_from _ (S k) l g1) as [[vss' g2]|] eqn:E2; [|done].
    intros [= <- <-]. apply emit_vbase_inv in E as (n0 & _ & _ & ->).
    rewrite concat_cons, !length_app, (IH _ _ _ _ E2).
    unfold emit_vtorDisp. simpl.
    destruct (hasVtorDisp layout _); simpl; lia.
Qed.

End count.

(** X13.  The node built for a record has one child per field, one per
    direct non-virtual base and, with [includeVirtualBases], one per
    virtual base plus one per virtual base with a vtordisp; together with
    at most one vtable or vftable pointer and at most one vbtable pointer
    these are all its children. *)
Theorem children_count `{Layout.Constructors} context declaration
    includeVirtualBases g :
  asserts_hold declaration includeVirtualBases = true ->
  exists n g',
    ComputeStruct context declaration includeVirtualBases g = Some (n, g')
    /\ let layout := getASTRecordLayout declaration in
       let count (b : bool) := if b then 1%nat else 0%nat in
       let vbase_count :=
         (length (vbases declaration)
          + length (List.filter
                      (fun b : CXXBaseSpecifier =>
                         hasVtorDisp layout
                           (declID (base_getAsCXXRecordDecl b)))
                      (vbases declaration)))%nat in
       length (children_of is_field n) = length (fields declaration)
       /\ length (children_of is_nvbase n)
          = length (List.filter
                      (fun b : CXXBaseSpecifier => negb (isVirtual b))
                      (bases declaration))
       /\ length (children_of is_vbase n)
          = (if includeVirtualBases then vbase_count else 0%nat)
       /\ length (Layout.children n)
          = (count (emits_VTablePtr context declaration
                    || emits_VFTablePtr context declaration)
             + length (children_of is_nvbase n)
             + count (hasOwnVBPtr layout)
             + length (children_of is_field n)
             + length (children_of is_vbase n))%nat.
Proof.
  intros Hok.
  destruct (ComputeStruct_returns context declaration includeVirtualBases g Hok)
    as [[n g'] Hrun].
  exists n, g'. split; [done|].
  destruct (ComputeStruct_segments _ _ _ _ _ _ Hrun)
    as (nvs & g1 & fs & g2 & vss & (Hnv & Hf & Hv) & Hch & -> & -> & -> & _).
  simpl. split_and!.
  - by eapply mapM_from_length.
  - rewrite (mapM_from_length _ _ _ _ _ _ Hnv).
    unfold sorted_nvbases. rewrite stable_sort_Permutation.
    unfold nvbases. by rewrite length_fmap.
  - destruct includeVirtualBases.
    + by eapply emit_vbase_count.
    + by destruct Hv as [-> _].
  - rewrite Hch, !length_app.
    unfold emit_vptr, emit_vbptr, emits_VFTablePtr, emits_VTablePtr.
    destruct (_ && _ && _); [|destruct (hasOwnVFPtr _)];
      destruct (hasOwnVBPtr _); simpl; lia.
Qed.

Lemma children_count_witness :
  asserts_hold struct_W true = true
  /\ exists n g',
       ComputeStruct (H := sample_Constructors) microsoft struct_W true
         sample_Globals = Some (n, g')
       /\ length (children_of is_field n) = 1%nat
       /\ length (children_of is_nvbase n) = 0%nat
       /\ length (children_of is_vbase n) = 2%nat
       /\ length (Layout.children n) = 4%nat.
Proof.
  split; [reflexivity|].
  destruct (children_count (H := sample_Constructors) microsoft struct_W true
              sample_Globals eq_refl)
    as (n & g' & Hrun & Hf & Hnv & Hv & Hall).
  exists n, g'. split; [exact Hrun|].
  split; [exact Hf|]. split; [exact Hnv|]. split; [exact Hv|].
  rewrite Hall, Hf, Hnv, Hv. reflexivity.
Defined.

(** ** The driver *)

(** X14.  One run of the driver up to serialization: [ClearResult],
    [SetFilter], then [HandleTranslationUnit].  When [locate] finds no
    declaration the result is empty: no root node, no file, no binding.
    When it finds one whose layout trips an assertion the run aborts.
    Otherwise the root node is the tree built for the declaration found
    with [includeVirtualBases = true]: its type is the qualified name of
    that declaration and its size the full size of its layout, the
    filter is the one set, and every location in the tree is either
    unset or holds an index of the file table of the result. *)
Theorem driver_outcome `{Layout.Constructors} context (Decls : list Decl)
    filter g0 :
  let start := SetFilter filter (ClearResult g0) in
  match locate context Decls start with
  | None =>
      HandleTranslationUnit context Decls start = Some (tt, start)
      /\ Layout.node (g_result start) = None
      /\ Layout.files (g_result start) = []
      /\ g_filenameLookup start = ∅
  | Some best =>
      if asserts_hold best true
      then exists n g',
          HandleTranslationUnit context Decls start = Some (tt, g')
          /\ Layout.node (g_result g') = Some n
          /\ (exists g1, ComputeStruct context best true start = Some (n, g1)
                         /\ Layout.files (g_result g')
                            = Layout.files (g_result g1)
                         /\ g_filenameLookup g' = g_filenameLookup g1)
          /\ g_locationFilter g' = filter
          /\ Layout.type n = getQualifiedNameAsString best
          /\ Layout.size n = getSize (getASTRecordLayout best)
          /\ table_ok g'
          /\ Forall (node_locations_ok g') (nodes n)
      else HandleTranslationUnit context Decls start = None
  end.
Proof.
  simpl.
  - unfold HandleTranslationUnit.
    set (start := SetFilter filter (ClearResult g0)).
    destruct (locate context Decls start) as [best|]; [|done].
    destruct (asserts_hold best true) eqn:Hok.
    + destruct (ComputeStruct_returns context best true start Hok)
        as [[n g1] Hrun].
      assert (Hstart : table_ok start).
      { split; intros h; intros; simpl in *; by rewrite lookup_empty in *. }
      destruct (ComputeStruct_table context best true start n g1 Hrun Hstart)
        as [[Hrange Hinj] Hall].
      destruct (ComputeStruct_grows context best true start n g1 Hrun)
        as (Hfilter & _).
      destruct (ComputeStruct_members _ _ _ _ _ _ Hrun)
        as (_ & Htype & _ & _ & _ & Hsize & _).
      rewrite Hrun. eexists n, _. split; [reflexivity|]. simpl.
      split_and!; try done. by exists g1.
    + destruct (ComputeStruct context best true start) as [r|] eqn:Hrun;
        [|done].
      rewrite (ComputeStruct_asserts context best true start) in Hok;
        [done | by eexists].
Qed.

(** ** [DestroyTree] *)

Lemma Node_nested_ind (P : Layout.Node -> Prop) :
  (forall n, Forall P (Layout.children n) -> P n) -> forall n, P n.
Proof.
  intros step. fix self 1. intros n. apply step.
  destruct n as [? ? ? ? ? ? ? ? cs]. simpl.
  induction cs as [|c cs IH]; constructor; [apply self | apply IH].
Qed.

Lemma DestroyTree_node_eq n :
  DestroyTree_node n
  = concat (map DestroyTree_node (Layout.children n)) ++ [n].
Proof. by destruct n. Qed.

Lemma concat_map_Permutation {A B : Type} (f g : A -> list B) l :
  Forall (fun x => f x ≡ₚ g x) l -> concat (map f l) ≡ₚ concat (map g l).
Proof.
  induction 1 as [|x l Hx _ IH]; [done|].
  cbn [map]. rewrite !concat_cons. by rewrite Hx, IH.
Qed.

Lemma DestroyTree_node_nodes n : DestroyTree_node n ≡ₚ nodes n.
Proof.
  induction n as [n IH] using Node_nested_ind.
  rewrite DestroyTree_node_eq, nodes_eq.
  rewrite (concat_map_Permutation _ _ _ IH).
  by rewrite <- Permutation_cons_append.
Qed.

(** X15.  [DestroyTree] deletes every node of the tree it is given once,
    the root last and every node after the nodes of its own subtree; on
    a null pointer it deletes nothing. *)
Theorem DestroyTree_deletes_tree (node : option Layout.Node) :
  DestroyTree node ≡ₚ from_option nodes [] node
  /\ last (DestroyTree node) = node
  /\ Forall (fun m => exists before after,
                 DestroyTree node
                 = before
                   ++ concat (map DestroyTree_node (Layout.children m))
                   ++ [m] ++ after)
       (DestroyTree node).
Proof.
  destruct node as [n|]; simpl; [|done].
  split_and!.
  - apply DestroyTree_node_nodes.
  - rewrite DestroyTree_node_eq. apply last_snoc.
  - induction n as [n IH] using Node_nested_ind.
    rewrite DestroyTree_node_eq at 1. apply Forall_app. split.
    + rewrite (DestroyTree_node_eq n).
      induction IH as [|c cs Hc _ IHcs]; [constructor|].
      cbn [map]. rewrite concat_cons. apply Forall_app. split.
      * eapply Forall_impl; [exact Hc|]. intros m (b & a & ->).
        exists b, (a ++ concat (map DestroyTree_node cs) ++ [n]).
        by rewrite <- !app_assoc.
      * eapply Forall_impl; [exact IHcs|]. intros m (b & a & E).
        exists (DestroyTree_node c ++ b), a.
        rewrite <- !app_assoc in *. by rewrite E.
    + constructor; [|constructor]. exists [], [].
      by rewrite DestroyTree_node_eq.
Qed.
